(** * Sales data analysis and report generation: a verified model

    A shallow embedding of [sales_data_analysis.py]: the cleaning rules of
    [SalesDataAnalyzer.load_and_clean_data], the aggregations of
    [analyze_data], the output path and failure points of
    [generate_word_report], the notifier [send_email_with_report] and the
    entry point [main]; and of the smoke test of [test_email.py].

    Modelling conventions.
    - A pandas DataFrame is a list of rows in positional order.  [read_csv]
      gives the frame a RangeIndex whose labels are unique and survive boolean
      filtering, so addressing a row through [.loc[idx, ...]] is addressing
      one position of the list.
    - A blank cell (NaN, NaT, None) is [None].  Text columns hold
      [option string]; numeric columns hold [option Q].  Whether [read_csv]
      has left a column as text, so that [.str] works on it, is the
      library's answer ([is_object_dtype]); the program takes Date,
      Category, ProductName and Salesperson through [.str] before anything
      else reads them.
    - The numeric columns compute in float64 (in int64 where [read_csv] saw
      integers only); the model computes with exact rationals over [Q], and
      [round] is round-half-to-even on the exact value.  Where a statement
      gives the value of a product or of a sum, it is made for the values
      on which the columns compute exactly ([exact_product],
      [exact_amounts]).
    - Text is a string of bytes.  [str.title], [str.lower], [str.strip] and
      [str.isdigit] are modelled on ASCII text; where a statement depends on
      what they do to other characters, it is made for ASCII text
      ([Str.isascii]).
    - Library code (pandas' column types, its date parser, ISO week numbers,
      the sort behind [sort_values]) enters through the interface [Pandas];
      the file system, with the answer it gives when the report is saved,
      the clock and the SMTP server are parts of an explicit [World]. *)

From Stdlib Require Import ZArith QArith Qabs Lia Lqa String Ascii Permutation Sorted.
From stdpp Require Import base list strings gmap.

Local Open Scope Q_scope.

(** ** Rounding *)

Module Round.

(** Python's [round(x)] on a float, NumPy's [rint]: the nearest integer, a
    tie going to the even neighbour. *)
Definition round_half_even (q : Q) : Z :=
  let n := Qnum q in
  let d := Z.pos (Qden q) in
  let k := (n / d)%Z in
  let r := (n mod d)%Z in
  match (2 * r ?= d)%Z with
  | Lt => k
  | Gt => (k + 1)%Z
  | Eq => if Z.even k then k else (k + 1)%Z
  end.

(** [DataFrame.round(2)] on one cell: [rint(x * 100) / 100], computed here
    on the exact value.  (NumPy computes the product and the quotient in
    float64; the two agree on the whole numbers of [exact_amounts].) *)
Definition round2 (q : Q) : Q := inject_Z (round_half_even (q * 100)) / 100.

(** A value with at most two decimal places. *)
Definition is_cents (q : Q) : Prop := exists z : Z, q == z # 100.

Lemma round_half_even_spec (q : Q) :
  let n := Qnum q in
  let d := Z.pos (Qden q) in
  let r := round_half_even q in
  (2 * d * r - d <= 2 * n <= 2 * d * r + d)%Z /\
  ((2 * n = 2 * d * r - d)%Z -> Z.even r = true) /\
  ((2 * n = 2 * d * r + d)%Z -> Z.even r = true).
Proof.
  destruct q as [n d]; cbn [Qnum Qden]; unfold round_half_even; cbn [Qnum Qden].
  pose proof (Z.div_mod n (Z.pos d) ltac:(lia)) as Hdm.
  pose proof (Z.mod_pos_bound n (Z.pos d) ltac:(lia)) as Hb.
  set (k := (n / Z.pos d)%Z) in *. set (m := (n mod Z.pos d)%Z) in *.
  destruct (Z.compare_spec (2 * m) (Z.pos d)) as [He|Hl|Hg].
  - destruct (Z.even k) eqn:Ek.
    + repeat split; try nia. intros _. exact Ek.
    + assert (Z.even (k + 1) = true) as Ek1.
      { rewrite Z.even_add, Ek. reflexivity. }
      repeat split; try nia; intros _; exact Ek1.
  - repeat split; nia.
  - repeat split; nia.
Qed.

Lemma round_half_even_mono (p q : Q) :
  p <= q -> (round_half_even p <= round_half_even q)%Z.
Proof.
  intros Hle. unfold Qle in Hle.
  destruct (round_half_even_spec p) as ([Hp1 Hp2] & Hp3 & Hp4).
  destruct (round_half_even_spec q) as ([Hq1 Hq2] & Hq3 & Hq4).
  cbv zeta in *.
  set (rp := round_half_even p) in *. set (rq := round_half_even q) in *.
  set (np := Qnum p) in *. set (nq := Qnum q) in *.
  set (dp := Z.pos (Qden p)) in *. set (dq := Z.pos (Qden q)) in *.
  assert (0 < dp)%Z as Hdp by (subst dp; lia).
  assert (0 < dq)%Z as Hdq by (subst dq; lia).
  destruct (Z_le_gt_dec rp rq) as [|Hgt]; [assumption|exfalso].
  assert ((2 * dp * rp - dp) * dq <= (2 * dq * rq + dq) * dp)%Z as Hchain by nia.
  assert (rp = rq + 1)%Z as Hrp by nia.
  assert (2 * np = 2 * dp * rp - dp)%Z as Htp by nia.
  assert (2 * nq = 2 * dq * rq + dq)%Z as Htq by nia.
  specialize (Hp3 Htp). specialize (Hq4 Htq).
  rewrite Hrp, Z.even_add, Hq4 in Hp3. discriminate.
Qed.

Lemma round_half_even_inject_Z (z : Z) : round_half_even (inject_Z z) = z.
Proof.
  unfold round_half_even, inject_Z; cbn [Qnum Qden].
  rewrite Z.mod_1_r, Z.div_1_r. reflexivity.
Qed.

#[export] Instance round_half_even_proper : Proper (Qeq ==> eq) round_half_even.
Proof.
  intros p q Hpq. apply Z.le_antisymm; apply round_half_even_mono; rewrite Hpq; apply Qle_refl.
Qed.

#[export] Instance round2_proper : Proper (Qeq ==> Qeq) round2.
Proof. intros p q Hpq. unfold round2. rewrite Hpq. reflexivity. Qed.

(** Rounding to a whole number is unchanged by mixing the value with
    copies of its own rounding: the mean of [c] values of total [t] and of
    [k] further values all equal to [round (t / c)] still rounds to
    [round (t / c)]. *)
Lemma round_half_even_mix (t : Q) (c k : nat) :
  (0 < c)%nat ->
  let r := round_half_even (t / inject_Z (Z.of_nat c)) in
  round_half_even
    ((t + inject_Z (Z.of_nat k) * inject_Z r) / inject_Z (Z.of_nat (c + k))) = r.
Proof.
  intros Hc r.
  set (C := inject_Z (Z.of_nat c)). set (K := inject_Z (Z.of_nat k)).
  assert (0 < C) as HC.
  { subst C. rewrite <- (Zlt_Qlt 0). lia. }
  assert (0 <= K) as HK.
  { subst K. rewrite <- (Zle_Qle 0). lia. }
  assert (inject_Z (Z.of_nat (c + k)) == C + K) as HCK.
  { subst C K. rewrite <- inject_Z_plus, Nat2Z.inj_add. reflexivity. }
  rewrite HCK.
  set (R := inject_Z r).
  set (m := t / C) in *.
  assert (t == m * C) as Ht.
  { subst m. field. lra. }
  set (x := (t + K * R) / (C + K)).
  assert (0 < C + K) as HCKpos by lra.
  assert (x * (C + K) == m * C + K * R) as Hx.
  { subst x. rewrite <- Ht. field. lra. }
  assert (round_half_even R = r) as HR by apply round_half_even_inject_Z.
  destruct (Qlt_le_dec R m) as [Hlt|Hle].
  - (* R < m: R <= x <= m *)
    assert (R <= x) as H1.
    { apply Qnot_lt_le. intros Hc'. assert (x * (C + K) < R * (C + K)) by nra. nra. }
    assert (x <= m) as H2.
    { apply Qnot_lt_le. intros Hc'. assert (m * (C + K) < x * (C + K)) by nra. nra. }
    apply Z.le_antisymm.
    + apply (round_half_even_mono x m) in H2. exact H2.
    + apply (round_half_even_mono R x) in H1. rewrite HR in H1. exact H1.
  - assert (x <= R) as H1.
    { apply Qnot_lt_le. intros Hc'. assert (R * (C + K) < x * (C + K)) by nra. nra. }
    assert (m <= x) as H2.
    { apply Qnot_lt_le. intros Hc'. assert (x * (C + K) < m * (C + K)) by nra. nra. }
    apply Z.le_antisymm.
    + apply (round_half_even_mono x R) in H1. rewrite HR in H1. exact H1.
    + apply (round_half_even_mono m x) in H2. exact H2.
Qed.

Lemma round2_cents (q : Q) : is_cents q -> round2 q == q.
Proof.
  intros [z Hz]. unfold round2.
  assert (q * 100 == inject_Z z) as H.
  { rewrite Hz. unfold Qeq, inject_Z; cbn. lia. }
  rewrite H, round_half_even_inject_Z, Hz.
  unfold Qeq, Qdiv, Qmult, Qinv, inject_Z; cbn. lia.
Qed.

Lemma is_cents_0 : is_cents 0.
Proof. exists 0%Z. reflexivity. Qed.

Lemma is_cents_plus (p q : Q) : is_cents p -> is_cents q -> is_cents (p + q).
Proof.
  intros [a Ha] [b Hb]. exists (a + b)%Z. rewrite Ha, Hb.
  unfold Qeq, Qplus; cbn. lia.
Qed.

#[export] Instance is_cents_proper : Proper (Qeq ==> iff) is_cents.
Proof. intros p q Hpq. unfold is_cents. setoid_rewrite Hpq. reflexivity. Qed.

End Round.
Export Round.

(** ** Data model *)

(** A pandas Timestamp: nanoseconds since the epoch. *)
Definition timestamp := Z.

(** One transaction row.  [D] is the type held by the Date column: text as
    read from the file, a timestamp once [pd.to_datetime] has run.  [Week]
    is the column [analyze_data] adds ([None] while it is absent or NA). *)
Record Row (D : Type) := mkRow {
  Date : option D;
  ProductID : option string;
  ProductName : option string;
  Category : option string;
  Region : option string;
  Salesperson : option string;
  Quantity : option Q;
  UnitPrice : option Q;
  TotalPrice : option Q;
  Week : option Z
}.
Arguments mkRow {D}.
Arguments Date {D}.
Arguments ProductID {D}.
Arguments ProductName {D}.
Arguments Category {D}.
Arguments Region {D}.
Arguments Salesperson {D}.
Arguments Quantity {D}.
Arguments UnitPrice {D}.
Arguments TotalPrice {D}.
Arguments Week {D}.

Abbreviation RawTable := (list (Row string)).
Abbreviation Table := (list (Row timestamp)).

Section ColumnUpdates.
  Context {D : Type}.

Definition set_Date {E : Type} (v : option E) (r : Row D) : Row E :=
    mkRow v (ProductID r) (ProductName r) (Category r) (Region r)
      (Salesperson r) (Quantity r) (UnitPrice r) (TotalPrice r) (Week r).
Definition set_ProductName (v : option string) (r : Row D) : Row D :=
    mkRow (Date r) (ProductID r) v (Category r) (Region r)
      (Salesperson r) (Quantity r) (UnitPrice r) (TotalPrice r) (Week r).
Definition set_Category (v : option string) (r : Row D) : Row D :=
    mkRow (Date r) (ProductID r) (ProductName r) v (Region r)
      (Salesperson r) (Quantity r) (UnitPrice r) (TotalPrice r) (Week r).
Definition set_Salesperson (v : option string) (r : Row D) : Row D :=
    mkRow (Date r) (ProductID r) (ProductName r) (Category r) (Region r)
      v (Quantity r) (UnitPrice r) (TotalPrice r) (Week r).
Definition set_Quantity (v : option Q) (r : Row D) : Row D :=
    mkRow (Date r) (ProductID r) (ProductName r) (Category r) (Region r)
      (Salesperson r) v (UnitPrice r) (TotalPrice r) (Week r).
Definition set_TotalPrice (v : option Q) (r : Row D) : Row D :=
    mkRow (Date r) (ProductID r) (ProductName r) (Category r) (Region r)
      (Salesperson r) (Quantity r) (UnitPrice r) v (Week r).
Definition set_Week (v : option Z) (r : Row D) : Row D :=
    mkRow (Date r) (ProductID r) (ProductName r) (Category r) (Region r)
      (Salesperson r) (Quantity r) (UnitPrice r) (TotalPrice r) v.
End ColumnUpdates.

(** ** Column arithmetic *)

(** [Series.sum()] with the default [skipna=True]: blanks are skipped, the
    empty sum is 0. *)
Definition Qsum (l : list Q) : Q := foldr Qplus 0 l.

(** [Series.mean()]: the mean of the non-blank cells, NaN when there is
    none. *)
Definition mean (l : list Q) : option Q :=
  match l with
  | [] => None
  | _ => Some (Qsum l / inject_Z (Z.of_nat (length l)))
  end.

(** Elementwise product of two numeric columns: NaN when either side is.
    The product is the exact one; see [exact_product] for where the columns
    compute the same. *)
Definition mul_cells (a b : option Q) : option Q :=
  match a, b with
  | Some x, Some y => Some (x * y)
  | _, _ => None
  end.

(** ** Where the arithmetic of the columns is exact

    A numeric column holds binary64 numbers, or 64-bit integers when
    [read_csv] saw nothing but integers in it; the model computes with
    rationals.  The two agree on an operation whose exact result the column
    can hold.  The statements below that give the value of a product or of a
    sum carry that condition. *)

(** A binary64 number: [m * 2^e] with a significand of 53 bits. *)
Definition binary64 (x : Q) : Prop :=
  exists m e : Z,
    (Z.abs m < 2 ^ 53)%Z /\ (-1074 <= e <= 971)%Z /\ x == inject_Z m * 2 ^ e.

(** A product that float64 multiplication does not round and int64
    multiplication does not wrap. *)
Definition exact_product (x : Q) : Prop :=
  binary64 x /\ Qabs x < inject_Z (2 ^ 63).

Definition whole (x : Q) : Prop := exists z : Z, x == inject_Z z.

(** Whole numbers whose absolute values add up to 2^46 at most.  Every
    partial sum of them, in any order, is a whole number below 2^53, which
    float64 addition does not round, and [round(2)], which multiplies by 100
    and divides again, gives back each such sum. *)
Definition exact_amounts (l : list Q) : Prop :=
  Forall whole l /\ Qsum (Qabs <$> l) <= inject_Z (2 ^ 46).

(** ** Text helpers (ASCII) *)

Module Text.

Definition is_upper (c : ascii) : bool :=
  let n := N_of_ascii c in ((65 <=? n) && (n <=? 90))%N.
Definition is_lower (c : ascii) : bool :=
  let n := N_of_ascii c in ((97 <=? n) && (n <=? 122))%N.
Definition is_digit (c : ascii) : bool :=
  let n := N_of_ascii c in ((48 <=? n) && (n <=? 57))%N.
Definition is_alpha (c : ascii) : bool := is_upper c || is_lower c.
Definition to_upper (c : ascii) : ascii :=
  if is_lower c then ascii_of_N (N_of_ascii c - 32) else c.
Definition to_lower (c : ascii) : ascii :=
  if is_upper c then ascii_of_N (N_of_ascii c + 32) else c.

(** [str.title()]: a letter that follows a letter is lowered, any other
    letter is capitalised.  Only the ASCII letters are cased here. *)
Fixpoint title_from (prev_cased : bool) (s : string) : string :=
  match s with
  | EmptyString => EmptyString
  | String c s' =>
      if is_alpha c
      then String (if prev_cased then to_lower c else to_upper c) (title_from true s')
      else String c (title_from false s')
  end.
Definition title (s : string) : string := title_from false s.

(** [pat in s]: [pat] occurs in [s] as a substring. *)
Fixpoint contains (pat s : string) : bool :=
  String.prefix pat s ||
  match s with
  | EmptyString => false
  | String _ s' => contains pat s'
  end.

End Text.

(** Boolean equality of two cells, as [==] compares an object column with a
    string: a blank equals nothing. *)
Definition cell_eqb (a b : option string) : bool :=
  match a, b with
  | Some x, Some y => String.eqb x y
  | _, _ => false
  end.

(** ** Cleaning rules *)

Section Cleaning.
  Context {D : Type}.
  Implicit Types (t : list (Row D)) (r : Row D).

  (** Rule 3: [Category], [ProductName] and [Salesperson] through
      [.str.title()]; blanks stay blank. *)
Definition normalize_text r : Row D :=
    set_Salesperson (Text.title <$> Salesperson r)
      (set_ProductName (Text.title <$> ProductName r)
        (set_Category (Text.title <$> Category r) r)).

  (** Rule 4: [cleaned_df[~(cleaned_df['ProductID'] == 'P0000')]]. *)
Definition invalid_product r : bool := cell_eqb (ProductID r) (Some "P0000"%string).
Definition remove_invalid_products t : list (Row D) :=
    List.filter (fun r => negb (invalid_product r)) t.

  (** Rule 5.  The index of the rows whose Quantity is blank, taken once
      before the loop starts. *)
Fixpoint missing_from (i : nat) t : list nat :=
    match t with
    | [] => []
    | r :: t' =>
        match Quantity r with
        | None => i :: missing_from (S i) t'
        | Some _ => missing_from (S i) t'
        end
    end.
Definition missing_qty t : list nat := missing_from 0 t.

  (** The non-blank quantities of the rows of product [pid], in row order:
      [df[(df['ProductID'] == pid) & df['Quantity'].notna()]['Quantity']]. *)
Definition peer_quantities (pid : option string) t : list Q :=
    omap (fun r => if cell_eqb (ProductID r) pid then Quantity r else None) t.

Definition avg_qty (pid : option string) t : option Q :=
    mean (peer_quantities pid t).

  (** One turn of the loop: the mean is taken over the table as it stands,
      and the rounded mean is written into the row when it is not NaN. *)
Definition impute_step t (idx : nat) : list (Row D) :=
    match t !! idx with
    | None => t
    | Some r =>
        match avg_qty (ProductID r) t with
        | None => t
        | Some a => alter (set_Quantity (Some (inject_Z (round_half_even a)))) idx t
        end
    end.

Definition impute_quantities t : list (Row D) :=
    fold_left impute_step (missing_qty t) t.

  (** Rule 6: [TotalPrice = Quantity * UnitPrice], whatever the file said. *)
Definition recompute_total r : Row D :=
    set_TotalPrice (mul_cells (Quantity r) (UnitPrice r)) r.

  (** Rule 7: a blank or empty Salesperson becomes ['Unknown']. *)
Definition missing_sales r : bool :=
    match Salesperson r with
    | None => true
    | Some s => String.eqb s ""
    end.
Definition fill_salesperson r : Row D :=
    if missing_sales r then set_Salesperson (Some "Unknown"%string) r else r.

  (** Rules 4 to 7 in order. *)
Definition clean_rows t : list (Row D) :=
    fill_salesperson <$>
      (recompute_total <$> impute_quantities (remove_invalid_products t)).

  (** What the loop amounts to: the value a blank Quantity of product [pid]
      ends with, computed from the table as it was before the loop. *)
Definition imputed_value (pid : option string) t : option Q :=
    (fun a => inject_Z (round_half_even a)) <$> avg_qty pid t.

Definition impute_row t r : Row D :=
    match Quantity r with
    | Some _ => r
    | None =>
        match imputed_value (ProductID r) t with
        | Some v => set_Quantity (Some v) r
        | None => r
        end
    end.
End Cleaning.

(** ** Facts about sums and means *)

Lemma Qsum_cons (x : Q) (l : list Q) : Qsum (x :: l) = x + Qsum l.
Proof. reflexivity. Qed.

Lemma Qsum_app (l1 l2 : list Q) : Qsum (l1 ++ l2) == Qsum l1 + Qsum l2.
Proof.
  induction l1 as [|x l1 IH].
  - change (Qsum ([] ++ l2)) with (Qsum l2). change (Qsum []) with 0. lra.
  - change ((x :: l1) ++ l2) with (x :: (l1 ++ l2)).
    rewrite !Qsum_cons, IH. lra.
Qed.

Lemma Qsum_perm (l1 l2 : list Q) : Permutation l1 l2 -> Qsum l1 == Qsum l2.
Proof.
  induction 1 as [|x l l' _ IH|x y l|l l' l'' _ IH1 _ IH2].
  - reflexivity.
  - rewrite !Qsum_cons, IH. reflexivity.
  - rewrite !Qsum_cons. lra.
  - rewrite IH1. exact IH2.
Qed.

Lemma Qsum_repeat (v : Q) (k : nat) :
  Qsum (repeat v k) == inject_Z (Z.of_nat k) * v.
Proof.
  induction k as [|k IH].
  - change (Qsum (repeat v 0)) with 0. change (Z.of_nat 0) with 0%Z.
    rewrite Qmult_0_l. reflexivity.
  - change (repeat v (S k)) with (v :: repeat v k). rewrite Qsum_cons, IH.
    rewrite Nat2Z.inj_succ. unfold Z.succ. rewrite inject_Z_plus. ring.
Qed.

(** The rounded mean of a non-empty list of quantities. *)
Definition rounded_mean (l : list Q) : Q :=
  inject_Z (round_half_even (Qsum l / inject_Z (Z.of_nat (length l)))).

Lemma mean_with_rounded_copies (l l0 : list Q) (k : nat) :
  l0 <> [] ->
  Permutation l (repeat (rounded_mean l0) k ++ l0) ->
  exists a, mean l = Some a /\ inject_Z (round_half_even a) = rounded_mean l0.
Proof.
  intros Hne Hperm.
  assert (length l = (length l0 + k)%nat) as Hlen.
  { rewrite (Permutation_length Hperm), length_app, repeat_length. lia. }
  assert (0 < length l0)%nat as Hpos by (destruct l0; [congruence|cbn; lia]).
  destruct l as [|x l']; [cbn in Hlen; lia|].
  eexists; split; [reflexivity|].
  unfold rounded_mean. f_equal.
  rewrite <- (round_half_even_mix (Qsum l0) (length l0) k Hpos).
  apply round_half_even_proper.
  rewrite Hlen, (Qsum_perm _ _ Hperm), Qsum_app, Qsum_repeat.
  unfold rounded_mean.
  set (c := inject_Z (Z.of_nat (length l0 + k))).
  assert (0 < c).
  { subst c. rewrite <- (Zlt_Qlt 0). lia. }
  field. lra.
Qed.

(** ** The imputation loop in closed form *)

Section Imputation.
Context {D : Type}.
Implicit Types (t T : list (Row D)) (r : Row D) (p : option string).

Lemma cell_eqb_eq (a b : option string) : cell_eqb a b = true -> a = b.
Proof.
  destruct a, b; cbn; try discriminate.
  intros H. apply String.eqb_eq in H. congruence.
Qed.

Lemma imputed_value_Some p T :
  peer_quantities p T <> [] ->
  imputed_value p T = Some (rounded_mean (peer_quantities p T)).
Proof.
  unfold imputed_value, avg_qty, mean, rounded_mean.
  destruct (peer_quantities p T); [congruence|reflexivity].
Qed.

Lemma imputed_value_None p T :
  peer_quantities p T = [] -> imputed_value p T = None.
Proof. unfold imputed_value, avg_qty. intros ->. reflexivity. Qed.

(** The table part of the way through the loop: the rows whose index is in
    [done] have been visited. *)
Definition partly_imputed (done : list nat) T (l : list (Row D)) (from : nat) :=
  imap (fun i r => if bool_decide (from + i ∈ done)%nat then impute_row T r else r) l.

Lemma peer_quantities_cons p r t :
  peer_quantities p (r :: t) =
  match (if cell_eqb (ProductID r) p then Quantity r else None) with
  | Some q => q :: peer_quantities p t
  | None => peer_quantities p t
  end.
Proof. reflexivity. Qed.


Lemma peer_quantities_partly p done T l from :
  exists k,
    Permutation (peer_quantities p (partly_imputed done T l from))
                (repeat (rounded_mean (peer_quantities p T)) k ++ peer_quantities p l)
    /\ (peer_quantities p T = [] -> k = 0%nat).
Proof.
  revert from. induction l as [|r l IH]; intros from.
  - exists 0%nat. split; [reflexivity|auto].
  - destruct (IH (S from)) as (k & Hk & Hk0).
    assert (partly_imputed done T (r :: l) from =
            (if bool_decide (from + 0 ∈ done)%nat then impute_row T r else r)
              :: partly_imputed done T l (S from)) as ->.
    { unfold partly_imputed. cbn [imap]. f_equal.
      apply imap_ext. intros i x _. cbn.
      replace (from + S i)%nat with (S from + i)%nat by lia. reflexivity. }
    set (tl := partly_imputed done T l (S from)) in *.
    assert (exists k', Permutation (peer_quantities p (r :: tl))
               (repeat (rounded_mean (peer_quantities p T)) k' ++ peer_quantities p (r :: l))
               /\ (peer_quantities p T = [] -> k' = 0%nat)) as Hkeep.
    { exists k. split; [|exact Hk0].
      rewrite !peer_quantities_cons.
      destruct (if cell_eqb (ProductID r) p then Quantity r else None).
      - rewrite Hk. apply Permutation_middle.
      - exact Hk. }
    destruct (bool_decide (from + 0 ∈ done)%nat); [|exact Hkeep].
    unfold impute_row.
    destruct (Quantity r) eqn:Hq; [exact Hkeep|].
    destruct (imputed_value (ProductID r) T) as [v|] eqn:Hv; [|exact Hkeep].
    rewrite !peer_quantities_cons. cbn [set_Quantity ProductID Quantity]. rewrite Hq.
    destruct (cell_eqb (ProductID r) p) eqn:Hp.
    + pose proof (cell_eqb_eq _ _ Hp) as Heq. subst p.
      assert (peer_quantities (ProductID r) T <> []) as Hne.
      { intros He. rewrite (imputed_value_None _ _ He) in Hv. discriminate. }
      rewrite (imputed_value_Some _ _ Hne) in Hv. injection Hv as <-.
      exists (S k). split; [|intros He; contradiction].
      cbn [repeat app]. apply perm_skip. exact Hk.
    + exists k. split; [exact Hk|exact Hk0].
Qed.

Lemma partly_imputed_lookup done T i :
  partly_imputed done T T 0 !! i =
  (fun r => if bool_decide (i ∈ done) then impute_row T r else r) <$> T !! i.
Proof. unfold partly_imputed. rewrite list_lookup_imap. reflexivity. Qed.

Lemma impute_step_partly done T i r :
  i ∉ done -> T !! i = Some r -> Quantity r = None ->
  impute_step (partly_imputed done T T 0) i = partly_imputed (i :: done) T T 0.
Proof.
  intros Hnot Hi Hq. unfold impute_step.
  rewrite partly_imputed_lookup, Hi. cbn [fmap option_fmap option_map].
  rewrite bool_decide_eq_false_2 by exact Hnot.
  unfold avg_qty.
  destruct (peer_quantities_partly (ProductID r) done T T 0) as (k & Hk & Hk0).
  destruct (peer_quantities (ProductID r) T) as [|q0 l0] eqn:Hpeers.
  - rewrite (Hk0 eq_refl) in Hk. cbn in Hk. symmetry in Hk. apply Permutation_nil in Hk.
    rewrite Hk. cbn [mean].
    apply list_eq. intros j. rewrite !partly_imputed_lookup.
    destruct (T !! j) as [rj|] eqn:Hj; [|reflexivity]. cbn. f_equal.
    destruct (decide (j = i)) as [->|Hne].
    + rewrite bool_decide_eq_false_2 by exact Hnot.
      rewrite bool_decide_eq_true_2 by (left).
      assert (rj = r) as -> by congruence.
      unfold impute_row. rewrite Hq, (imputed_value_None _ _ Hpeers). reflexivity.
    + destruct (bool_decide (j ∈ done)) eqn:Hd.
      * apply bool_decide_eq_true_1 in Hd.
        rewrite bool_decide_eq_true_2 by (right; exact Hd). reflexivity.
      * apply bool_decide_eq_false_1 in Hd.
        rewrite bool_decide_eq_false_2; [reflexivity|].
        rewrite elem_of_cons. intros [?|?]; [contradiction|contradiction].
  - rewrite <- Hpeers in Hk.
    assert (peer_quantities (ProductID r) T <> []) as Hne by (rewrite Hpeers; discriminate).
    destruct (mean_with_rounded_copies _ _ k Hne Hk) as (a & Ha & Hround).
    rewrite Ha, Hround.
    apply list_eq. intros j. rewrite list_lookup_alter, !partly_imputed_lookup.
    destruct (decide (i = j)) as [<-|Hne'].
    + rewrite Hi. cbn.
      rewrite bool_decide_eq_false_2 by exact Hnot.
      rewrite bool_decide_eq_true_2 by (left).
      unfold impute_row. rewrite Hq, (imputed_value_Some _ _ Hne). reflexivity.
    + destruct (T !! j) as [rj|] eqn:Hj; [|reflexivity]. cbn. f_equal.
      destruct (bool_decide (j ∈ done)) eqn:Hd.
      * apply bool_decide_eq_true_1 in Hd.
        rewrite bool_decide_eq_true_2 by (right; exact Hd). reflexivity.
      * apply bool_decide_eq_false_1 in Hd.
        rewrite bool_decide_eq_false_2; [reflexivity|].
        rewrite elem_of_cons. intros [?|?]; [congruence|contradiction].
Qed.

Lemma missing_from_spec t from i :
  i ∈ missing_from from t <->
  exists j r, i = (from + j)%nat /\ t !! j = Some r /\ Quantity r = None.
Proof.
  revert from. induction t as [|r t IH]; intros from; cbn [missing_from].
  - split; [intros H; inversion H|intros (j & r & _ & H & _); discriminate].
  - destruct (Quantity r) eqn:Hq.
    + rewrite IH. split.
      * intros (j & r' & -> & Hj & Hr'). exists (S j), r'. repeat split; [lia|exact Hj|exact Hr'].
      * intros (j & r' & -> & Hj & Hr'). destruct j as [|j]; cbn in Hj.
        -- congruence.
        -- exists j, r'. repeat split; [lia|exact Hj|exact Hr'].
    + rewrite elem_of_cons, IH. split.
      * intros [->|(j & r' & -> & Hj & Hr')].
        -- exists 0%nat, r. repeat split; [lia|exact Hq].
        -- exists (S j), r'. repeat split; [lia|exact Hj|exact Hr'].
      * intros (j & r' & -> & Hj & Hr'). destruct j as [|j]; cbn in Hj.
        -- left. lia.
        -- right. exists j, r'. repeat split; [lia|exact Hj|exact Hr'].
Qed.

Lemma missing_from_NoDup t from : NoDup (missing_from from t).
Proof.
  revert from. induction t as [|r t IH]; intros from; cbn [missing_from].
  - constructor.
  - destruct (Quantity r); [apply IH|].
    constructor; [|apply IH].
    rewrite missing_from_spec. intros (j & _ & Hj & _). lia.
Qed.

Lemma impute_fold T idxs done :
  NoDup idxs ->
  (forall i, i ∈ idxs -> i ∉ done) ->
  (forall i, i ∈ idxs -> exists r, T !! i = Some r /\ Quantity r = None) ->
  fold_left impute_step idxs (partly_imputed done T T 0) =
  partly_imputed (rev_append idxs done) T T 0.
Proof.
  revert done. induction idxs as [|i idxs IH]; intros done Hnd Hfresh Hmiss.
  - reflexivity.
  - cbn [fold_left rev_append].
    destruct (Hmiss i ltac:(left)) as (r & Hi & Hq).
    rewrite (impute_step_partly done T i r (Hfresh i ltac:(left)) Hi Hq).
    inversion Hnd as [|? ? Hni Hnd']; subst.
    apply IH.
    + exact Hnd'.
    + intros j Hj. rewrite elem_of_cons. intros [->|Hd].
      * contradiction.
      * apply (Hfresh j); [right; exact Hj|exact Hd].
    + intros j Hj. apply Hmiss. right. exact Hj.
Qed.

(** The loop, for all its mutation of the table under its feet, ends with
    every blank Quantity replaced by the rounded mean of the quantities its
    product had before the loop started. *)
Lemma impute_quantities_closed_form T :
  impute_quantities T = impute_row T <$> T.
Proof.
  unfold impute_quantities, missing_qty.
  assert (T = partly_imputed [] T T 0) as HT.
  { apply list_eq. intros j. rewrite partly_imputed_lookup.
    destruct (T !! j); [|reflexivity]. cbn.
    rewrite bool_decide_eq_false_2; [reflexivity|]. apply not_elem_of_nil. }
  rewrite HT at 2.
  rewrite impute_fold.
  - apply list_eq. intros j. rewrite partly_imputed_lookup, list_lookup_fmap.
    destruct (T !! j) as [r|] eqn:Hj; [|reflexivity]. cbn. f_equal.
    destruct (bool_decide _) eqn:Hd; [reflexivity|].
    apply bool_decide_eq_false_1 in Hd.
    unfold impute_row. destruct (Quantity r) eqn:Hq; [reflexivity|].
    exfalso. apply Hd. rewrite rev_append_rev, app_nil_r.
    apply list_elem_of_In, in_rev. rewrite rev_involutive. apply list_elem_of_In.
    apply missing_from_spec. exists j, r. auto.
  - apply missing_from_NoDup.
  - intros i _. apply not_elem_of_nil.
  - intros i Hi. apply missing_from_spec in Hi as (j & r & -> & Hj & Hq).
    exists r. auto.
Qed.

End Imputation.

(** ** Aggregates *)

(** One row of a grouped table: the columns 총매출 (total revenue),
    평균주문금액 (average order value), 주문수 (order count) and 총판매량
    (total quantity). *)
Record Agg := mkAgg {
  revenue : Q;
  avg_order : option Q;
  orders : nat;
  units : Q
}.

(** [agg({'TotalPrice': ['sum', 'mean', 'count'], 'Quantity': 'sum'}).round(2)]
    over the rows of one group.  [sum] and [mean] skip blanks and [count]
    counts the non-blank cells. *)
Definition aggregate (rows : Table) : Agg :=
  let prices := omap TotalPrice rows in
  mkAgg (round2 (Qsum prices))
        (round2 <$> mean prices)
        (length prices)
        (round2 (Qsum (omap Quantity rows))).

(** [agg({'TotalPrice': 'sum', 'Quantity': 'sum'}).round(2)]. *)
Definition aggregate_trend (rows : Table) : Q * Q :=
  (round2 (Qsum (omap TotalPrice rows)), round2 (Qsum (omap Quantity rows))).

(** The part of pandas this program calls and does not define.
    [is_object_dtype] tells whether [read_csv] leaves a column as text
    (dtype object), on which the [.str] accessor works: it does for a frame
    without rows, it does not for a column without a single value (read as
    float64), and where the values of a column all look like numbers or
    truth values the decision is the parser's.
    [to_datetime] converts a whole column and may raise;
    [sort_values_desc] is [sort_values(by='총매출', ascending=False)], whose
    default algorithm (quicksort) promises an ordered permutation and
    nothing about the order of equal keys. *)
Class Pandas := {
  is_object_dtype : list (option string) -> bool;
  object_dtype_no_rows : is_object_dtype [] = true;
  object_dtype_all_blank :
    forall c, c <> [] -> Forall (fun cell => cell = None) c ->
              is_object_dtype c = false;
  to_datetime : list (option string) -> option (list (option timestamp));
  to_datetime_length :
    forall c c', to_datetime c = Some c' -> length c' = length c;
  isocalendar_week : timestamp -> Z;
  sort_values_desc : forall {K : Type}, list (K * Agg) -> list (K * Agg);
  sort_values_perm :
    forall (K : Type) (l : list (K * Agg)), Permutation (sort_values_desc l) l;
  sort_values_sorted :
    forall (K : Type) (l : list (K * Agg)),
      StronglySorted (fun a b => revenue (snd b) <= revenue (snd a))
        (sort_values_desc l)
}.

(** ** Grouping *)

(** The keys [groupby] can sort: an order to list the groups by. *)
Class KeyOrder (K : Type) := key_leb : K -> K -> bool.

#[export] Instance string_key_order : KeyOrder string := String.leb.
#[export] Instance Z_key_order : KeyOrder Z := Z.leb.
#[export] Instance pair_key_order {A B : Type} `{EqDecision A}
    `{KeyOrder A} `{KeyOrder B} : KeyOrder (A * B) :=
  fun x y =>
    if decide (fst x = fst y) then key_leb (snd x) (snd y)
    else key_leb (fst x) (fst y).

Section GroupBy.
Context {K : Type} `{EqDecision K} `{KeyOrder K}.

Fixpoint insert_key (k : K) (l : list K) : list K :=
  match l with
  | [] => [k]
  | x :: l' => if key_leb k x then k :: l else x :: insert_key k l'
  end.

(** [groupby(..., sort=True)]: the distinct keys in ascending order. *)
Definition sort_keys (l : list K) : list K := foldr insert_key [] l.

(** The group keys of a frame: rows whose key is blank belong to no group
    ([dropna=True]). *)
Definition group_keys (key : Row timestamp -> option K) (t : Table) : list K :=
  sort_keys (remove_dups (omap key t)).

Definition group_rows (key : Row timestamp -> option K) (k : K) (t : Table) : Table :=
  List.filter (fun r => bool_decide (key r = Some k)) t.

Definition groupby {V : Type} (key : Row timestamp -> option K)
    (f : Table -> V) (t : Table) : list (K * V) :=
  (fun k => (k, f (group_rows key k t))) <$> group_keys key t.
End GroupBy.

(** The key of [groupby(['ProductID', 'ProductName'])]. *)
Definition product_key (r : Row timestamp) : option (string * string) :=
  match ProductID r, ProductName r with
  | Some i, Some n => Some (i, n)
  | _, _ => None
  end.

(** ** Analysis results *)

Record BasicStats := mkBasicStats {
  total_sales : Q;
  total_quantity : Q;
  avg_order_value : option Q;
  total_orders : nat;
  date_start : option timestamp;
  date_end : option timestamp
}.

Record AnalysisResults := mkAnalysisResults {
  basic_stats : BasicStats;
  category_analysis : list (string * Agg);
  region_analysis : list (string * Agg);
  salesperson_analysis : list (string * Agg);
  top_products : list ((string * string) * Agg);
  daily_trends : list (timestamp * (Q * Q));
  weekly_analysis : list (Z * (Q * Q))
}.

(** [Series.min()] and [Series.max()] of a datetime column: NaT is skipped,
    and NaT is the answer when nothing is left. *)
Definition min_date (l : list timestamp) : option timestamp :=
  match l with
  | [] => None
  | x :: l' => Some (foldr Z.min x l')
  end.
Definition max_date (l : list timestamp) : option timestamp :=
  match l with
  | [] => None
  | x :: l' => Some (foldr Z.max x l')
  end.

Section Analysis.
Context {lib : Pandas}.

Definition compute_basic_stats (t : Table) : BasicStats :=
  mkBasicStats (Qsum (omap TotalPrice t))
               (Qsum (omap Quantity t))
               (mean (omap TotalPrice t))
               (length t)
               (min_date (omap Date t))
               (max_date (omap Date t)).

(** [cleaned_df['Week'] = cleaned_df['Date'].dt.isocalendar().week]. *)
Definition add_week (t : Table) : Table :=
  (fun r => set_Week (isocalendar_week <$> Date r) r) <$> t.

(** The body of [analyze_data] on a loaded frame: the frame as it leaves
    the method (with its Week column) and the results. *)
Definition analyze (t : Table) : Table * AnalysisResults :=
  let stats := compute_basic_stats t in
  let by_category := sort_values_desc (groupby Category aggregate t) in
  let by_region := sort_values_desc (groupby Region aggregate t) in
  let by_salesperson := sort_values_desc (groupby Salesperson aggregate t) in
  let products := take 10 (sort_values_desc (groupby product_key aggregate t)) in
  let daily := groupby Date aggregate_trend t in
  let t' := add_week t in
  let weekly := groupby Week aggregate_trend t' in
  (t', mkAnalysisResults stats by_category by_region by_salesperson
         products daily weekly).
End Analysis.

(** ** More text helpers *)

Module Str.

(** [s.replace(old, new)]: every occurrence of [old], scanning from the
    left and resuming after each occurrence replaced.  [skip] counts the
    characters of an occurrence still to be passed over.  ([old] is not
    empty at the one call site.) *)
Fixpoint replace_from (skip : nat) (old new s : string) : string :=
  match s with
  | EmptyString => EmptyString
  | String c s' =>
      match skip with
      | S n => replace_from n old new s'
      | O =>
          if String.prefix old s
          then new ++ replace_from (String.length old - 1) old new s'
          else String c (replace_from 0 old new s')
      end
  end.
Definition replace (old new s : string) : string := replace_from 0 old new s.

(** [[x for x in s.split(sep)]] for a one-character separator. *)
Fixpoint split (sep : ascii) (s : string) : list string :=
  match s with
  | EmptyString => [EmptyString]
  | String c s' =>
      if Ascii.eqb c sep then EmptyString :: split sep s'
      else match split sep s' with
           | [] => [String c EmptyString]
           | x :: l => String c x :: l
           end
  end.

(** The ASCII characters [str.strip()] removes: the space, tab to carriage
    return, and the four separators 0x1C to 0x1F.  ([str.strip()] removes
    the white space of other scripts as well; the model follows it on ASCII
    text, see [isascii].) *)
Definition is_space (c : ascii) : bool :=
  let n := N_of_ascii c in
  ((n =? 32) || ((9 <=? n) && (n <=? 13)) || ((28 <=? n) && (n <=? 31)))%N.

(** [s.isascii()]. *)
Fixpoint isascii (s : string) : bool :=
  match s with
  | EmptyString => true
  | String c s' => (N_of_ascii c <? 128)%N && isascii s'
  end.

Fixpoint lstrip (s : string) : string :=
  match s with
  | String c s' => if is_space c then lstrip s' else s
  | EmptyString => EmptyString
  end.
Fixpoint rstrip (s : string) : string :=
  match s with
  | EmptyString => EmptyString
  | String c s' =>
      match rstrip s' with
      | EmptyString => if is_space c then EmptyString else String c EmptyString
      | rest => String c rest
      end
  end.
Definition strip (s : string) : string := rstrip (lstrip s).

Fixpoint lower (s : string) : string :=
  match s with
  | EmptyString => EmptyString
  | String c s' => String (Text.to_lower c) (lower s')
  end.

(** [s.isdigit()] and [int(s)], on ASCII text: the digits are [0] to [9].
    (Python counts the digits of other scripts too, and [int] refuses some
    of them; the one call site reads an SMTP port.) *)
Fixpoint all_digits (s : string) : bool :=
  match s with
  | EmptyString => true
  | String c s' => Text.is_digit c && all_digits s'
  end.
Definition isdigit (s : string) : bool :=
  match s with
  | EmptyString => false
  | _ => all_digits s
  end.

(** [int(s)] on a string of digits. *)
Fixpoint int_from (acc : Z) (s : string) : Z :=
  match s with
  | EmptyString => acc
  | String c s' => int_from (10 * acc + Z.of_N (N_of_ascii c - 48)) s'
  end.
Definition int (s : string) : Z := int_from 0 s.

(** [sep.join(l)]. *)
Fixpoint join (sep : string) (l : list string) : string :=
  match l with
  | [] => EmptyString
  | [x] => x
  | x :: l' => x ++ sep ++ join sep l'
  end.

End Str.

(** ** Regular expressions *)

Module Regex.

Inductive regex :=
| Void
| Eps
| Class (p : ascii -> bool)
| Seq (r1 r2 : regex)
| Alt (r1 r2 : regex)
| Star (r : regex).

Fixpoint nullable (r : regex) : bool :=
  match r with
  | Void => false
  | Eps => true
  | Class _ => false
  | Seq r1 r2 => nullable r1 && nullable r2
  | Alt r1 r2 => nullable r1 || nullable r2
  | Star _ => true
  end.

(** Brzozowski derivative. *)
Fixpoint deriv (c : ascii) (r : regex) : regex :=
  match r with
  | Void => Void
  | Eps => Void
  | Class p => if p c then Eps else Void
  | Seq r1 r2 =>
      if nullable r1 then Alt (Seq (deriv c r1) r2) (deriv c r2)
      else Seq (deriv c r1) r2
  | Alt r1 r2 => Alt (deriv c r1) (deriv c r2)
  | Star r1 => Seq (deriv c r1) (Star r1)
  end.

Fixpoint fullmatch (r : regex) (s : string) : bool :=
  match s with
  | EmptyString => nullable r
  | String c s' => fullmatch (deriv c r) s'
  end.

Definition Plus (r : regex) : regex := Seq r (Star r).
Definition AtLeast2 (r : regex) : regex := Seq r (Plus r).
Definition Char (c : ascii) : regex := Class (Ascii.eqb c).

(** [re.match(p + '$', s)] for a pattern [p] anchored at both ends: [$]
    matches at the end of the string and just before a final newline. *)
Definition match_anchored (p : regex) (s : string) : bool :=
  fullmatch (Seq p (Alt Eps (Char "010"%char))) s.

(** [[a-zA-Z0-9._%+-]] *)
Definition local_char (c : ascii) : bool :=
  Text.is_alpha c || Text.is_digit c
  || Ascii.eqb c "." || Ascii.eqb c "_" || Ascii.eqb c "%"
  || Ascii.eqb c "+" || Ascii.eqb c "-".
(** [[a-zA-Z0-9.-]] *)
Definition domain_char (c : ascii) : bool :=
  Text.is_alpha c || Text.is_digit c || Ascii.eqb c "." || Ascii.eqb c "-".

(** [^[a-zA-Z0-9._%+-]+@[a-zA-Z0-9.-]+\.[a-zA-Z]{2,}$] *)
Definition email_pattern : regex :=
  Seq (Plus (Class local_char))
    (Seq (Char "@")
      (Seq (Plus (Class domain_char))
        (Seq (Char ".") (AtLeast2 (Class Text.is_alpha))))).

Definition valid_email (s : string) : bool := match_anchored email_pattern s.

(** The language of a regular expression, and the matcher's soundness
    for it. *)
Inductive lang : regex -> string -> Prop :=
| lang_eps : lang Eps EmptyString
| lang_class (p : ascii -> bool) (c : ascii) :
    p c = true -> lang (Class p) (String c EmptyString)
| lang_seq (r1 r2 : regex) (s1 s2 : string) :
    lang r1 s1 -> lang r2 s2 -> lang (Seq r1 r2) (String.append s1 s2)
| lang_alt_l (r1 r2 : regex) (s : string) : lang r1 s -> lang (Alt r1 r2) s
| lang_alt_r (r1 r2 : regex) (s : string) : lang r2 s -> lang (Alt r1 r2) s
| lang_star_nil (r : regex) : lang (Star r) EmptyString
| lang_star_app (r : regex) (s1 s2 : string) :
    lang r s1 -> lang (Star r) s2 -> lang (Star r) (String.append s1 s2).

Lemma nullable_lang (r : regex) : nullable r = true -> lang r EmptyString.
Proof.
  induction r as [| |p|r1 IH1 r2 IH2|r1 IH1 r2 IH2|r IH]; cbn; intros Hn;
    try discriminate.
  - constructor.
  - apply andb_true_iff in Hn as [H1 H2].
    apply (lang_seq r1 r2 EmptyString EmptyString); auto.
  - apply orb_true_iff in Hn as [H1|H2];
      [apply lang_alt_l|apply lang_alt_r]; auto.
  - constructor.
Qed.

Lemma deriv_lang (r : regex) (c : ascii) (s : string) :
  lang (deriv c r) s -> lang r (String c s).
Proof.
  revert s. induction r as [| |p|r1 IH1 r2 IH2|r1 IH1 r2 IH2|r IH];
    cbn [deriv]; intros s Hd.
  - inversion Hd.
  - inversion Hd.
  - destruct (p c) eqn:Hp; inversion Hd; subst. constructor. exact Hp.
  - assert (forall s', lang (Seq (deriv c r1) r2) s' -> lang (Seq r1 r2) (String c s'))
      as Hseq.
    { intros s' Hs. inversion Hs as [| |? ? s1 s2 H1 H2| | | |]; subst.
      apply (lang_seq r1 r2 (String c s1) s2); auto. }
    destruct (nullable r1) eqn:Hn.
    + inversion Hd as [| | |? ? ? Hl|? ? ? Hr| |]; subst.
      * apply Hseq, Hl.
      * apply (lang_seq r1 r2 EmptyString (String c s));
          [apply nullable_lang, Hn|apply IH2, Hr].
    + apply Hseq, Hd.
  - inversion Hd; subst; [apply lang_alt_l|apply lang_alt_r]; auto.
  - inversion Hd as [| |? ? s1 s2 H1 H2| | | |]; subst.
    apply (lang_star_app r (String c s1) s2); auto.
Qed.

Lemma fullmatch_lang (r : regex) (s : string) : fullmatch r s = true -> lang r s.
Proof.
  revert r. induction s as [|c s IH]; intros r; cbn [fullmatch].
  - apply nullable_lang.
  - intros Hm. apply deriv_lang, IH, Hm.
Qed.

(** [c] is one of the characters of [s]. *)
Fixpoint has_char (c : ascii) (s : string) : bool :=
  match s with
  | EmptyString => false
  | String x s' => Ascii.eqb c x || has_char c s'
  end.

Lemma has_char_append (c : ascii) (s1 s2 : string) :
  has_char c (String.append s1 s2) = has_char c s1 || has_char c s2.
Proof.
  induction s1 as [|x s1 IH]; [reflexivity|].
  change (String.append (String x s1) s2) with (String x (String.append s1 s2)).
  cbn [has_char]. rewrite IH, orb_assoc. reflexivity.
Qed.

(** An address the pattern accepts has an [@] in it. *)
Lemma valid_email_has_at (s : string) :
  valid_email s = true -> has_char "@" s = true.
Proof.
  intros Hm. apply fullmatch_lang in Hm.
  inversion Hm as [| |? ? s1 s2 H1 _| | | |]; subst.
  inversion H1 as [| |? ? a b _ Hb| | | |]; subst.
  inversion Hb as [| |? ? at_sign rest Hat _| | | |]; subst.
  inversion Hat as [|? x Hx| | | | |]; subst.
  rewrite !has_char_append. cbn [has_char]. rewrite Hx.
  rewrite !orb_true_r. reflexivity.
Qed.

Lemma no_at_invalid_email (s : string) :
  has_char "@" s = false -> valid_email s = false.
Proof.
  intros Hno. destruct (valid_email s) eqn:Hv; [|reflexivity].
  apply valid_email_has_at in Hv. congruence.
Qed.

End Regex.

(** ** The world outside the program *)

(** A rendered report.  The renderer is a library: what matters here is
    what it was given, the results and the time of generation. *)
Record Document := mkDocument {
  doc_results : AnalysisResults;
  doc_generated : Z
}.

Inductive File :=
| CsvFile (rows : RawTable)
| DocxFile (d : Document)
| OtherFile.

Inductive Exn :=
| FileNotFoundError
| ParserError
| AttributeError
| ValueError
| IndexError
| EOFError
| OSError
| SMTPException.

Inductive Subject :=
| CustomSubject (s : string)
| WeeklySubject (today : Z)
| DateRangeSubject (first last : timestamp)
| DatedSubject (today : Z).

Inductive EmailBody :=
| AttachmentNotice
| SummaryBody (stats : BasicStats)
    (top_category top_region top_salesperson : string * Q) (generated : Z).

Record Message := mkMessage {
  msg_from : string;
  msg_to : string;
  msg_subject : Subject;
  msg_body : EmailBody;
  msg_attachment_name : string;
  msg_attachment : File
}.

(** The status lines that tell the outcomes of a run apart. *)
Inductive StatusLine :=
| InvalidSenderFormat (address : string)
| InvalidRecipientFormat (address : string)
| EmailSendFailed (e : Exn)
| AutoEmailDone
| AllDone
| ReportButNoEmail
| ReportOnly.

Inductive Event :=
| SmtpConnect (host : string) (port : Z)
| SmtpStartTls
| SmtpLogin (user password : string)
| SmtpSendmail (sender : string) (recipients : list string) (m : Message)
| SmtpQuit
| Stdout (line : StatusLine).

Definition is_network (e : Event) : bool :=
  match e with
  | Stdout _ => false
  | _ => true
  end.

(** How the mail server answers each request. *)
Record SmtpServer := mkSmtpServer {
  accepts_connection : string -> Z -> bool;
  accepts_starttls : bool;
  accepts_login : string -> string -> bool;
  accepts_mail : string -> list string -> bool;
  accepts_quit : bool
}.

(** How the file system answers [doc.save(path)].  The document is
    written; or [open] refuses the path (its directory is missing, a
    directory stands in its place, permission is denied) and nothing is
    created; or a write fails after [open] has created the file, which is
    left behind incomplete. *)
Inductive SaveOutcome :=
| Saved
| Refused (e : Exn)
| Interrupted (e : Exn).

Record World := mkWorld {
  files : gmap string File;
  environ : gmap string string;
  stdin : list string;
  now : Z;
  smtp : SmtpServer;
  disk : string -> SaveOutcome;
  events : list Event
}.

Definition log (e : Event) (w : World) : World :=
  mkWorld (files w) (environ w) (stdin w) (now w) (smtp w) (disk w) (events w ++ [e]).
Definition write_file (path : string) (f : File) (w : World) : World :=
  mkWorld (<[path := f]> (files w)) (environ w) (stdin w) (now w) (smtp w) (disk w)
    (events w).
Definition pop_stdin (w : World) : World :=
  mkWorld (files w) (environ w) (tail (stdin w)) (now w) (smtp w) (disk w) (events w).

(** ** A state and exception monad *)

Inductive Outcome (A : Type) :=
| Returned (a : A)
| Raised (e : Exn).
Arguments Returned {A}.
Arguments Raised {A}.

Definition M (A : Type) : Type := World -> Outcome A * World.

Definition ret {A} (a : A) : M A := fun w => (Returned a, w).
Definition raise {A} (e : Exn) : M A := fun w => (Raised e, w).
Definition bind {A B} (m : M A) (k : A -> M B) : M B :=
  fun w =>
    match m w with
    | (Returned a, w') => k a w'
    | (Raised e, w') => (Raised e, w')
    end.
(** [try: m except Exception as e: h e]. *)
Definition try_except {A} (m : M A) (h : Exn -> M A) : M A :=
  fun w =>
    match m w with
    | (Returned a, w') => (Returned a, w')
    | (Raised e, w') => h e w'
    end.

Notation "'let*' x ':=' m 'in' k" := (bind m (fun x => k))
  (at level 10, x name, m at level 100, k at level 200).
Notation "'exec' m 'in' k" := (bind m (fun _ => k))
  (at level 10, m at level 100, k at level 200).

Definition emit (e : Event) : M unit := fun w => (Returned tt, log e w).
Definition print (l : StatusLine) : M unit := emit (Stdout l).
Definition get_now : M Z := fun w => (Returned (now w), w).
Definition getenv (name : string) : M (option string) :=
  fun w => (Returned (environ w !! name), w).
Definition path_exists (path : string) : M bool :=
  fun w => (Returned (bool_decide (is_Some (files w !! path))), w).
Definition read_file (path : string) : M File :=
  fun w =>
    match files w !! path with
    | Some f => (Returned f, w)
    | None => (Raised FileNotFoundError, w)
    end.
(** [pd.read_csv(path)]. *)
Definition read_csv (path : string) : M RawTable :=
  let* f := read_file path in
  match f with
  | CsvFile rows => ret rows
  | _ => raise ParserError
  end.
(** [doc.save(path)]. *)
Definition save_document (path : string) (d : Document) : M unit :=
  fun w =>
    match disk w path with
    | Saved => (Returned tt, write_file path (DocxFile d) w)
    | Refused e => (Raised e, w)
    | Interrupted e => (Raised e, write_file path OtherFile w)
    end.
(** [input(prompt)]. *)
Definition input : M string :=
  fun w =>
    match stdin w with
    | line :: _ => (Returned line, pop_stdin w)
    | [] => (Raised EOFError, w)
    end.
(** One request to the mail server: it is made, then it fails or not. *)
Definition smtp_request (e : Event) (ok : SmtpServer -> bool) : M unit :=
  fun w =>
    let w' := log e w in
    if ok (smtp w) then (Returned tt, w') else (Raised SMTPException, w').

(** ** SalesDataAnalyzer *)

Record Analyzer := mkAnalyzer {
  csv_file_path : string;
  df : option RawTable;
  cleaned_df : option Table;
  analysis_results : option AnalysisResults
}.

(** [SalesDataAnalyzer(csv_file_path)]: no frame yet and an empty
    results dictionary. *)
Definition new_analyzer (path : string) : Analyzer := mkAnalyzer path None None None.

Definition default_smtp_server : string := "smtp.gmail.com".
Definition default_smtp_port : Z := 587.

(** [os.path.basename]. *)
Fixpoint basename (path : string) : string :=
  match path with
  | EmptyString => EmptyString
  | String c rest =>
      if Ascii.eqb c "/" then basename rest
      else if Text.contains "/" rest then basename rest
      else path
  end.

Section Methods.
Context {lib : Pandas}.

(** Rule 1: [Date.str.contains('E\\+', na=False)], and the fallback date
    written over the cells that match. *)
Definition invalid_date (r : Row string) : bool :=
  match Date r with
  | Some s => Text.contains "E+" s
  | None => false
  end.
Definition repair_dates (t : RawTable) : RawTable :=
  (fun r => if invalid_date r then set_Date (Some "2025-09-22"%string) r else r) <$> t.

(** Rule 2: [cleaned_df['Date'] = pd.to_datetime(cleaned_df['Date'])]. *)
Definition parse_dates (t : RawTable) : option Table :=
  match to_datetime (Date <$> t) with
  | Some dates => Some (zip_with set_Date dates t)
  | None => None
  end.

(** Rule 3 goes through [.str] on three columns, in this order. *)
Definition text_columns {D : Type} (t : list (Row D)) : bool :=
  is_object_dtype (Category <$> t) && is_object_dtype (ProductName <$> t)
  && is_object_dtype (Salesperson <$> t).

(** The cleaning rules, 1 to 7, on a loaded frame.  [.str] raises
    AttributeError on a column that is not text, [pd.to_datetime] raises
    ValueError on a date it cannot read. *)
Definition clean (t : RawTable) : Outcome Table :=
  if negb (is_object_dtype (Date <$> t)) then Raised AttributeError
  else
    match parse_dates (repair_dates t) with
    | None => Raised ValueError
    | Some dated =>
        if text_columns dated
        then Returned (clean_rows (normalize_text <$> dated))
        else Raised AttributeError
    end.

Definition load_and_clean_data (self : Analyzer) : M Analyzer :=
  let* loaded := read_csv (csv_file_path self) in
  match clean loaded with
  | Raised e => raise e
  | Returned t =>
      ret (mkAnalyzer (csv_file_path self) (Some loaded) (Some t)
             (analysis_results self))
  end.

Definition analyze_data (self : Analyzer) : M Analyzer :=
  match cleaned_df self with
  | None => raise ValueError
  | Some t =>
      let '(t', results) := analyze t in
      ret (mkAnalyzer (csv_file_path self) (df self) (Some t') (Some results))
  end.

(** [ts.strftime(...)]: NaT does not support it. *)
Definition strftime (d : option timestamp) : M timestamp :=
  match d with
  | Some ts => ret ts
  | None => raise ValueError
  end.

(** [table.index[0]] with [table[...].iloc[0]]: the top row of a table. *)
Definition first_row {K V : Type} (l : list (K * V)) : M (K * V) :=
  match l with
  | x :: _ => ret x
  | [] => raise IndexError
  end.

Definition report_path (csv_path : string) : string :=
  Str.replace ".csv" "_sales_report.docx" csv_path.

Definition generate_word_report (self : Analyzer) : M string :=
  match analysis_results self with
  | None => raise ValueError
  | Some results =>
      let stats := basic_stats results in
      let* _ := strftime (date_start stats) in
      let* _ := strftime (date_end stats) in
      let* generated := get_now in
      let* _ := first_row (category_analysis results) in
      let* _ := first_row (region_analysis results) in
      let* _ := first_row (salesperson_analysis results) in
      let* _ := first_row (top_products results) in
      let docx_file_path := report_path (csv_file_path self) in
      exec save_document docx_file_path (mkDocument results generated) in
      ret docx_file_path
  end.

Definition _create_email_body (self : Analyzer) : M EmailBody :=
  match analysis_results self with
  | None => ret AttachmentNotice
  | Some results =>
      let stats := basic_stats results in
      let* _ := strftime (date_start stats) in
      let* _ := strftime (date_end stats) in
      let* top_category := first_row (category_analysis results) in
      let* top_region := first_row (region_analysis results) in
      let* top_salesperson := first_row (salesperson_analysis results) in
      let* generated := get_now in
      ret (SummaryBody stats
             (fst top_category, revenue (snd top_category))
             (fst top_region, revenue (snd top_region))
             (fst top_salesperson, revenue (snd top_salesperson))
             generated)
  end.

Definition default_subject (self : Analyzer) : M Subject :=
  match analysis_results self with
  | Some results =>
      let* first := strftime (date_start (basic_stats results)) in
      let* last := strftime (date_end (basic_stats results)) in
      ret (DateRangeSubject first last)
  | None =>
      let* today := get_now in
      ret (DatedSubject today)
  end.

Definition send_email_with_report (self : Analyzer)
    (docx_file_path sender_email sender_password : string)
    (recipient_emails : list string)
    (smtp_server : string) (smtp_port : Z)
    (subject : option Subject) : M bool :=
  try_except
    (let* found := path_exists docx_file_path in
     if negb found then raise FileNotFoundError
     else
       let* subject :=
         match subject with
         | Some s => ret s
         | None => default_subject self
         end in
       let* email_body := _create_email_body self in
       let* attachment := read_file docx_file_path in
       let msg := mkMessage sender_email (Str.join ", " recipient_emails)
                    subject email_body (basename docx_file_path) attachment in
       exec smtp_request (SmtpConnect smtp_server smtp_port)
              (fun s => accepts_connection s smtp_server smtp_port) in
       exec smtp_request SmtpStartTls accepts_starttls in
       exec smtp_request (SmtpLogin sender_email sender_password)
              (fun s => accepts_login s sender_email sender_password) in
       exec smtp_request (SmtpSendmail sender_email recipient_emails msg)
              (fun s => accepts_mail s sender_email recipient_emails) in
       exec smtp_request SmtpQuit accepts_quit in
       ret true)
    (fun e => exec print (EmailSendFailed e) in ret false).

Definition run_full_analysis (self : Analyzer) : M (Analyzer * string) :=
  let* self := load_and_clean_data self in
  let* self := analyze_data self in
  let* docx_path := generate_word_report self in
  ret (self, docx_path).

(** [[email.strip() for email in s.split(',') if email.strip()]]. *)
Definition parse_recipients (s : string) : list string :=
  List.filter (fun e => negb (String.eqb e "")) (Str.strip <$> Str.split "," s).

(** Python truthiness of [os.getenv(...)]: set, and not empty. *)
Definition truthy (v : option string) : bool :=
  match v with
  | Some s => negb (String.eqb s "")
  | None => false
  end.

(** The branch of [main] taken when the three variables are set. *)
Definition send_from_environment (analyzer : Analyzer) (word_report : string)
    (sender_email email_password recipient_email : string) : M unit :=
  let recipient_emails := parse_recipients recipient_email in
  if negb (Regex.valid_email sender_email)
  then print (InvalidSenderFormat sender_email)
  else
    match List.find (fun e => negb (Regex.valid_email e)) recipient_emails with
    | Some email => print (InvalidRecipientFormat email)
    | None =>
        let* today := get_now in
        let* success :=
          send_email_with_report analyzer word_report sender_email
            email_password recipient_emails default_smtp_server
            default_smtp_port (Some (WeeklySubject today)) in
        if success then print AutoEmailDone else print ReportButNoEmail
    end.

(** The branch of [main] that asks the operator. *)
Definition send_interactively (analyzer : Analyzer) (word_report : string) : M unit :=
  let* answer := input in
  let send_email := Str.strip (Str.lower answer) in
  if bool_decide (send_email ∈ ["y"; "yes"; "예"; "ㅇ"]%string)
  then
    let* sender_email := input in
    let* sender_password := input in
    let* recipient_input := input in
    let recipient_emails := parse_recipients recipient_input in
    let* custom_subject := input in
    let subject :=
      if String.eqb (Str.strip custom_subject) "" then None
      else Some (CustomSubject (Str.strip custom_subject)) in
    let* smtp_input := input in
    let smtp_server :=
      if String.eqb (Str.strip smtp_input) "" then default_smtp_server
      else Str.strip smtp_input in
    let* port_input := input in
    let smtp_port :=
      if Str.isdigit (Str.strip port_input) then Str.int (Str.strip port_input)
      else 587%Z in
    let* success :=
      send_email_with_report analyzer word_report sender_email
        sender_password recipient_emails smtp_server smtp_port subject in
    if success then print AllDone else print ReportButNoEmail
  else print ReportOnly.

Definition main : M unit :=
  let csv_file := "references/cicd_data.csv"%string in
  let analyzer := new_analyzer csv_file in
  let* results := run_full_analysis analyzer in
  let* sender_email := getenv "SENDER_EMAIL" in
  let* email_password := getenv "EMAIL_PASSWORD" in
  let* recipient_email := getenv "RECIPIENT_EMAIL" in
  if truthy sender_email && truthy email_password && truthy recipient_email
  then
    send_from_environment (fst results) (snd results)
      (default "" sender_email) (default "" email_password)
      (default "" recipient_email)
  else send_interactively (fst results) (snd results).

End Methods.

(** ** A small implementation of the pandas interface

    Enough of pandas to run the model on examples: ISO dates
    ([YYYY-MM-DD]) only, and a stable insertion sort.  The theorems below
    hold for every implementation of [Pandas]; this one shows that the
    interface can be met and evaluates the examples. *)

Module Minimal.

Definition ns_per_day : Z := 86400 * 1000000000.

(** Days since 1970-01-01 of a civil date, and back. *)
Definition days_from_civil (y m d : Z) : Z :=
  let y' := if (m <=? 2)%Z then (y - 1)%Z else y in
  let era := (y' / 400)%Z in
  let yoe := (y' - era * 400)%Z in
  let mp := if (m >? 2)%Z then (m - 3)%Z else (m + 9)%Z in
  let doy := ((153 * mp + 2) / 5 + d - 1)%Z in
  let doe := (yoe * 365 + yoe / 4 - yoe / 100 + doy)%Z in
  (era * 146097 + doe - 719468)%Z.

Definition year_of_days (z : Z) : Z :=
  let z' := (z + 719468)%Z in
  let era := (z' / 146097)%Z in
  let doe := (z' - era * 146097)%Z in
  let yoe := ((doe - doe / 1460 + doe / 36524 - doe / 146096) / 365)%Z in
  let doy := (doe - (365 * yoe + yoe / 4 - yoe / 100))%Z in
  let mp := ((5 * doy + 2) / 153)%Z in
  let m := if (mp <? 10)%Z then (mp + 3)%Z else (mp - 9)%Z in
  (yoe + era * 400 + (if (m <=? 2)%Z then 1 else 0))%Z.

(** ISO 8601 week number: the week of a day is the week of its Thursday. *)
Definition iso_week (ts : timestamp) : Z :=
  let day := (ts / ns_per_day)%Z in
  let thursday := (day - (day + 3) mod 7 + 3)%Z in
  let jan1 := days_from_civil (year_of_days thursday) 1 1 in
  ((thursday - jan1) / 7 + 1)%Z.

Definition digit (c : ascii) : option Z :=
  if Text.is_digit c then Some (Z.of_N (N_of_ascii c - 48)) else None.

Definition is_leap (y : Z) : bool :=
  ((y mod 4 =? 0) && (negb (y mod 100 =? 0) || (y mod 400 =? 0)))%Z.
Definition days_in_month (y m : Z) : Z :=
  if (m =? 2)%Z then (if is_leap y then 29 else 28)%Z
  else if ((m =? 4) || (m =? 6) || (m =? 9) || (m =? 11))%Z then 30%Z
  else 31%Z.

Definition parse_iso_date (s : string) : option timestamp :=
  match list_ascii_of_string s with
  | [y1; y2; y3; y4; h1; m1; m2; h2; d1; d2] =>
      match digit y1, digit y2, digit y3, digit y4,
            digit m1, digit m2, digit d1, digit d2 with
      | Some a, Some b, Some c, Some d, Some e, Some f, Some g, Some h =>
          let y := (1000 * a + 100 * b + 10 * c + d)%Z in
          let m := (10 * e + f)%Z in
          let dd := (10 * g + h)%Z in
          if Ascii.eqb h1 "-" && Ascii.eqb h2 "-"
             && (1 <=? m)%Z && (m <=? 12)%Z
             && (1 <=? dd)%Z && (dd <=? days_in_month y m)%Z
          then Some (days_from_civil y m dd * ns_per_day)%Z
          else None
      | _, _, _, _, _, _, _, _ => None
      end
  | _ => None
  end.

Fixpoint parse_column (c : list (option string)) : option (list (option timestamp)) :=
  match c with
  | [] => Some []
  | None :: c' => cons None <$> parse_column c'
  | Some s :: c' =>
      match parse_iso_date s, parse_column c' with
      | Some ts, Some l => Some (Some ts :: l)
      | _, _ => None
      end
  end.

Lemma parse_column_length c c' :
  parse_column c = Some c' -> length c' = length c.
Proof.
  revert c'. induction c as [|[s|] c IH]; intros c'; cbn.
  - intros [= <-]. reflexivity.
  - destruct (parse_iso_date s); [|discriminate].
    destruct (parse_column c) as [l|]; [|discriminate].
    intros [= <-]. cbn. f_equal. apply IH. reflexivity.
  - destruct (parse_column c) as [l|]; [|discriminate].
    intros [= <-]. cbn. f_equal. apply IH. reflexivity.
Qed.

Section Sort.
Context {K : Type}.
Implicit Types (x : K * Agg) (l : list (K * Agg)).

Definition at_least (x y : K * Agg) : Prop := revenue (snd y) <= revenue (snd x).

(** [x] goes in front of the first row whose revenue is not above its own. *)
Fixpoint insert_desc x l : list (K * Agg) :=
  match l with
  | [] => [x]
  | y :: l' =>
      if Qle_bool (revenue (snd y)) (revenue (snd x)) then x :: l
      else y :: insert_desc x l'
  end.
Definition sort_desc l : list (K * Agg) := foldr insert_desc [] l.

(** The same, except that [x] goes behind the rows of equal revenue. *)
Fixpoint insert_desc_late x l : list (K * Agg) :=
  match l with
  | [] => [x]
  | y :: l' =>
      if Qle_bool (revenue (snd x)) (revenue (snd y)) then y :: insert_desc_late x l'
      else x :: l
  end.
Definition sort_desc_late l : list (K * Agg) := foldr insert_desc_late [] l.

Lemma insert_desc_perm x l : Permutation (insert_desc x l) (x :: l).
Proof.
  induction l as [|y l IH]; cbn; [reflexivity|].
  destruct (Qle_bool _ _); [reflexivity|].
  rewrite IH. apply perm_swap.
Qed.

Lemma insert_desc_late_perm x l : Permutation (insert_desc_late x l) (x :: l).
Proof.
  induction l as [|y l IH]; cbn; [reflexivity|].
  destruct (Qle_bool _ _); [|reflexivity].
  rewrite IH. apply perm_swap.
Qed.

Lemma sort_desc_perm l : Permutation (sort_desc l) l.
Proof.
  induction l as [|x l IH]; cbn; [reflexivity|].
  fold (sort_desc l). rewrite insert_desc_perm, IH. reflexivity.
Qed.

Lemma sort_desc_late_perm l : Permutation (sort_desc_late l) l.
Proof.
  induction l as [|x l IH]; cbn; [reflexivity|].
  fold (sort_desc_late l). rewrite insert_desc_late_perm, IH. reflexivity.
Qed.

Lemma at_least_trans x y z : at_least x y -> at_least y z -> at_least x z.
Proof. unfold at_least. intros. eapply Qle_trans; eassumption. Qed.

Lemma insert_desc_sorted x l :
  StronglySorted at_least l -> StronglySorted at_least (insert_desc x l).
Proof.
  induction 1 as [|y l Hs IH Hy]; cbn.
  - repeat constructor.
  - destruct (Qle_bool _ _) eqn:Hle.
    + apply Qle_bool_iff in Hle.
      constructor; [constructor; assumption|].
      constructor; [exact Hle|].
      eapply Forall_impl; [exact Hy|]. cbn. intros z Hz.
      eapply at_least_trans; [exact Hle|exact Hz].
    + assert (at_least y x) as Hyx.
      { unfold at_least. apply Qlt_le_weak, Qnot_le_lt. intros Hc.
        apply Qle_bool_iff in Hc. congruence. }
      constructor; [exact IH|].
      rewrite insert_desc_perm. constructor; assumption.
Qed.

Lemma insert_desc_late_sorted x l :
  StronglySorted at_least l -> StronglySorted at_least (insert_desc_late x l).
Proof.
  induction 1 as [|y l Hs IH Hy]; cbn.
  - repeat constructor.
  - destruct (Qle_bool _ _) eqn:Hle.
    + apply Qle_bool_iff in Hle.
      constructor; [exact IH|].
      rewrite insert_desc_late_perm. constructor; assumption.
    + assert (at_least x y) as Hxy.
      { unfold at_least. apply Qlt_le_weak, Qnot_le_lt. intros Hc.
        apply Qle_bool_iff in Hc. congruence. }
      constructor; [constructor; assumption|].
      constructor; [exact Hxy|].
      eapply Forall_impl; [exact Hy|]. cbn. intros z Hz.
      eapply at_least_trans; [exact Hxy|exact Hz].
Qed.

Lemma sort_desc_sorted l : StronglySorted at_least (sort_desc l).
Proof.
  induction l as [|x l IH]; cbn; [constructor|].
  apply insert_desc_sorted, IH.
Qed.

Lemma sort_desc_late_sorted l : StronglySorted at_least (sort_desc_late l).
Proof.
  induction l as [|x l IH]; cbn; [constructor|].
  apply insert_desc_late_sorted, IH.
Qed.
End Sort.

(** A decimal number as the CSV parser reads one: a sign, digits with or
    without a point, an exponent. *)
Definition sign : Regex.regex :=
  Regex.Alt Regex.Eps (Regex.Class (fun c => Ascii.eqb c "+" || Ascii.eqb c "-")).
Definition digits : Regex.regex := Regex.Plus (Regex.Class Text.is_digit).
Definition number_pattern : Regex.regex :=
  Regex.Seq sign
    (Regex.Seq
       (Regex.Alt
          (Regex.Seq digits
             (Regex.Alt Regex.Eps
                (Regex.Seq (Regex.Char ".") (Regex.Star (Regex.Class Text.is_digit)))))
          (Regex.Seq (Regex.Char ".") digits))
       (Regex.Alt Regex.Eps
          (Regex.Seq (Regex.Class (fun c => Ascii.eqb c "e" || Ascii.eqb c "E"))
             (Regex.Seq sign digits)))).

Definition is_text_cell (c : option string) : bool :=
  match c with
  | Some s => negb (Regex.fullmatch number_pattern s)
  | None => false
  end.

(** A column stays text when one of its cells is not a number. *)
Definition object_column (c : list (option string)) : bool :=
  match c with
  | [] => true
  | _ => existsb is_text_cell c
  end.

Lemma object_column_all_blank (c : list (option string)) :
  c <> [] -> Forall (fun cell => cell = None) c -> object_column c = false.
Proof.
  intros Hne Hall. destruct c as [|x c]; [congruence|].
  unfold object_column. apply not_true_is_false. intros Hex.
  apply existsb_exists in Hex as (cell & Hin & Htext).
  rewrite Forall_forall in Hall.
  rewrite (Hall cell) in Htext by (apply list_elem_of_In, Hin). discriminate.
Qed.

(** Ties keep the order of the input. *)
Definition pandas : Pandas :=
  Build_Pandas object_column eq_refl object_column_all_blank
    parse_column parse_column_length iso_week
    (@sort_desc) (@sort_desc_perm) (@sort_desc_sorted).

(** Ties reverse the order of the input. *)
Definition pandas_late : Pandas :=
  Build_Pandas object_column eq_refl object_column_all_blank
    parse_column parse_column_length iso_week
    (@sort_desc_late) (@sort_desc_late_perm) (@sort_desc_late_sorted).

End Minimal.

(** ** Facts about the cleaning rules *)

Section CleaningFacts.
Context {D : Type}.
Implicit Types (t T : list (Row D)) (r : Row D).

Lemma remove_invalid_products_spec T r :
  r ∈ remove_invalid_products T <-> r ∈ T /\ invalid_product r = false.
Proof.
  unfold remove_invalid_products.
  rewrite !list_elem_of_In, filter_In, negb_true_iff. reflexivity.
Qed.

Lemma invalid_product_false r :
  invalid_product r = false -> ProductID r <> Some "P0000"%string.
Proof.
  unfold invalid_product. intros Hf Heq. rewrite Heq in Hf. cbn in Hf. discriminate.
Qed.

Lemma impute_row_ProductID T r : ProductID (impute_row T r) = ProductID r.
Proof.
  unfold impute_row. destruct (Quantity r); [reflexivity|].
  destruct (imputed_value _ _); reflexivity.
Qed.

Lemma impute_row_UnitPrice T r : UnitPrice (impute_row T r) = UnitPrice r.
Proof.
  unfold impute_row. destruct (Quantity r); [reflexivity|].
  destruct (imputed_value _ _); reflexivity.
Qed.

Lemma fill_salesperson_fields r :
  ProductID (fill_salesperson r) = ProductID r /\
  Quantity (fill_salesperson r) = Quantity r /\
  UnitPrice (fill_salesperson r) = UnitPrice r /\
  TotalPrice (fill_salesperson r) = TotalPrice r.
Proof. unfold fill_salesperson. destruct (missing_sales r); auto. Qed.

(** Rules 4 to 7 row by row. *)
Lemma clean_rows_closed_form T :
  clean_rows T =
  (fun r => fill_salesperson (recompute_total (impute_row (remove_invalid_products T) r)))
    <$> remove_invalid_products T.
Proof.
  unfold clean_rows. rewrite impute_quantities_closed_form.
  rewrite <- !list_fmap_compose. reflexivity.
Qed.

Lemma clean_rows_valid T r :
  r ∈ clean_rows T ->
  ProductID r <> Some "P0000"%string /\
  TotalPrice r = mul_cells (Quantity r) (UnitPrice r).
Proof.
  rewrite clean_rows_closed_form, list_elem_of_fmap.
  intros (r0 & -> & Hr0).
  apply remove_invalid_products_spec in Hr0 as [_ Hvalid].
  destruct (fill_salesperson_fields
              (recompute_total (impute_row (remove_invalid_products T) r0)))
    as (Hp & Hq & Hu & Ht).
  rewrite Hp, Hq, Hu, Ht. cbn [recompute_total set_TotalPrice ProductID Quantity UnitPrice TotalPrice].
  rewrite impute_row_ProductID. split; [|reflexivity].
  apply invalid_product_false, Hvalid.
Qed.

(** Two frames that agree, row by row, on ProductID and Quantity. *)
Definition same_products {E : Type} (r : Row D) (r' : Row E) : Prop :=
  ProductID r' = ProductID r /\ Quantity r' = Quantity r.

Lemma same_products_filter {E : Type} T (T' : list (Row E)) :
  Forall2 same_products T T' ->
  Forall2 same_products (remove_invalid_products T) (remove_invalid_products T').
Proof.
  induction 1 as [|r r' T T' [Hp Hq] _ IH]; cbn; [constructor|].
  unfold invalid_product. rewrite Hp.
  destruct (negb _); [constructor; [split|]; assumption|assumption].
Qed.

Lemma same_products_peers {E : Type} T (T' : list (Row E)) pid :
  Forall2 same_products T T' ->
  peer_quantities pid T' = peer_quantities pid T.
Proof.
  induction 1 as [|r r' T T' [Hp Hq] _ IH]; [reflexivity|].
  rewrite !peer_quantities_cons, Hp, Hq, IH. reflexivity.
Qed.






End CleaningFacts.

(** ** Facts about the methods *)

Section MethodFacts.
Context {lib : Pandas}.

Lemma same_products_dated (raw : RawTable) (dates : list (option timestamp)) :
  length dates = length raw ->
  Forall2 same_products raw
    (normalize_text <$> zip_with set_Date dates (repair_dates raw)).
Proof.
  revert dates. induction raw as [|r raw IH]; intros [|d dates]; cbn; try discriminate.
  - constructor.
  - intros [= Hlen]. constructor; [|apply IH, Hlen].
    destruct (invalid_date r); split; reflexivity.
Qed.

Lemma clean_inv (raw : RawTable) (t : Table) :
  clean raw = Returned t ->
  exists dated,
    Forall2 same_products raw dated /\ t = clean_rows dated.
Proof.
  unfold clean, parse_dates.
  destruct (is_object_dtype (Date <$> raw)); [|discriminate]. cbn [negb].
  destruct (to_datetime (Date <$> repair_dates raw)) as [dates|] eqn:Hd; [|discriminate].
  destruct (text_columns _); [|discriminate].
  intros [= <-]. eexists; split; [|reflexivity].
  apply same_products_dated.
  rewrite (to_datetime_length _ _ Hd). unfold repair_dates.
  rewrite !length_fmap. reflexivity.
Qed.

Lemma load_and_clean_data_inv (self self' : Analyzer) (w w' : World) :
  load_and_clean_data self w = (Returned self', w') ->
  exists raw t,
    files w !! csv_file_path self = Some (CsvFile raw) /\
    clean raw = Returned t /\
    self' = mkAnalyzer (csv_file_path self) (Some raw) (Some t) (analysis_results self) /\
    w' = w.
Proof.
  unfold load_and_clean_data, read_csv, read_file, bind, ret, raise.
  destruct (files w !! csv_file_path self) as [[raw| |]|]; try discriminate.
  destruct (clean raw) as [t|e] eqn:Hc; [|discriminate].
  intros [= <- <-]. exists raw, t. auto.
Qed.

End MethodFacts.

(** ** Example inputs *)

Module Example.

Definition row (date pid name cat region person : string) (qty price : option Q)
  : Row string :=
  mkRow (Some date) (Some pid) (Some name) (Some cat) (Some region)
    (if String.eqb person "" then None else Some person) qty price None None.

(** A file with each of the defects the cleaner knows: a placeholder
    product, a blank quantity among peers of quantities 4 and 6, a date in
    scientific notation and a blank salesperson. *)
Definition sales : RawTable :=
  [ row "2025-09-01" "P1001" "usb cable" "accessories" "East" "ann lee" (Some 4) (Some (5 # 2));
    row "2025-09-03" "P0000" "unknown" "misc" "East" "bob" (Some 1) (Some 1);
    row "2.00E+05" "P1001" "usb cable" "accessories" "West" "" None (Some (5 # 2));
    row "2025-09-02" "P1001" "USB CABLE" "ACCESSORIES" "East" "bob" (Some 6) (Some (5 # 2));
    row "2025-09-09" "P2002" "desk lamp" "home" "West" "ann lee" (Some 2) (Some 30) ].

Definition server : SmtpServer :=
  mkSmtpServer (fun _ _ => true) true (fun _ _ => true) (fun _ _ => true) true.

Definition path : string := "references/cicd_data.csv".

(** A machine holding that file, with nothing in the environment and an
    operator who answers [n]. *)
Definition world : World :=
  mkWorld {[ path := CsvFile sales ]} ∅ ["n"%string] 1758585600 server (fun _ => Saved) [].

(** The analyzer after [load_and_clean_data] in that world. *)
Definition cleaned : Analyzer :=
  Eval vm_compute in
    match load_and_clean_data (lib := Minimal.pandas) (new_analyzer path) world with
    | (Returned a, _) => a
    | _ => new_analyzer path
    end.

(** Its frame. *)
Definition cleaned_table : Table :=
  Eval vm_compute in default [] (cleaned_df cleaned).

(** Two sales at a unit price of 0.004, in two categories of one region. *)
Definition tiny : RawTable :=
  [ row "2025-09-01" "P3003" "washer" "hardware" "East" "ann lee" (Some 1) (Some (4 # 1000));
    row "2025-09-01" "P3003" "washer" "plumbing" "East" "ann lee" (Some 1) (Some (4 # 1000)) ].

Definition tiny_cleaned : Table :=
  Eval vm_compute in
    match clean (lib := Minimal.pandas) tiny with
    | Returned t => t
    | Raised _ => []
    end.

(** Two products that sold for the same amount. *)
Definition tied : Table :=
  Eval vm_compute in
    match clean (lib := Minimal.pandas)
            [ row "2025-09-01" "P1" "pen" "office" "East" "ann lee" (Some 1) (Some 10);
              row "2025-09-01" "P2" "ink" "office" "East" "ann lee" (Some 2) (Some 5) ] with
    | Returned t => t
    | Raised _ => []
    end.

(** A file that holds nothing but a placeholder row. *)
Definition placeholder_only : RawTable :=
  [ row "2025-09-03" "P0000" "unknown" "misc" "East" "bob" (Some 1) (Some 1) ].

Definition placeholder_world : World :=
  mkWorld {[ path := CsvFile placeholder_only ]} ∅ [] 1758585600 server (fun _ => Saved) [].

(** The same file, later, on a machine set up to send mail from an address
    that has no [@]. *)
Definition mail_world : World :=
  mkWorld {[ path := CsvFile sales ]}
    {[ "SENDER_EMAIL"%string := "analyst.example.com"%string;
       "EMAIL_PASSWORD"%string := "app-password"%string;
       "RECIPIENT_EMAIL"%string := "a@x.com, , b@x.com"%string ]}
    [] 1758672000 server (fun _ => Saved) [].

(** What [run_full_analysis] returns in [mail_world], and the world it
    leaves. *)
Definition reported : (Analyzer * string) * World :=
  Eval vm_compute in
    match run_full_analysis (lib := Minimal.pandas) (new_analyzer path) mail_world with
    | (Returned r, w) => (r, w)
    | (Raised _, w) => ((new_analyzer path, ""%string), w)
    end.

End Example.

(** More example inputs. *)
Module Cases.

(** A blank quantity with no peer, beside a product that has one. *)
Definition lone_blank : RawTable :=
  [ Example.row "2025-09-01" "P7007" "gift card" "misc" "East" "ann lee" None (Some 25);
    Example.row "2025-09-02" "P1001" "usb cable" "accessories" "West" "bob" (Some 3) (Some (5 # 2)) ].

Definition lone_world : World :=
  mkWorld {[ Example.path := CsvFile lone_blank ]} ∅ [] 1758585600 Example.server (fun _ => Saved) [].

Definition lone_cleaned : Analyzer :=
  Eval vm_compute in
    match load_and_clean_data (lib := Minimal.pandas) (new_analyzer Example.path) lone_world with
    | (Returned a, _) => a
    | _ => new_analyzer Example.path
    end.

End Cases.

(** * The properties of the specification *)

(** ** Cleaning *)

(** C1, as stated, fails.  A row whose Quantity is blank and cannot be
    imputed stays in the cleaned table, and it has no TotalPrice: there is
    no product for it to equal. *)
Lemma blank_quantity_has_no_total :
  load_and_clean_data (lib := Minimal.pandas) (new_analyzer Example.path) Cases.lone_world
    = (Returned Cases.lone_cleaned, Cases.lone_world) /\
  exists t r,
    cleaned_df Cases.lone_cleaned = Some t /\ r ∈ t /\
    ~ exists q p x,
        Quantity r = Some q /\ UnitPrice r = Some p /\
        TotalPrice r = Some x /\ x == q * p.
Proof.
  split; [vm_compute; reflexivity|].
  eexists _, _. split; [reflexivity|]. split; [left|].
  intros (q & p & x & Hq & _). discriminate Hq.
Qed.

(** C1, amended.  After the cleaning stage completes, no row of the
    cleaned table has the placeholder ProductID ["P0000"].  A row has a
    TotalPrice exactly when it has a Quantity and a UnitPrice, and the
    TotalPrice is their product whenever the columns can hold that product
    exactly: a binary64 number, below 2^63 in absolute value. *)
Theorem cleaned_table_invariant {lib : Pandas}
    (self self' : Analyzer) (w w' : World) :
  load_and_clean_data self w = (Returned self', w') ->
  exists t,
    cleaned_df self' = Some t /\
    forall r, r ∈ t ->
      ProductID r <> Some "P0000"%string /\
      (is_Some (TotalPrice r) <-> is_Some (Quantity r) /\ is_Some (UnitPrice r)) /\
      (forall q p,
         Quantity r = Some q -> UnitPrice r = Some p -> exact_product (q * p) ->
         TotalPrice r = Some (q * p)).
Proof.
  intros Hrun.
  apply load_and_clean_data_inv in Hrun as (raw & t & _ & Hclean & -> & _).
  exists t. split; [reflexivity|].
  apply clean_inv in Hclean as (dated & _ & ->).
  intros r Hr. destruct (clean_rows_valid _ _ Hr) as [Hpid Htotal].
  split; [exact Hpid|]. rewrite Htotal. split.
  - destruct (Quantity r) as [q|], (UnitPrice r) as [p|]; cbn [mul_cells]; split;
      try (intros [x Hx]; discriminate Hx);
      try (intros [[x Hx] [y Hy]]; discriminate);
      try (intros _; eexists; reflexivity).
    intros _. split; eexists; reflexivity.
  - intros q p -> -> _. reflexivity.
Qed.

Lemma cleaned_table_invariant_witness :
  exists t,
    cleaned_df Example.cleaned = Some t /\
    forall r, r ∈ t ->
      ProductID r <> Some "P0000"%string /\
      (is_Some (TotalPrice r) <-> is_Some (Quantity r) /\ is_Some (UnitPrice r)) /\
      (forall q p,
         Quantity r = Some q -> UnitPrice r = Some p -> exact_product (q * p) ->
         TotalPrice r = Some (q * p)).
Proof.
  apply (cleaned_table_invariant (lib := Minimal.pandas)
           (new_analyzer Example.path) Example.cleaned Example.world Example.world).
  vm_compute. reflexivity.
Defined.

(** The products of the example are exact, the imputed row's included:
    5 * 2.5 is 25 * 2^-1. *)
Example example_products_exact :
  Forall (fun r => exists q p,
            Quantity r = Some q /\ UnitPrice r = Some p /\ exact_product (q * p))
    Example.cleaned_table.
Proof.
  unfold Example.cleaned_table.
  repeat (apply List.Forall_cons;
          [eexists _, _; split; [reflexivity|]; split; [reflexivity|];
           split; [|vm_compute; reflexivity]|]);
    try apply List.Forall_nil.
  - exists 10%Z, 0%Z. split; [reflexivity|]. split; [lia|]. vm_compute. reflexivity.
  - exists 25%Z, (-1)%Z. split; [reflexivity|]. split; [lia|]. vm_compute. reflexivity.
  - exists 15%Z, 0%Z. split; [reflexivity|]. split; [lia|]. vm_compute. reflexivity.
  - exists 60%Z, 0%Z. split; [reflexivity|]. split; [lia|]. vm_compute. reflexivity.
Qed.







(** The amended C10 at work: two blank rows of one product with peers 1
    and 2.  The first is given round(1.5) = 2; the mean taken for the second
    is (1 + 2 + 2) / 3, the written 2 included; it rounds to 2 as well. *)
Example imputation_two_blank_rows :
  let blank := Example.row "2025-09-01" "P1" "pen" "office" "East" "ann" None (Some 1) in
  let one := set_Quantity (Some 1) blank in
  let two := set_Quantity (Some 2) blank in
  let T := [one; blank; two; blank] in
  missing_qty T = [1; 3]%nat /\
  avg_qty (Some "P1"%string) T = Some ((1 + (2 + 0)) / 2) /\
  avg_qty (Some "P1"%string) (impute_step T 1) = Some ((1 + (2 + (2 + 0))) / 3) /\
  Quantity <$> impute_quantities T = [Some 1; Some 2; Some 2; Some 2].
Proof. repeat split. Qed.

(** ** Aggregation *)

(** The 총매출 column of a grouped table. *)
Definition revenues {K : Type} (l : list (K * Agg)) : list Q :=
  (fun row => revenue (snd row)) <$> l.

(** The distinct products of a frame, as [groupby(['ProductID',
    'ProductName'])] tells them apart. *)
Definition distinct_products (t : Table) : list (string * string) :=
  remove_dups (omap product_key t).

Section GroupByFacts.
Context {K : Type} `{EqDecision K} `{KeyOrder K}.
Implicit Types (key : Row timestamp -> option K) (t : Table) (ks : list K).

Lemma insert_key_perm (k : K) ks : Permutation (insert_key k ks) (k :: ks).
Proof.
  induction ks as [|x ks IH]; cbn; [reflexivity|].
  destruct (key_leb k x); [reflexivity|].
  rewrite IH. apply perm_swap.
Qed.

Lemma sort_keys_perm ks : Permutation (sort_keys ks) ks.
Proof.
  induction ks as [|k ks IH]; cbn; [reflexivity|].
  fold (sort_keys ks). rewrite insert_key_perm, IH. reflexivity.
Qed.

Lemma group_keys_NoDup key t : NoDup (group_keys key t).
Proof.
  unfold group_keys. rewrite sort_keys_perm. apply NoDup_remove_dups.
Qed.

Lemma group_keys_complete key t r k :
  r ∈ t -> key r = Some k -> k ∈ group_keys key t.
Proof.
  intros Hr Hk. unfold group_keys. rewrite sort_keys_perm, elem_of_remove_dups.
  apply list_elem_of_omap. exists r. auto.
Qed.

Lemma groupby_length {V : Type} key (f : Table -> V) t :
  length (groupby key f t) = length (remove_dups (omap key t)).
Proof.
  unfold groupby, group_keys. rewrite length_fmap.
  apply Permutation_length, sort_keys_perm.
Qed.

Lemma group_rows_cons key k r t :
  group_rows key k (r :: t) =
  if bool_decide (key r = Some k) then r :: group_rows key k t
  else group_rows key k t.
Proof. reflexivity. Qed.

Lemma group_rows_elem key k t r : r ∈ group_rows key k t -> r ∈ t.
Proof.
  unfold group_rows. rewrite !list_elem_of_In, filter_In. tauto.
Qed.

(** The sum of one column over a group. *)
Definition group_total key (f : Row timestamp -> option Q) t (k : K) : Q :=
  Qsum (omap f (group_rows key k t)).

Lemma Qsum_indicator (k0 : K) (c : Q) (g : K -> Q) ks :
  NoDup ks ->
  Qsum ((fun k => (if bool_decide (Some k0 = Some k) then c else 0) + g k) <$> ks)
  == (if bool_decide (k0 ∈ ks) then c else 0) + Qsum (g <$> ks).
Proof.
  induction 1 as [|k ks Hk Hnd IH].
  - rewrite bool_decide_eq_false_2 by apply not_elem_of_nil.
    change (0 == 0 + 0). lra.
  - rewrite !fmap_cons, !Qsum_cons, IH.
    destruct (decide (k0 = k)) as [->|Hne].
    + rewrite bool_decide_eq_true_2 by reflexivity.
      rewrite (bool_decide_eq_false_2 (k ∈ ks)) by exact Hk.
      rewrite (bool_decide_eq_true_2 (k ∈ k :: ks)) by left. lra.
    + rewrite bool_decide_eq_false_2 by congruence.
      destruct (bool_decide (k0 ∈ ks)) eqn:Hin.
      * apply bool_decide_eq_true_1 in Hin.
        rewrite (bool_decide_eq_true_2 (k0 ∈ k :: ks)) by (right; exact Hin). lra.
      * apply bool_decide_eq_false_1 in Hin.
        rewrite (bool_decide_eq_false_2 (k0 ∈ k :: ks)); [lra|].
        rewrite elem_of_cons. tauto.
Qed.

Lemma Qsum_fmap_ext {A : Type} (g g' : A -> Q) (l : list A) :
  (forall x, g x == g' x) -> Qsum (g <$> l) == Qsum (g' <$> l).
Proof.
  intros Hext. induction l as [|x l IH]; [reflexivity|].
  rewrite !fmap_cons, !Qsum_cons, IH, Hext. reflexivity.
Qed.

Lemma group_total_cons key (f : Row timestamp -> option Q) r t (k : K) :
  group_total key f (r :: t) k ==
  (if bool_decide (key r = Some k) then default 0 (f r) else 0)
  + group_total key f t k.
Proof.
  unfold group_total. rewrite group_rows_cons.
  destruct (bool_decide (key r = Some k)); [|lra].
  cbn [omap list_omap]. fold (omap f (group_rows key k t)).
  destruct (f r); cbn [default from_option id]; [rewrite Qsum_cons|]; lra.
Qed.

(** The groups partition the rows that have a key: summing a column group
    by group is summing it over the frame. *)
Lemma group_totals_partition key (f : Row timestamp -> option Q) t ks :
  NoDup ks ->
  (forall r, r ∈ t -> exists k, key r = Some k /\ k ∈ ks) ->
  Qsum (group_total key f t <$> ks) == Qsum (omap f t).
Proof.
  intros Hnd. induction t as [|r t IH]; intros Hkeys.
  - unfold group_total. cbn. clear. induction ks as [|k ks IH]; [reflexivity|].
    rewrite fmap_cons, Qsum_cons, IH. cbn. lra.
  - destruct (Hkeys r ltac:(left)) as (k0 & Hk0 & Hin).
    assert (Qsum (omap f (r :: t)) == default 0 (f r) + Qsum (omap f t)) as ->.
    { cbn [omap list_omap]. fold (omap f t).
      destruct (f r); cbn [default from_option id]; [rewrite Qsum_cons|]; lra. }
    rewrite <- IH by (intros r' Hr'; apply Hkeys; right; exact Hr').
    rewrite (Qsum_fmap_ext _ _ ks (group_total_cons key f r t)), Hk0.
    rewrite (Qsum_indicator k0 (default 0 (f r)) (group_total key f t) ks Hnd).
    rewrite (bool_decide_eq_true_2 _ Hin). reflexivity.
Qed.

End GroupByFacts.

Lemma is_cents_Qsum (l : list Q) : Forall is_cents l -> is_cents (Qsum l).
Proof.
  induction 1 as [|x l Hx _ IH]; [apply is_cents_0|].
  rewrite Qsum_cons. apply is_cents_plus; assumption.
Qed.

Lemma whole_is_cents (q : Q) : whole q -> is_cents q.
Proof.
  intros [z Hz]. exists (z * 100)%Z. rewrite Hz.
  unfold Qeq, inject_Z; cbn. lia.
Qed.

(** [round(2)] gives back the sum of whole numbers. *)
Lemma round2_whole_sum (l : list Q) : Forall whole l -> round2 (Qsum l) == Qsum l.
Proof.
  intros Hl. apply round2_cents, is_cents_Qsum.
  eapply Forall_impl; [exact Hl|]. exact whole_is_cents.
Qed.

(** A test for [is_cents] that computes. *)
Lemma is_cents_test (q : Q) : Qeq_bool (round2 q) q = true -> is_cents q.
Proof.
  intros Ht. apply Qeq_bool_iff in Ht.
  exists (round_half_even (q * 100)). rewrite <- Ht at 1.
  unfold round2, Qdiv, Qmult, Qinv, Qeq, inject_Z; cbn. lia.
Qed.

Section AnalysisFacts.
Context {lib : Pandas}.

Lemma sort_values_desc_nil {K : Type} : sort_values_desc (@nil (K * Agg)) = [].
Proof. apply Permutation_nil. symmetry. apply sort_values_perm. Qed.

Lemma revenues_groupby {K : Type} `{EqDecision K} `{KeyOrder K}
    (key : Row timestamp -> option K) (t : Table) :
  revenues (groupby key aggregate t) =
  (fun k => round2 (group_total key TotalPrice t k)) <$> group_keys key t.
Proof.
  unfold revenues, groupby. rewrite <- list_fmap_compose. reflexivity.
Qed.

(** The revenue column of a grouped and sorted table adds up to the total
    revenue, when no row lacks the key and every amount is in whole
    cents. *)
Lemma grouped_revenue_total {K : Type} `{EqDecision K} `{KeyOrder K}
    (key : Row timestamp -> option K) (t : Table) :
  Forall (fun r => is_Some (key r)) t ->
  Forall (fun r => forall x, TotalPrice r = Some x -> is_cents x) t ->
  Qsum (revenues (sort_values_desc (groupby key aggregate t)))
  == Qsum (omap TotalPrice t).
Proof.
  intros Hkeys Hcents.
  assert (Permutation (revenues (sort_values_desc (groupby key aggregate t)))
                      (revenues (groupby key aggregate t))) as Hperm.
  { unfold revenues. apply fmap_Permutation, sort_values_perm. }
  rewrite (Qsum_perm _ _ Hperm), revenues_groupby.
  rewrite (Qsum_fmap_ext _ (group_total key TotalPrice t)).
  - apply group_totals_partition; [apply group_keys_NoDup|].
    intros r Hr. rewrite Forall_forall in Hkeys.
    destruct (Hkeys r Hr) as [k Hk]. exists k. split; [exact Hk|].
    eapply group_keys_complete; eassumption.
  - intros k. apply round2_cents, is_cents_Qsum.
    rewrite Forall_forall. intros x Hx.
    apply list_elem_of_omap in Hx as (r & Hr & Hx).
    apply group_rows_elem in Hr. rewrite Forall_forall in Hcents.
    eapply Hcents; eassumption.
Qed.

Lemma StronglySorted_take {A : Type} (R : A -> A -> Prop) (n : nat) (l : list A) :
  StronglySorted R l -> StronglySorted R (take n l).
Proof.
  intros Hs. revert n. induction Hs as [|x l Hs IH Hx]; intros [|n]; cbn; try constructor.
  - apply IH.
  - rewrite Forall_forall in Hx |- *. intros y Hy. apply Hx.
    apply elem_of_take in Hy as (i & Hi & _). eapply list_elem_of_lookup_2, Hi.
Qed.

Lemma StronglySorted_split {A : Type} (R : A -> A -> Prop) (n : nat) (l : list A)
    (a b : A) :
  StronglySorted R l -> a ∈ take n l -> b ∈ drop n l -> R a b.
Proof.
  intros Hs. revert n. induction Hs as [|x l Hs IH Hx]; intros [|n]; cbn.
  - intros Ha. inversion Ha.
  - intros Ha. inversion Ha.
  - intros Ha. inversion Ha.
  - rewrite elem_of_cons. intros [->|Ha] Hb.
    + rewrite Forall_forall in Hx. apply Hx.
      apply list_elem_of_lookup in Hb as (i & Hi). rewrite lookup_drop in Hi.
      eapply list_elem_of_lookup_2, Hi.
    + eapply IH; eassumption.
Qed.

End AnalysisFacts.

(** C2, as stated, fails.  With a unit price of 0.004 the two categories
    of [Example.tiny] each round to 0.00 while their one region rounds
    0.008 to 0.01, and the scalar total, which is never rounded, is
    0.008. *)
Lemma revenue_sums_disagree :
  clean (lib := Minimal.pandas) Example.tiny = Returned Example.tiny_cleaned /\
  Qsum (revenues (category_analysis
                    (snd (analyze (lib := Minimal.pandas) Example.tiny_cleaned)))) == 0 /\
  Qsum (revenues (region_analysis
                    (snd (analyze (lib := Minimal.pandas) Example.tiny_cleaned)))) == 1 # 100 /\
  total_sales (basic_stats
                 (snd (analyze (lib := Minimal.pandas) Example.tiny_cleaned))) == 8 # 1000.
Proof.
  split; [vm_compute; reflexivity|].
  split; [vm_compute; reflexivity|].
  split; vm_compute; reflexivity.
Qed.

(** A row without a category belongs to no category group: the category
    revenues then miss it, whatever the prices. *)
Example revenue_sums_blank_category :
  let t := set_Category None <$> firstn 1 Example.tiny_cleaned in
  let results := snd (analyze (lib := Minimal.pandas) t) in
  category_analysis results = [] /\
  length (region_analysis results) = 1%nat.
Proof. split; vm_compute; reflexivity. Qed.

(** C2, amended.  When every row of the cleaned table has a Category and a
    Region and the TotalPrice values are whole numbers that float64 adds
    without rounding (their absolute values add up to 2^46 at most), the
    per-category revenues and the per-region revenues add up to the same
    amount, the scalar total revenue. *)
Theorem revenue_sums_agree {lib : Pandas} (t : Table) :
  Forall (fun r => is_Some (Category r) /\ is_Some (Region r)) t ->
  exact_amounts (omap TotalPrice t) ->
  Qsum (revenues (category_analysis (snd (analyze t))))
    == Qsum (revenues (region_analysis (snd (analyze t)))) /\
  Qsum (revenues (category_analysis (snd (analyze t))))
    == total_sales (basic_stats (snd (analyze t))) /\
  Qsum (revenues (region_analysis (snd (analyze t))))
    == total_sales (basic_stats (snd (analyze t))).
Proof.
  intros Hkeys [Hwhole _].
  assert (Forall (fun r => forall x, TotalPrice r = Some x -> is_cents x) t) as Hcents.
  { rewrite Forall_forall in Hwhole. rewrite Forall_forall. intros r Hr x Hx.
    apply whole_is_cents, Hwhole, list_elem_of_omap. eauto. }
  assert (Qsum (revenues (category_analysis (snd (analyze t))))
          == Qsum (omap TotalPrice t)) as Hc.
  { apply grouped_revenue_total; [|exact Hcents].
    eapply Forall_impl; [exact Hkeys|]. cbn. tauto. }
  assert (Qsum (revenues (region_analysis (snd (analyze t))))
          == Qsum (omap TotalPrice t)) as Hr.
  { apply grouped_revenue_total; [|exact Hcents].
    eapply Forall_impl; [exact Hkeys|]. cbn. tauto. }
  cbn [analyze snd basic_stats compute_basic_stats total_sales] in *.
  rewrite Hc, Hr. repeat split; reflexivity.
Qed.

(** Two sales of 10.00 each, in one category and one region. *)
Lemma revenue_sums_agree_witness :
  Qsum (revenues (category_analysis
                    (snd (analyze (lib := Minimal.pandas) Example.tied))))
    == Qsum (revenues (region_analysis
                    (snd (analyze (lib := Minimal.pandas) Example.tied)))) /\
  Qsum (revenues (category_analysis
                    (snd (analyze (lib := Minimal.pandas) Example.tied))))
    == total_sales (basic_stats
                    (snd (analyze (lib := Minimal.pandas) Example.tied))) /\
  Qsum (revenues (region_analysis
                    (snd (analyze (lib := Minimal.pandas) Example.tied))))
    == total_sales (basic_stats
                    (snd (analyze (lib := Minimal.pandas) Example.tied))).
Proof.
  apply (revenue_sums_agree (lib := Minimal.pandas) Example.tied).
  - unfold Example.tied.
    repeat (apply List.Forall_cons; [split; eexists; reflexivity|]).
    apply List.Forall_nil.
  - split.
    + unfold Example.tied. cbn [omap list_omap TotalPrice].
      repeat (apply List.Forall_cons; [exists 10%Z; vm_compute; reflexivity|]).
      apply List.Forall_nil.
    + vm_compute. discriminate.
Defined.

(** C3, as stated, fails.  [Example.tied] has two products of revenue
    10.00 each; under no implementation of the sort is its top-products
    table strictly descending. *)
Lemma top_products_not_strict :
  ~ exists lib : Pandas,
      StronglySorted (fun a b => revenue (snd b) < revenue (snd a))
        (top_products (snd (analyze (lib := lib) Example.tied))).
Proof.
  intros (lib & Hsorted).
  cbn [analyze snd top_products] in Hsorted.
  set (groups := groupby product_key aggregate Example.tied) in Hsorted.
  assert (groups =
          [ (("P1", "Pen")%string, mkAgg (round2 (10 + 0)) (Some (round2 ((10 + 0) / 1))) 1 (round2 (1 + 0)));
            (("P2", "Ink")%string, mkAgg (round2 (10 + 0)) (Some (round2 ((10 + 0) / 1))) 1 (round2 (2 + 0))) ])
    as Hgroups by reflexivity.
  clearbody groups. subst groups.
  pose proof (sort_values_perm _
    [ (("P1", "Pen")%string, mkAgg (round2 (10 + 0)) (Some (round2 ((10 + 0) / 1))) 1 (round2 (1 + 0)));
      (("P2", "Ink")%string, mkAgg (round2 (10 + 0)) (Some (round2 ((10 + 0) / 1))) 1 (round2 (2 + 0))) ])
    as Hperm.
  apply Permutation_sym, Permutation_length_2_inv in Hperm.
  destruct Hperm as [Hl|Hl]; rewrite Hl in Hsorted; cbn [take] in Hsorted;
    inversion Hsorted as [|? ? _ Hhd]; subst;
    inversion Hhd as [|? ? Hlt _]; subst;
    cbn [snd revenue] in Hlt; exact (Qlt_irrefl _ Hlt).
Qed.

(** Which of two products of equal revenue comes first is the sort's
    choice: one implementation of the interface keeps the grouping order,
    another reverses it. *)
Example top_products_tie_order :
  fst <$> top_products (snd (analyze (lib := Minimal.pandas) Example.tied))
    = [("P1", "Pen"); ("P2", "Ink")]%string /\
  fst <$> top_products (snd (analyze (lib := Minimal.pandas_late) Example.tied))
    = [("P2", "Ink"); ("P1", "Pen")]%string.
Proof. split; vm_compute; reflexivity. Qed.

(** C3, amended.  The top-products table has min(10, number of distinct
    products) rows, in descending (not strictly: equal revenues may
    follow one another) order of total revenue, and they are the products
    of highest revenue: every product left out has at most the revenue of
    every product listed. *)
Theorem top_products_table {lib : Pandas} (t : Table) :
  length (top_products (snd (analyze t)))
    = Nat.min 10 (length (distinct_products t)) /\
  StronglySorted (fun a b => revenue (snd b) <= revenue (snd a))
    (top_products (snd (analyze t))) /\
  exists rest,
    Permutation (top_products (snd (analyze t)) ++ rest)
                (groupby product_key aggregate t) /\
    forall a b, a ∈ top_products (snd (analyze t)) -> b ∈ rest ->
                revenue (snd b) <= revenue (snd a).
Proof.
  cbn [analyze snd top_products].
  set (sorted := sort_values_desc (groupby product_key aggregate t)).
  assert (Permutation sorted (groupby product_key aggregate t)) as Hperm
    by apply sort_values_perm.
  assert (StronglySorted (fun a b => revenue (snd b) <= revenue (snd a)) sorted)
    as Hsorted by apply sort_values_sorted.
  split; [|split].
  - rewrite length_take, (Permutation_length Hperm), groupby_length.
    unfold distinct_products. lia.
  - apply StronglySorted_take, Hsorted.
  - exists (drop 10 sorted). split.
    + rewrite take_drop. exact Hperm.
    + intros a b Ha Hb.
      exact (StronglySorted_split _ 10 sorted a b Hsorted Ha Hb).
Qed.

(** ** Failures *)

(** What [analyze_data] makes of a frame with no rows. *)
Definition empty_results : AnalysisResults :=
  mkAnalysisResults (mkBasicStats 0 0 None 0 None None) [] [] [] [] [] [].

(** C5, as stated, fails.  A file that holds only a placeholder row is
    cleaned to an empty table, and the aggregation stage then returns
    normally. *)
Lemma empty_table_analysis_returns :
  exists a,
    bind (load_and_clean_data (lib := Minimal.pandas) (new_analyzer Example.path))
         (analyze_data (lib := Minimal.pandas)) Example.placeholder_world
      = (Returned a, Example.placeholder_world) /\
    cleaned_df a = Some [] /\
    analysis_results a = Some empty_results.
Proof. eexists. split; [vm_compute; reflexivity|]. split; reflexivity. Qed.

(** C5, amended.  On a cleaned table with no rows the aggregation stage
    does not fail: it returns a total revenue and quantity of 0, no
    average, an order count of 0, no date range and empty tables.  The run
    aborts afterwards, in the renderer, which raises ValueError on the
    missing start date and writes no file. *)
Theorem empty_table_analysis {lib : Pandas} (path : string)
    (loaded : option RawTable) (previous : option AnalysisResults) (w : World) :
  analyze_data (mkAnalyzer path loaded (Some []) previous) w
    = (Returned (mkAnalyzer path loaded (Some []) (Some empty_results)), w) /\
  generate_word_report (mkAnalyzer path loaded (Some []) (Some empty_results)) w
    = (Raised ValueError, w).
Proof.
  split; [|reflexivity].
  unfold analyze_data. cbn [cleaned_df analyze].
  change (groupby Category aggregate []) with (@nil (string * Agg)).
  change (groupby Region aggregate []) with (@nil (string * Agg)).
  change (groupby Salesperson aggregate []) with (@nil (string * Agg)).
  change (groupby product_key aggregate []) with (@nil ((string * string) * Agg)).
  rewrite !sort_values_desc_nil. reflexivity.
Qed.

(** ** Determinism *)

(** Loading, cleaning and analysing, as [run_full_analysis] chains them. *)
Definition load_clean_analyze {lib : Pandas} (self : Analyzer) : M Analyzer :=
  let* self := load_and_clean_data self in
  analyze_data self.

(** The aggregate numbers a run ends with, or the exception it raises. *)
Definition results_of (run : Outcome Analyzer * World)
  : Outcome (option AnalysisResults) :=
  match fst run with
  | Returned a => Returned (analysis_results a)
  | Raised e => Raised e
  end.

Lemma load_clean_analyze_spec {lib : Pandas} (self : Analyzer) (w : World) :
  load_clean_analyze self w =
  match files w !! csv_file_path self with
  | None => (Raised FileNotFoundError, w)
  | Some (CsvFile raw) =>
      match clean raw with
      | Returned t =>
          (Returned (mkAnalyzer (csv_file_path self) (Some raw)
                       (Some (fst (analyze t))) (Some (snd (analyze t)))), w)
      | Raised e => (Raised e, w)
      end
  | Some _ => (Raised ParserError, w)
  end.
Proof.
  unfold load_clean_analyze, load_and_clean_data, read_csv, read_file, bind, ret, raise.
  destruct (files w !! csv_file_path self) as [[raw| |]|]; try reflexivity.
  destruct (clean raw) as [t|e]; reflexivity.
Qed.

(** C8.  Two runs of load, clean and analyse on the same file contents
    end with the same aggregate numbers (or the same exception), whatever
    else differs between them: the clock, the environment, the other
    files, the mail server, the events so far, and what the analyzer
    object held before. *)
Theorem analysis_deterministic {lib : Pandas}
    (a1 a2 : Analyzer) (w1 w2 : World) :
  csv_file_path a1 = csv_file_path a2 ->
  files w1 !! csv_file_path a1 = files w2 !! csv_file_path a2 ->
  results_of (load_clean_analyze a1 w1) = results_of (load_clean_analyze a2 w2).
Proof.
  intros Hpath Hfile. rewrite !load_clean_analyze_spec, <- Hfile.
  destruct (files w1 !! csv_file_path a1) as [[raw| |]|]; try reflexivity.
  destruct (clean raw) as [t|e]; reflexivity.
Qed.

(** A second run on the same analyzer object, in the world the first run
    left, repeats the results of the first. *)
Lemma analysis_repeatable {lib : Pandas} (a a' : Analyzer) (w w' : World) :
  load_clean_analyze a w = (Returned a', w') ->
  w' = w /\
  results_of (load_clean_analyze a' w') = Returned (analysis_results a').
Proof.
  rewrite load_clean_analyze_spec.
  destruct (files w !! csv_file_path a) as [[raw| |]|] eqn:Hf; try discriminate.
  destruct (clean raw) as [t|e] eqn:Hc; [|discriminate].
  intros [= <- <-]. split; [reflexivity|].
  rewrite load_clean_analyze_spec. cbn [csv_file_path]. rewrite Hf, Hc. reflexivity.
Qed.

(** The same file read a day later, on a machine set up for mail and by an
    analyzer that has run before. *)
Lemma analysis_deterministic_witness :
  results_of (load_clean_analyze (lib := Minimal.pandas)
                (new_analyzer Example.path) Example.world)
  = results_of (load_clean_analyze (lib := Minimal.pandas)
                  Example.cleaned Example.mail_world).
Proof.
  apply (analysis_deterministic (lib := Minimal.pandas)).
  - reflexivity.
  - vm_compute. reflexivity.
Defined.

(** ** The report path *)

Section ReportPath.
Local Open Scope string_scope.

Let old : string := ".csv".
Let new : string := "_sales_report.docx".








End ReportPath.

Section ReportFacts.
Context {lib : Pandas}.

Lemma generate_word_report_inv (self : Analyzer) (w w' : World) (path : string) :
  generate_word_report self w = (Returned path, w') ->
  exists results,
    analysis_results self = Some results /\
    path = report_path (csv_file_path self) /\
    w' = write_file path (DocxFile (mkDocument results (now w))) w.
Proof.
  unfold generate_word_report.
  destruct (analysis_results self) as [results|]; [|discriminate].
  unfold bind, strftime, first_row, get_now, save_document, ret, raise.
  destruct (date_start (basic_stats results)); [|discriminate].
  destruct (date_end (basic_stats results)); [|discriminate].
  destruct (category_analysis results); [discriminate|].
  destruct (region_analysis results); [discriminate|].
  destruct (salesperson_analysis results); [discriminate|].
  destruct (top_products results); [discriminate|].
  destruct (disk w _); try discriminate.
  intros [= <- <-]. exists results. auto.
Qed.

End ReportFacts.


(** A path with two occurrences, and a path with none. *)
Example report_path_examples :
  report_path "references/cicd_data.csv" = "references/cicd_data_sales_report.docx"%string /\
  report_path "exports.csv/2025.csv"
    = "exports_sales_report.docx/2025_sales_report.docx"%string /\
  report_path "sales.txt" = "sales.txt"%string.
Proof. repeat split. Qed.

(** ** Delivery *)

(** C6, as stated, fails.  Asked to send a file that does not exist, the
    notifier raises nothing to its caller: it returns [False]. *)
Lemma missing_attachment_returns_false :
  fst (send_email_with_report Example.cleaned
         "reports/missing.docx" "analyst@example.com" "app-password"
         ["a@x.com"%string] default_smtp_server default_smtp_port None
         Example.world)
  = Returned false.
Proof. vm_compute. reflexivity. Qed.

(** C6, amended.  When no file exists at the document path, the notifier
    raises FileNotFoundError inside its own [try] block, whose handler
    reports the failure and returns [False]: nothing is raised to the
    caller, no request is made to the mail server and no file changes. *)
Theorem missing_attachment_not_sent (self : Analyzer)
    (docx_file_path sender_email sender_password : string)
    (recipient_emails : list string) (smtp_server : string) (smtp_port : Z)
    (subject : option Subject) (w : World) :
  files w !! docx_file_path = None ->
  send_email_with_report self docx_file_path sender_email sender_password
    recipient_emails smtp_server smtp_port subject w
  = (Returned false, log (Stdout (EmailSendFailed FileNotFoundError)) w).
Proof.
  intros Hmissing.
  unfold send_email_with_report, try_except, bind, path_exists.
  rewrite Hmissing.
  rewrite bool_decide_eq_false_2 by (intros [f Hf]; discriminate).
  reflexivity.
Qed.

Lemma missing_attachment_not_sent_witness :
  send_email_with_report Example.cleaned
    "reports/missing.docx" "analyst@example.com" "app-password"
    ["a@x.com"%string] default_smtp_server default_smtp_port None Example.world
  = (Returned false, log (Stdout (EmailSendFailed FileNotFoundError)) Example.world).
Proof.
  apply missing_attachment_not_sent.
  vm_compute. reflexivity.
Defined.

Section MainFacts.
Context {lib : Pandas}.

Lemma run_full_analysis_inv (self a : Analyzer) (report : string) (w w1 : World) :
  run_full_analysis self w = (Returned (a, report), w1) ->
  exists d,
    report = report_path (csv_file_path self) /\
    w1 = write_file report (DocxFile d) w.
Proof.
  unfold run_full_analysis. unfold bind at 1 2.
  destruct (load_and_clean_data self w) as [[s1|e] w'] eqn:Hload; [|discriminate].
  apply load_and_clean_data_inv in Hload as (raw & t & _ & _ & -> & ->).
  unfold analyze_data at 1. cbn [cleaned_df].
  destruct (analyze t) as [t' results]. unfold ret at 1.
  unfold bind.
  destruct (generate_word_report _ w) as [[p|e] w''] eqn:Hgen; [|discriminate].
  apply generate_word_report_inv in Hgen as (results' & _ & -> & ->).
  intros [= <- <- <-]. eexists. split; reflexivity.
Qed.

End MainFacts.

(** X21.  When the three delivery variables are set and the sender address
    fails the syntactic check, [main] stops at the check: the only thing
    it does after the report is generated is to print the complaint.  No
    request is made to the mail server at any point of the run, and the
    report file is on disk, as the renderer wrote it. *)
Theorem invalid_sender_aborts_delivery {lib : Pandas} (w w1 : World)
    (analyzer : Analyzer) (report sender password recipients : string) :
  run_full_analysis (new_analyzer "references/cicd_data.csv") w
    = (Returned (analyzer, report), w1) ->
  environ w !! "SENDER_EMAIL"%string = Some sender ->
  environ w !! "EMAIL_PASSWORD"%string = Some password ->
  environ w !! "RECIPIENT_EMAIL"%string = Some recipients ->
  sender <> ""%string -> password <> ""%string -> recipients <> ""%string ->
  Regex.valid_email sender = false ->
  exists w2,
    main w = (Returned tt, w2) /\
    files w2 = files w1 /\
    (exists d, files w2 !! report = Some (DocxFile d)) /\
    events w2 = events w ++ [Stdout (InvalidSenderFormat sender)].
Proof.
  intros Hrun Hs Hp Hr Hs' Hp' Hr' Hinvalid.
  destruct (run_full_analysis_inv _ _ _ _ _ Hrun) as (d & Hreport & Hw1).
  exists (log (Stdout (InvalidSenderFormat sender)) w1). split; [|split; [|split]].
  - unfold main. unfold bind at 1. rewrite Hrun.
    unfold bind, getenv.
    assert (environ w1 = environ w) as -> by (rewrite Hw1; reflexivity).
    rewrite Hs, Hp, Hr. cbn [truthy default from_option id fst snd].
    rewrite !(proj2 (String.eqb_neq _ _)) by assumption.
    cbn [negb andb]. unfold send_from_environment.
    rewrite Hinvalid. reflexivity.
  - reflexivity.
  - exists d. rewrite Hw1. cbn [log write_file files]. apply lookup_insert_eq.
  - rewrite Hw1. reflexivity.
Qed.

(** The scenario of the specification: a sender address without [@]. *)
Lemma invalid_sender_aborts_delivery_witness :
  exists w2,
    main (lib := Minimal.pandas) Example.mail_world = (Returned tt, w2) /\
    files w2 = files (snd Example.reported) /\
    (exists d, files w2 !! snd (fst Example.reported) = Some (DocxFile d)) /\
    events w2 = events Example.mail_world
                  ++ [Stdout (InvalidSenderFormat "analyst.example.com")].
Proof.
  apply (invalid_sender_aborts_delivery (lib := Minimal.pandas)
           Example.mail_world (snd Example.reported)
           (fst (fst Example.reported)) (snd (fst Example.reported))
           "analyst.example.com"%string "app-password"%string
           "a@x.com, , b@x.com"%string).
  - vm_compute. reflexivity.
  - vm_compute. reflexivity.
  - vm_compute. reflexivity.
  - vm_compute. reflexivity.
  - discriminate.
  - discriminate.
  - discriminate.
  - vm_compute. reflexivity.
Defined.

(** * Further properties of the code *)

(** ** What cleaning keeps and what it changes *)

(** A row after rules 1 to 3: its dates parsed and its three text fields in
    title case, everything else as read. *)
Definition normalized_from (r : Row string) (r' : Row timestamp) : Prop :=
  ProductID r' = ProductID r /\ Quantity r' = Quantity r /\
  UnitPrice r' = UnitPrice r /\ Region r' = Region r /\
  Category r' = Text.title <$> Category r /\
  ProductName r' = Text.title <$> ProductName r /\
  Salesperson r' = Text.title <$> Salesperson r.

(** The Salesperson a row ends with. *)
Definition salesperson_label (s : option string) : string :=
  match s with
  | None => "Unknown"
  | Some name => if String.eqb (Text.title name) "" then "Unknown" else Text.title name
  end.

(** A row of the model's cleaned frame, against the row of the file it
    comes from. *)
Definition cleaned_cells (r : Row string) (r' : Row timestamp) : Prop :=
  ProductID r' = ProductID r /\ UnitPrice r' = UnitPrice r /\
  Region r' = Region r /\
  Category r' = Text.title <$> Category r /\
  ProductName r' = Text.title <$> ProductName r /\
  Salesperson r' = Some (salesperson_label (Salesperson r)) /\
  (forall q, Quantity r = Some q -> Quantity r' = Some q).

(** A cell after [.str.title()]: a blank stays blank, a text stays a text,
    and an ASCII text comes out as [Text.title] has it.  (How [str.title()]
    cases the letters of other scripts is not modelled, and nothing is said
    of it.) *)
Definition titled (cell cell' : option string) : Prop :=
  match cell with
  | None => cell' = None
  | Some s =>
      exists s', cell' = Some s' /\ (Str.isascii s = true -> s' = Text.title s)
  end.

(** The Salesperson of a cleaned row: a name, never blank; ["Unknown"] for
    a blank cell; for an ASCII cell its title case, or ["Unknown"] when it
    is empty. *)
Definition labelled (cell cell' : option string) : Prop :=
  exists label,
    cell' = Some label /\ label <> ""%string /\
    match cell with
    | None => label = "Unknown"%string
    | Some s => Str.isascii s = true -> label = salesperson_label (Some s)
    end.

(** A row of the cleaned frame, against the row of the file it comes
    from. *)
Definition cleaned_from (r : Row string) (r' : Row timestamp) : Prop :=
  ProductID r' = ProductID r /\ UnitPrice r' = UnitPrice r /\
  Region r' = Region r /\
  titled (Category r) (Category r') /\
  titled (ProductName r) (ProductName r') /\
  labelled (Salesperson r) (Salesperson r') /\
  (forall q, Quantity r = Some q -> Quantity r' = Some q).

Section CleaningCorrespondence.
Context {lib : Pandas}.

Lemma normalized_dated (raw : RawTable) (dates : list (option timestamp)) :
  length dates = length raw ->
  Forall2 normalized_from raw
    (normalize_text <$> zip_with set_Date dates (repair_dates raw)).
Proof.
  revert dates. induction raw as [|r raw IH]; intros [|d dates]; cbn; try discriminate.
  - constructor.
  - intros [= Hlen]. constructor; [|apply IH, Hlen].
    destruct (invalid_date r); repeat split; reflexivity.
Qed.

Lemma clean_normalized (raw : RawTable) (t : Table) :
  clean raw = Returned t ->
  exists dated, Forall2 normalized_from raw dated /\ t = clean_rows dated.
Proof.
  unfold clean, parse_dates.
  destruct (is_object_dtype (Date <$> raw)); [|discriminate]. cbn [negb].
  destruct (to_datetime (Date <$> repair_dates raw)) as [dates|] eqn:Hd; [|discriminate].
  destruct (text_columns _); [|discriminate].
  intros [= <-]. eexists; split; [|reflexivity].
  apply normalized_dated.
  rewrite (to_datetime_length _ _ Hd). unfold repair_dates.
  rewrite !length_fmap. reflexivity.
Qed.

Lemma normalized_filter (raw : RawTable) (dated : Table) :
  Forall2 normalized_from raw dated ->
  Forall2 normalized_from (remove_invalid_products raw) (remove_invalid_products dated).
Proof.
  induction 1 as [|r r' raw dated Hr _ IH]; cbn; [constructor|].
  unfold invalid_product. rewrite (proj1 Hr).
  destruct (negb _); [constructor; assumption|assumption].
Qed.

Lemma cleaned_row_from (T : Table) (r : Row string) (r' : Row timestamp) :
  normalized_from r r' ->
  cleaned_cells r (fill_salesperson (recompute_total (impute_row T r'))).
Proof.
  intros (Hp & Hq & Hu & Hr & Hc & Hn & Hs).
  assert (forall x : Row timestamp,
            ProductID (impute_row T x) = ProductID x /\
            UnitPrice (impute_row T x) = UnitPrice x /\
            Region (impute_row T x) = Region x /\
            Category (impute_row T x) = Category x /\
            ProductName (impute_row T x) = ProductName x /\
            Salesperson (impute_row T x) = Salesperson x /\
            (forall q, Quantity x = Some q -> Quantity (impute_row T x) = Some q))
    as Himp.
  { intros x. unfold impute_row. destruct (Quantity x) eqn:E.
    - repeat split; auto. intros q0 [= <-]. exact E.
    - destruct (imputed_value _ _); repeat split; auto; discriminate. }
  assert (forall y : Row timestamp,
            ProductID (fill_salesperson y) = ProductID y /\
            UnitPrice (fill_salesperson y) = UnitPrice y /\
            Region (fill_salesperson y) = Region y /\
            Category (fill_salesperson y) = Category y /\
            ProductName (fill_salesperson y) = ProductName y /\
            Quantity (fill_salesperson y) = Quantity y /\
            Salesperson (fill_salesperson y) =
              Some match Salesperson y with
                   | None => "Unknown"%string
                   | Some s => if String.eqb s "" then "Unknown"%string else s
                   end)
    as Hfill.
  { intros y. unfold fill_salesperson, missing_sales.
    destruct (Salesperson y) as [s|] eqn:Es.
    - destruct (String.eqb s "") eqn:Ee; repeat split; auto.
    - repeat split; auto. }
  destruct (Himp r') as (Ip & Iu & Ir & Ic & In & Is & Iq).
  destruct (Hfill (recompute_total (impute_row T r')))
    as (Fp & Fu & Fr & Fc & Fn & Fq & Fs).
  unfold cleaned_cells.
  rewrite Fp, Fu, Fr, Fc, Fn, Fq, Fs.
  cbn [recompute_total set_TotalPrice ProductID UnitPrice Region Category
       ProductName Salesperson Quantity].
  rewrite Ip, Iu, Ir, Ic, In, Is, Hp, Hu, Hr, Hc, Hn, Hs.
  repeat split.
  - destruct (Salesperson r); reflexivity.
  - intros q Hq'. apply Iq. congruence.
Qed.

Lemma titled_fmap (cell : option string) : titled cell (Text.title <$> cell).
Proof.
  destruct cell as [s|]; [|reflexivity].
  exists (Text.title s). split; [reflexivity|]. intros _. reflexivity.
Qed.

Lemma salesperson_label_named (cell : option string) :
  salesperson_label cell <> ""%string.
Proof.
  destruct cell as [s|]; cbn [salesperson_label]; [|discriminate].
  destruct (String.eqb (Text.title s) "") eqn:He; [discriminate|].
  apply String.eqb_neq, He.
Qed.

Lemma cleaned_cells_from (r : Row string) (r' : Row timestamp) :
  cleaned_cells r r' -> cleaned_from r r'.
Proof.
  intros (Hp & Hu & Hr & Hc & Hn & Hs & Hq).
  repeat split; try assumption.
  - rewrite Hc. apply titled_fmap.
  - rewrite Hn. apply titled_fmap.
  - exists (salesperson_label (Salesperson r)).
    split; [exact Hs|]. split; [apply salesperson_label_named|].
    destruct (Salesperson r); [intros _|]; reflexivity.
Qed.

End CleaningCorrespondence.

(** X1.  Cleaning drops the rows of the placeholder product and nothing
    else: the cleaned frame has one row for each other row of the file, in
    the order of the file, with the same ProductID, UnitPrice and Region,
    and with every Quantity that was present.  A blank Category or
    ProductName stays blank and a text stays a text, which for ASCII text
    is its title case; the Salesperson is never blank: ["Unknown"] for a
    blank or empty cell, and for ASCII text its title case. *)
Theorem cleaning_row_correspondence {lib : Pandas}
    (self self' : Analyzer) (w w' : World) (raw : RawTable) :
  load_and_clean_data self w = (Returned self', w') ->
  files w !! csv_file_path self = Some (CsvFile raw) ->
  exists t,
    cleaned_df self' = Some t /\
    Forall2 cleaned_from (remove_invalid_products raw) t /\
    (length t + length (List.filter invalid_product raw) = length raw)%nat.
Proof.
  intros Hrun Hfile.
  apply load_and_clean_data_inv in Hrun as (raw' & t & Hfile' & Hclean & -> & _).
  assert (raw' = raw) as -> by congruence.
  apply clean_normalized in Hclean as (dated & Hnorm & ->).
  exists (clean_rows dated). split; [reflexivity|].
  assert (Forall2 cleaned_from (remove_invalid_products raw) (clean_rows dated)) as Hrows.
  { rewrite clean_rows_closed_form. apply Forall2_fmap_r.
    eapply Forall2_impl; [apply normalized_filter, Hnorm|].
    intros r r' Hr. apply cleaned_cells_from, cleaned_row_from, Hr. }
  split; [exact Hrows|].
  rewrite <- (Forall2_length _ _ _ Hrows). unfold remove_invalid_products.
  clear. induction raw as [|r raw IH]; [reflexivity|].
  cbn [List.filter]. destruct (invalid_product r); cbn [negb length]; lia.
Qed.

Lemma cleaning_row_correspondence_witness :
  exists t,
    cleaned_df Example.cleaned = Some t /\
    Forall2 cleaned_from (remove_invalid_products Example.sales) t /\
    (length t + length (List.filter invalid_product Example.sales)
     = length Example.sales)%nat.
Proof.
  apply (cleaning_row_correspondence (lib := Minimal.pandas)
           (new_analyzer Example.path) Example.cleaned Example.world Example.world).
  - vm_compute. reflexivity.
  - vm_compute. reflexivity.
Defined.

(** X2.  A blank Quantity whose product has no row with a Quantity (among
    the rows kept) is left blank by the imputation, and the row's
    TotalPrice is then blank as well: the row stays in the frame. *)
Theorem lone_missing_quantity_stays_blank {lib : Pandas}
    (self self' : Analyzer) (w w' : World) (raw : RawTable)
    (i : nat) (r : Row string) :
  load_and_clean_data self w = (Returned self', w') ->
  files w !! csv_file_path self = Some (CsvFile raw) ->
  remove_invalid_products raw !! i = Some r ->
  Quantity r = None ->
  (forall j r', remove_invalid_products raw !! j = Some r' ->
                ProductID r' = ProductID r -> Quantity r' = None) ->
  exists t r',
    cleaned_df self' = Some t /\ t !! i = Some r' /\
    Quantity r' = None /\ TotalPrice r' = None.
Proof.
  intros Hrun Hfile Hi Hq Hlone.
  apply load_and_clean_data_inv in Hrun as (raw' & t & Hfile' & Hclean & -> & _).
  assert (raw' = raw) as -> by congruence.
  apply clean_inv in Hclean as (dated & Hsame & ->).
  set (K := remove_invalid_products raw) in *.
  set (K1 := remove_invalid_products dated).
  assert (Forall2 same_products K K1) as HK by (apply same_products_filter, Hsame).
  destruct (Forall2_lookup_l _ _ _ _ _ HK Hi) as (r1 & Hi1 & Hp1 & Hq1).
  assert (peer_quantities (ProductID r) K = []) as Hnone.
  { clear -Hlone. revert Hlone. generalize (ProductID r) as pid. intros pid.
    induction K as [|x K IH]; intros Hlone; [reflexivity|].
    rewrite peer_quantities_cons.
    destruct (cell_eqb (ProductID x) pid) eqn:Hx.
    - apply cell_eqb_eq in Hx.
      rewrite (Hlone 0%nat x eq_refl Hx).
      apply IH. intros j r' Hj. apply (Hlone (S j)). exact Hj.
    - apply IH. intros j r' Hj. apply (Hlone (S j)). exact Hj. }
  exists (clean_rows dated). eexists. split; [reflexivity|].
  rewrite clean_rows_closed_form, list_lookup_fmap. fold K1. rewrite Hi1.
  split; [reflexivity|].
  destruct (fill_salesperson_fields (recompute_total (impute_row K1 r1)))
    as (_ & -> & _ & ->).
  cbn [recompute_total set_TotalPrice Quantity TotalPrice].
  unfold impute_row. rewrite Hq1, Hq, Hp1.
  rewrite imputed_value_None
    by (rewrite (same_products_peers K K1 _ HK); exact Hnone).
  rewrite Hq1, Hq. split; reflexivity.
Qed.

Lemma lone_missing_quantity_stays_blank_witness :
  exists t r',
    cleaned_df Cases.lone_cleaned = Some t /\ t !! 0%nat = Some r' /\
    Quantity r' = None /\ TotalPrice r' = None.
Proof.
  apply (lone_missing_quantity_stays_blank (lib := Minimal.pandas)
           (new_analyzer Example.path) Cases.lone_cleaned Cases.lone_world
           Cases.lone_world Cases.lone_blank 0%nat
           (Example.row "2025-09-01" "P7007" "gift card" "misc" "East" "ann lee"
              None (Some 25))).
  - vm_compute. reflexivity.
  - vm_compute. reflexivity.
  - vm_compute. reflexivity.
  - reflexivity.
  - intros [|[|j]] r' Hj Hp.
    + injection Hj as <-. reflexivity.
    + injection Hj as <-. discriminate Hp.
    + discriminate Hj.
Defined.

(** X3.  After cleaning every row names a salesperson: the field is never
    blank and never the empty string. *)
Theorem cleaned_salesperson_known {lib : Pandas}
    (self self' : Analyzer) (w w' : World) :
  load_and_clean_data self w = (Returned self', w') ->
  exists t,
    cleaned_df self' = Some t /\
    forall r, r ∈ t -> exists s, Salesperson r = Some s /\ s <> ""%string.
Proof.
  intros Hrun.
  apply load_and_clean_data_inv in Hrun as (raw & t & _ & Hclean & -> & _).
  exists t. split; [reflexivity|].
  apply clean_inv in Hclean as (dated & _ & ->).
  intros r. rewrite clean_rows_closed_form, list_elem_of_fmap.
  intros (r0 & -> & _).
  set (y := recompute_total _).
  unfold fill_salesperson, missing_sales.
  destruct (Salesperson y) as [s|] eqn:Hs.
  - destruct (String.eqb s "") eqn:He.
    + exists "Unknown"%string. split; [reflexivity|discriminate].
    + exists s. split; [exact Hs|]. apply String.eqb_neq, He.
  - exists "Unknown"%string. split; [reflexivity|discriminate].
Qed.

Lemma cleaned_salesperson_known_witness :
  exists t,
    cleaned_df Example.cleaned = Some t /\
    forall r, r ∈ t -> exists s, Salesperson r = Some s /\ s <> ""%string.
Proof.
  apply (cleaned_salesperson_known (lib := Minimal.pandas)
           (new_analyzer Example.path) Example.cleaned Example.world Example.world).
  vm_compute. reflexivity.
Defined.

(** ** Columns without text *)

Section TextColumns.
Context {lib : Pandas}.

(** Rules 1 and 2 leave the other columns as they were. *)
Lemma dated_columns (raw : RawTable) (dates : list (option timestamp)) :
  length dates = length raw ->
  Category <$> zip_with set_Date dates (repair_dates raw) = Category <$> raw /\
  ProductName <$> zip_with set_Date dates (repair_dates raw) = ProductName <$> raw /\
  Salesperson <$> zip_with set_Date dates (repair_dates raw) = Salesperson <$> raw.
Proof.
  revert dates. induction raw as [|r raw IH]; intros [|d dates]; cbn; try discriminate.
  - auto.
  - intros [= Hlen]. destruct (IH dates Hlen) as (Hc & Hn & Hs).
    split; [|split]; (f_equal; [destruct (invalid_date r); reflexivity|]).
    + exact Hc.
    + exact Hn.
    + exact Hs.
Qed.

Lemma blank_column (raw : RawTable) (col : Row string -> option string) :
  raw <> [] -> Forall (fun r => col r = None) raw ->
  is_object_dtype (col <$> raw) = false.
Proof.
  intros Hne Hall. apply object_dtype_all_blank.
  - destruct raw; [congruence|discriminate].
  - apply Forall_fmap. exact Hall.
Qed.

End TextColumns.

(** X22.  A file with rows in which one of the four columns that go
    through [.str] (Date, Category, ProductName, Salesperson) has no value
    in any row is not cleaned: [load_and_clean_data] raises, leaving the
    world as it was.  The exception is AttributeError, from [.str] on a
    column that is not text, unless a date that cannot be read raised
    ValueError first; an empty Date column raises AttributeError before
    anything else. *)
Theorem blank_text_column_not_cleaned {lib : Pandas}
    (self : Analyzer) (w : World) (raw : RawTable) :
  files w !! csv_file_path self = Some (CsvFile raw) ->
  raw <> [] ->
  Forall (fun r => Date r = None) raw \/
  Forall (fun r => Category r = None) raw \/
  Forall (fun r => ProductName r = None) raw \/
  Forall (fun r => Salesperson r = None) raw ->
  exists e,
    load_and_clean_data self w = (Raised e, w) /\
    (e = AttributeError \/ e = ValueError) /\
    (Forall (fun r => Date r = None) raw -> e = AttributeError).
Proof.
  intros Hfile Hne Hblank.
  unfold load_and_clean_data, read_csv, read_file, bind, ret, raise.
  rewrite Hfile. unfold clean, parse_dates.
  destruct (is_object_dtype (Date <$> raw)) eqn:Hdate; cbn [negb].
  2: { exists AttributeError. auto. }
  assert (~ Forall (fun r => Date r = None) raw) as Hdated.
  { intros Hall. rewrite (blank_column raw Date Hne Hall) in Hdate. discriminate. }
  destruct (to_datetime (Date <$> repair_dates raw)) as [dates|] eqn:Hparse.
  2: { exists ValueError. split; [reflexivity|]. split; [auto|]. intros; contradiction. }
  assert (length dates = length raw) as Hlen.
  { rewrite (to_datetime_length _ _ Hparse). unfold repair_dates.
    rewrite !length_fmap. reflexivity. }
  destruct (dated_columns raw dates Hlen) as (Hc & Hn & Hs).
  unfold text_columns. rewrite Hc, Hn, Hs.
  destruct Hblank as [Hall|[Hall|[Hall|Hall]]]; [contradiction| | |].
  - rewrite (blank_column raw Category Hne Hall). cbn [andb].
    exists AttributeError. split; [reflexivity|]. split; [auto|]. intros; contradiction.
  - rewrite (blank_column raw ProductName Hne Hall), andb_false_r. cbn [andb].
    exists AttributeError. split; [reflexivity|]. split; [auto|]. intros; contradiction.
  - rewrite (blank_column raw Salesperson Hne Hall), andb_false_r.
    exists AttributeError. split; [reflexivity|]. split; [auto|]. intros; contradiction.
Qed.

Module Blank.

(** A file in which nobody is named as the salesperson. *)
Definition unnamed : RawTable :=
  [ Example.row "2025-09-01" "P1001" "usb cable" "accessories" "East" "" (Some 4) (Some (5 # 2));
    Example.row "2025-09-02" "P2002" "desk lamp" "home" "West" "" (Some 2) (Some 30) ].

Definition world : World :=
  mkWorld {[ Example.path := CsvFile unnamed ]} ∅ [] 1758585600 Example.server
    (fun _ => Saved) [].

End Blank.

Lemma blank_text_column_not_cleaned_witness :
  exists e,
    load_and_clean_data (lib := Minimal.pandas) (new_analyzer Example.path) Blank.world
    = (Raised e, Blank.world) /\
    (e = AttributeError \/ e = ValueError) /\
    (Forall (fun r => Date r = None) Blank.unnamed -> e = AttributeError).
Proof.
  apply (blank_text_column_not_cleaned (lib := Minimal.pandas)
           (new_analyzer Example.path) Blank.world Blank.unnamed).
  - vm_compute. reflexivity.
  - discriminate.
  - do 3 right. repeat (apply List.Forall_cons; [reflexivity|]). apply List.Forall_nil.
Defined.

(** ** Title case *)

Section TitleCase.

Lemma ascii_cases (P : ascii -> Prop) :
  (forall b0 b1 b2 b3 b4 b5 b6 b7, P (Ascii b0 b1 b2 b3 b4 b5 b6 b7)) ->
  forall c, P c.
Proof. intros H [b0 b1 b2 b3 b4 b5 b6 b7]. apply H. Qed.

Lemma to_lower_facts (c : ascii) :
  Text.is_alpha (Text.to_lower c) = Text.is_alpha c /\
  Text.to_lower (Text.to_lower c) = Text.to_lower c /\
  Text.to_upper (Text.to_lower c) = Text.to_upper c /\
  (Text.is_alpha c = false -> Text.to_lower c = c).
Proof.
  revert c. apply ascii_cases.
  intros [] [] [] [] [] [] [] []; vm_compute; repeat split; congruence.
Qed.

Lemma title_from_lower (prev : bool) (s : string) :
  Text.title_from prev (Str.lower s) = Text.title_from prev s.
Proof.
  revert prev. induction s as [|c s IH]; intros prev; [reflexivity|].
  cbn [Str.lower Text.title_from].
  destruct (to_lower_facts c) as (Ha & Hl & Hu & Hn).
  rewrite Ha, Hl, Hu.
  destruct (Text.is_alpha c); rewrite IH; [reflexivity|].
  rewrite (Hn eq_refl). reflexivity.
Qed.

End TitleCase.

(** X4.  Title-casing forgets the case of the input: two names that differ
    only in the case of their (ASCII) letters are normalised to the same
    name, and so fall in the same group. *)
Theorem title_ignores_case (a b : string) :
  Str.lower a = Str.lower b -> Text.title a = Text.title b.
Proof.
  intros Hab. unfold Text.title.
  rewrite <- (title_from_lower false a), <- (title_from_lower false b), Hab.
  reflexivity.
Qed.

Lemma title_ignores_case_witness :
  Text.title "USB cable" = Text.title "usb CABLE".
Proof. apply title_ignores_case. reflexivity. Defined.

(** ** What the aggregates say *)

Lemma min_date_spec (l : list timestamp) (d : timestamp) :
  d ∈ l -> exists lo, min_date l = Some lo /\ (lo <= d)%Z /\ lo ∈ l.
Proof.
  destruct l as [|x l]; [intros Hd; inversion Hd|]. intros Hd.
  exists (foldr Z.min x l). split; [reflexivity|].
  assert (forall y, (foldr Z.min y l <= y)%Z /\
                    (forall z, z ∈ l -> (foldr Z.min y l <= z)%Z) /\
                    foldr Z.min y l ∈ y :: l) as Hfold.
  { clear. induction l as [|z l IH]; intros y; cbn [foldr].
    - split; [lia|]. split; [intros z Hz; inversion Hz|left].
    - destruct (IH y) as (Hy & Hl & Hin). split; [lia|]. split.
      + intros z' Hz'. apply elem_of_cons in Hz' as [->|Hz']; [lia|].
        specialize (Hl z' Hz'). lia.
      + destruct (Z.min_spec z (foldr Z.min y l)) as [[_ ->]|[_ ->]].
        * right. left.
        * apply elem_of_cons in Hin as [->|Hin]; [left|right; right; exact Hin]. }
  destruct (Hfold x) as (Hx & Hl & Hin). split; [|exact Hin].
  apply elem_of_cons in Hd as [->|Hd]; [exact Hx|apply Hl, Hd].
Qed.

Lemma max_date_spec (l : list timestamp) (d : timestamp) :
  d ∈ l -> exists hi, max_date l = Some hi /\ (d <= hi)%Z /\ hi ∈ l.
Proof.
  destruct l as [|x l]; [intros Hd; inversion Hd|]. intros Hd.
  exists (foldr Z.max x l). split; [reflexivity|].
  assert (forall y, (y <= foldr Z.max y l)%Z /\
                    (forall z, z ∈ l -> (z <= foldr Z.max y l)%Z) /\
                    foldr Z.max y l ∈ y :: l) as Hfold.
  { clear. induction l as [|z l IH]; intros y; cbn [foldr].
    - split; [lia|]. split; [intros z Hz; inversion Hz|left].
    - destruct (IH y) as (Hy & Hl & Hin). split; [lia|]. split.
      + intros z' Hz'. apply elem_of_cons in Hz' as [->|Hz']; [lia|].
        specialize (Hl z' Hz'). lia.
      + destruct (Z.max_spec z (foldr Z.max y l)) as [[_ ->]|[_ ->]].
        * apply elem_of_cons in Hin as [->|Hin]; [left|right; right; exact Hin].
        * right. left. }
  destruct (Hfold x) as (Hx & Hl & Hin). split; [|exact Hin].
  apply elem_of_cons in Hd as [->|Hd]; [exact Hx|apply Hl, Hd].
Qed.

(** X5.  The analysis period contains every dated row: the start and the
    end of the date range are dates of the frame, and every row's date lies
    between them. *)
Theorem date_range_bounds {lib : Pandas} (t : Table) (r : Row timestamp)
    (d : timestamp) :
  r ∈ t -> Date r = Some d ->
  exists first last,
    date_start (basic_stats (snd (analyze t))) = Some first /\
    date_end (basic_stats (snd (analyze t))) = Some last /\
    (first <= d <= last)%Z /\
    (exists r1, r1 ∈ t /\ Date r1 = Some first) /\
    (exists r2, r2 ∈ t /\ Date r2 = Some last).
Proof.
  intros Hr Hd.
  assert (d ∈ omap Date t) as Hin by (apply list_elem_of_omap; eauto).
  destruct (min_date_spec _ _ Hin) as (lo & Hlo & Hle & Hlo_in).
  destruct (max_date_spec _ _ Hin) as (hi & Hhi & Hge & Hhi_in).
  exists lo, hi. cbn [analyze snd basic_stats compute_basic_stats date_start date_end].
  split; [exact Hlo|]. split; [exact Hhi|]. split; [lia|].
  split; apply list_elem_of_omap; assumption.
Qed.

Lemma date_range_bounds_witness :
  exists first last,
    date_start (basic_stats (snd (analyze (lib := Minimal.pandas) Example.cleaned_table)))
      = Some first /\
    date_end (basic_stats (snd (analyze (lib := Minimal.pandas) Example.cleaned_table)))
      = Some last /\
    (first <= 1756771200000000000 <= last)%Z /\
    (exists r1, r1 ∈ Example.cleaned_table /\ Date r1 = Some first) /\
    (exists r2, r2 ∈ Example.cleaned_table /\ Date r2 = Some last).
Proof.
  apply (date_range_bounds (lib := Minimal.pandas) Example.cleaned_table
           (mkRow (Some 1756771200000000000%Z) (Some "P1001"%string)
              (Some "Usb Cable"%string) (Some "Accessories"%string)
              (Some "East"%string) (Some "Bob"%string) (Some 6) (Some (5 # 2))
              (Some (30 # 2)) None)).
  - unfold Example.cleaned_table. do 2 right. left.
  - reflexivity.
Defined.

Section GroupedTables.
Context {K : Type} `{EqDecision K} `{KeyOrder K}.

Lemma groupby_keys {V : Type} (key : Row timestamp -> option K)
    (f : Table -> V) (t : Table) :
  fst <$> groupby key f t = group_keys key t.
Proof.
  unfold groupby. rewrite <- list_fmap_compose. apply list_fmap_id.
Qed.

Lemma group_keys_elem (key : Row timestamp -> option K) (t : Table) (k : K) :
  k ∈ group_keys key t <-> exists r, r ∈ t /\ key r = Some k.
Proof.
  unfold group_keys. rewrite sort_keys_perm, elem_of_remove_dups.
  apply list_elem_of_omap.
Qed.

Lemma groupby_elem {V : Type} (key : Row timestamp -> option K)
    (f : Table -> V) (t : Table) (k : K) (v : V) :
  (k, v) ∈ groupby key f t <->
  (exists r, r ∈ t /\ key r = Some k) /\ v = f (group_rows key k t).
Proof.
  unfold groupby. rewrite list_elem_of_fmap. split.
  - intros (k' & [= -> ->] & Hk). split; [apply group_keys_elem, Hk|reflexivity].
  - intros [Hk ->]. exists k. split; [reflexivity|apply group_keys_elem, Hk].
Qed.

End GroupedTables.

(** A grouped table: one row for each key that occurs in the frame, and in
    the row the count of the TotalPrice values of the rows of that key,
    their mean (blank when there is none), their sum and the sum of the
    Quantity values.  The sums are given where float64 adds without
    rounding. *)
Definition table_of_groups {K : Type} `{EqDecision K}
    (key : Row timestamp -> option K) (t : Table) (table : list (K * Agg)) : Prop :=
  NoDup (fst <$> table) /\
  (forall k, k ∈ fst <$> table <-> exists r, r ∈ t /\ key r = Some k) /\
  forall k a, (k, a) ∈ table ->
    let rows := List.filter (fun r => bool_decide (key r = Some k)) t in
    orders a = length (omap TotalPrice rows) /\
    (avg_order a = None <-> omap TotalPrice rows = []) /\
    (exact_amounts (omap TotalPrice rows) ->
     revenue a == Qsum (omap TotalPrice rows)) /\
    (exact_amounts (omap Quantity rows) ->
     units a == Qsum (omap Quantity rows)).

Lemma sorted_groupby_table {lib : Pandas} {K : Type} `{EqDecision K} `{KeyOrder K}
    (key : Row timestamp -> option K) (t : Table) :
  table_of_groups key t (sort_values_desc (groupby key aggregate t)).
Proof.
  pose proof (sort_values_perm _ (groupby key aggregate t)) as Hperm.
  split; [|split].
  - rewrite Hperm, groupby_keys. apply group_keys_NoDup.
  - intros k. rewrite Hperm, groupby_keys. apply group_keys_elem.
  - intros k a. rewrite Hperm. intros Hka.
    apply groupby_elem in Hka as [_ ->]. unfold group_rows.
    cbv zeta. cbn [aggregate orders avg_order revenue units].
    split; [reflexivity|]. split; [|split].
    + unfold mean. destruct (omap TotalPrice _); cbn [fmap option_fmap option_map];
        split; congruence.
    + intros [Hwhole _]. apply round2_whole_sum, Hwhole.
    + intros [Hwhole _]. apply round2_whole_sum, Hwhole.
Qed.

(** X6.  The category, region and salesperson tables have exactly one
    row for each category, region and salesperson that occurs in the
    cleaned frame.  The row counts the TotalPrice values of the rows of its
    key and has a mean exactly when there is one to count; its revenue is
    the sum of those values and its quantity the sum of the Quantity values
    of those rows, where they are whole numbers that float64 adds without
    rounding. *)
Theorem dimension_tables_cover_groups {lib : Pandas} (t : Table) :
  table_of_groups Category t (category_analysis (snd (analyze t))) /\
  table_of_groups Region t (region_analysis (snd (analyze t))) /\
  table_of_groups Salesperson t (salesperson_analysis (snd (analyze t))).
Proof.
  split; [|split].
  - apply (sorted_groupby_table Category).
  - apply (sorted_groupby_table Region).
  - apply (sorted_groupby_table Salesperson).
Qed.

Section KeyOrderZ.

Lemma insert_key_sorted_Z (k : Z) (l : list Z) :
  StronglySorted Z.le l -> StronglySorted Z.le (insert_key k l).
Proof.
  induction 1 as [|x l Hs IH Hx]; cbn [insert_key].
  - repeat constructor.
  - unfold key_leb, Z_key_order. destruct (Z.leb_spec k x) as [Hle|Hgt].
    + constructor; [constructor; assumption|].
      constructor; [exact Hle|].
      eapply Forall_impl; [exact Hx|]. cbn. intros z Hz. lia.
    + constructor; [exact IH|].
      rewrite insert_key_perm. constructor; [lia|exact Hx].
Qed.

Lemma sort_keys_sorted_Z (l : list Z) : StronglySorted Z.le (sort_keys l).
Proof.
  induction l as [|k l IH]; cbn; [constructor|].
  apply insert_key_sorted_Z, IH.
Qed.

Lemma sorted_NoDup_strict (l : list Z) :
  StronglySorted Z.le l -> NoDup l -> StronglySorted Z.lt l.
Proof.
  induction 1 as [|x l Hs IH Hx]; intros Hnd; [constructor|].
  inversion Hnd as [|? ? Hnot Hnd']; subst.
  constructor; [apply IH, Hnd'|].
  rewrite Forall_forall in Hx |- *. intros y Hy.
  specialize (Hx y Hy).
  assert (x <> y) by (intros ->; contradiction). lia.
Qed.

Lemma group_keys_increasing (key : Row timestamp -> option Z) (t : Table) :
  StronglySorted Z.lt (group_keys key t).
Proof.
  apply sorted_NoDup_strict; [apply sort_keys_sorted_Z|apply group_keys_NoDup].
Qed.

End KeyOrderZ.

(** X7.  The trend tables are in time order, not revenue order: the daily
    table lists each date of the frame once, earliest first, and the weekly
    table each ISO week number once, lowest first. *)
Theorem trend_tables_chronological {lib : Pandas} (t : Table) :
  StronglySorted Z.lt (fst <$> daily_trends (snd (analyze t))) /\
  (forall d, d ∈ fst <$> daily_trends (snd (analyze t)) <->
             exists r, r ∈ t /\ Date r = Some d) /\
  StronglySorted Z.lt (fst <$> weekly_analysis (snd (analyze t))) /\
  (forall k, k ∈ fst <$> weekly_analysis (snd (analyze t)) <->
             exists r d, r ∈ t /\ Date r = Some d /\ isocalendar_week d = k).
Proof.
  cbn [analyze snd daily_trends weekly_analysis].
  rewrite !groupby_keys. split; [apply (group_keys_increasing Date)|].
  split; [intros d; apply (group_keys_elem Date)|].
  split; [apply (group_keys_increasing Week)|].
  intros k. rewrite (group_keys_elem Week). unfold add_week. split.
  - intros (r' & Hr' & Hk). apply list_elem_of_fmap in Hr' as (r & -> & Hr).
    cbn [set_Week Week] in Hk. destruct (Date r) as [d|] eqn:Hd; [|discriminate].
    injection Hk as <-. exists r, d. auto.
  - intros (r & d & Hr & Hd & <-).
    exists (set_Week (isocalendar_week <$> Date r) r). split.
    + apply list_elem_of_fmap. exists r. auto.
    + cbn [set_Week Week]. rewrite Hd. reflexivity.
Qed.

(** ** The report *)

Section ReportGeneration.
Context {lib : Pandas}.

(** A run of the renderer that raises leaves the world as it was, unless
    what raised is a write that broke off inside [doc.save]. *)
Lemma generate_word_report_raised (self : Analyzer) (w w' : World) (e : Exn) :
  generate_word_report self w = (Raised e, w') ->
  w' = w \/
  (disk w (report_path (csv_file_path self)) = Interrupted e /\
   w' = write_file (report_path (csv_file_path self)) OtherFile w).
Proof.
  unfold generate_word_report.
  destruct (analysis_results self) as [results|]; [|intros [= _ <-]; left; reflexivity].
  unfold bind, strftime, first_row, get_now, save_document, ret, raise.
  destruct (date_start (basic_stats results)); [|intros [= _ <-]; left; reflexivity].
  destruct (date_end (basic_stats results)); [|intros [= _ <-]; left; reflexivity].
  destruct (category_analysis results); [intros [= _ <-]; left; reflexivity|].
  destruct (region_analysis results); [intros [= _ <-]; left; reflexivity|].
  destruct (salesperson_analysis results); [intros [= _ <-]; left; reflexivity|].
  destruct (top_products results); [intros [= _ <-]; left; reflexivity|].
  destruct (disk w _) as [|e'|e'] eqn:Hdisk; [discriminate| |].
  - intros [= _ <-]. left. reflexivity.
  - intros [= <- <-]. right. split; reflexivity.
Qed.

Lemma generate_word_report_saved (self : Analyzer) (w w' : World) (path : string) :
  generate_word_report self w = (Returned path, w') ->
  disk w (report_path (csv_file_path self)) = Saved.
Proof.
  unfold generate_word_report.
  destruct (analysis_results self) as [results|]; [|discriminate].
  unfold bind, strftime, first_row, get_now, save_document, ret, raise.
  destruct (date_start (basic_stats results)); [|discriminate].
  destruct (date_end (basic_stats results)); [|discriminate].
  destruct (category_analysis results); [discriminate|].
  destruct (region_analysis results); [discriminate|].
  destruct (salesperson_analysis results); [discriminate|].
  destruct (top_products results); [discriminate|].
  destruct (disk w _); [reflexivity|discriminate|discriminate].
Qed.

(** [run_full_analysis] in terms of its three steps. *)
Lemma run_full_analysis_steps (self : Analyzer) (w : World) :
  run_full_analysis self w =
  match load_clean_analyze self w with
  | (Returned a, w1) =>
      match generate_word_report a w1 with
      | (Returned path, w2) => (Returned (a, path), w2)
      | (Raised e, w2) => (Raised e, w2)
      end
  | (Raised e, w1) => (Raised e, w1)
  end.
Proof.
  unfold run_full_analysis, load_clean_analyze. unfold bind at 1 2 4.
  destruct (load_and_clean_data self w) as [[s1|e] w1]; [|reflexivity].
  unfold bind. destruct (analyze_data s1 w1) as [[s2|e] w2]; [|reflexivity].
  destruct (generate_word_report s2 w2) as [[p|e] w3]; reflexivity.
Qed.


(** What a run that raised has left behind: nothing, unless the exception
    is that of a write that broke off inside [doc.save]. *)
Lemma run_full_analysis_raised (self : Analyzer) (w w' : World) (e : Exn) :
  run_full_analysis self w = (Raised e, w') ->
  w' = w \/
  (disk w (report_path (csv_file_path self)) = Interrupted e /\
   w' = write_file (report_path (csv_file_path self)) OtherFile w).
Proof.
  rewrite run_full_analysis_steps, load_clean_analyze_spec.
  destruct (files w !! csv_file_path self) as [[raw| |]|];
    try (intros [= _ <-]; left; reflexivity).
  destruct (clean raw) as [t|e']; [|intros [= _ <-]; left; reflexivity].
  destruct (generate_word_report _ w) as [[p|e'] w2] eqn:Hgen; [discriminate|].
  intros [= <- <-]. apply generate_word_report_raised in Hgen. exact Hgen.
Qed.

Lemma run_full_analysis_saved (self a : Analyzer) (w w' : World) (path : string) :
  run_full_analysis self w = (Returned (a, path), w') ->
  disk w (report_path (csv_file_path self)) = Saved.
Proof.
  rewrite run_full_analysis_steps, load_clean_analyze_spec.
  destruct (files w !! csv_file_path self) as [[raw| |]|]; try discriminate.
  destruct (clean raw) as [t|e']; [|discriminate].
  destruct (generate_word_report _ w) as [[p|e'] w2] eqn:Hgen; [|discriminate].
  intros _. apply generate_word_report_saved in Hgen. exact Hgen.
Qed.

End ReportGeneration.

(** X8.  [run_full_analysis] writes the report as its last act.  When it
    returns, the file system has accepted the save and the world differs
    from the one the run started in by one file, the document at the report
    path.  When it raises, the world is as it was, with one exception: if
    the exception is that of a write that broke off inside [doc.save], the
    file it had begun stays at the report path, incomplete.  A run that
    fails while loading, cleaning, analysing or rendering, or whose save is
    refused when the file is opened, leaves nothing behind. *)
Theorem report_written_last {lib : Pandas} (self : Analyzer) (w : World) :
  (forall a path w', run_full_analysis self w = (Returned (a, path), w') ->
     path = report_path (csv_file_path self) /\
     disk w path = Saved /\
     exists d, w' = write_file path (DocxFile d) w) /\
  (forall e w', run_full_analysis self w = (Raised e, w') ->
     w' = w \/
     (disk w (report_path (csv_file_path self)) = Interrupted e /\
      w' = write_file (report_path (csv_file_path self)) OtherFile w)).
Proof.
  split.
  - intros a path w' Hrun.
    pose proof (run_full_analysis_saved _ _ _ _ _ Hrun) as Hsaved.
    destruct (run_full_analysis_inv _ _ _ _ _ Hrun) as (d & Hp & Hw).
    split; [exact Hp|]. split; [rewrite Hp; exact Hsaved|]. exists d. exact Hw.
  - intros e w' Hrun. exact (run_full_analysis_raised _ _ _ _ Hrun).
Qed.

(** The two ways a save can fail, on the example file: a refusal leaves
    nothing, an interrupted write leaves the file it had begun. *)
Example refused_save_leaves_nothing :
  let w := mkWorld {[ Example.path := CsvFile Example.sales ]} ∅ [] 1758585600
             Example.server (fun _ => Refused FileNotFoundError) [] in
  run_full_analysis (lib := Minimal.pandas) (new_analyzer Example.path) w
  = (Raised FileNotFoundError, w).
Proof. vm_compute. reflexivity. Qed.

Example interrupted_save_leaves_file :
  let w := mkWorld {[ Example.path := CsvFile Example.sales ]} ∅ [] 1758585600
             Example.server (fun _ => Interrupted OSError) [] in
  run_full_analysis (lib := Minimal.pandas) (new_analyzer Example.path) w
  = (Raised OSError, write_file (report_path Example.path) OtherFile w).
Proof. vm_compute. reflexivity. Qed.



(** ** The notifier *)

(** A computation that touches nothing of the world but its event log, to
    which it may add. *)
Definition logs_only {A : Type} (m : M A) : Prop :=
  forall w, exists evs,
    snd (m w) = mkWorld (files w) (environ w) (stdin w) (now w) (smtp w) (disk w)
                  (events w ++ evs).

Section LogsOnly.

Lemma logs_only_unchanged {A : Type} (m : M A) :
  (forall w, snd (m w) = w) -> logs_only m.
Proof.
  intros Hm w. exists []. rewrite Hm, app_nil_r. destruct w; reflexivity.
Qed.

Lemma logs_only_ret {A : Type} (a : A) : logs_only (ret a).
Proof. apply logs_only_unchanged. reflexivity. Qed.

Lemma logs_only_raise {A : Type} (e : Exn) : logs_only (@raise A e).
Proof. apply logs_only_unchanged. reflexivity. Qed.

Lemma logs_only_bind {A B : Type} (m : M A) (k : A -> M B) :
  logs_only m -> (forall a, logs_only (k a)) -> logs_only (bind m k).
Proof.
  intros Hm Hk w. unfold bind. destruct (Hm w) as (evs & Hw).
  destruct (m w) as [[a|e] w1]; cbn [snd] in *.
  - destruct (Hk a w1) as (evs' & Hw'). exists (evs ++ evs').
    rewrite Hw'. rewrite Hw. cbn. rewrite app_assoc. reflexivity.
  - exists evs. exact Hw.
Qed.

Lemma logs_only_try_except {A : Type} (m : M A) (h : Exn -> M A) :
  logs_only m -> (forall e, logs_only (h e)) -> logs_only (try_except m h).
Proof.
  intros Hm Hh w. unfold try_except. destruct (Hm w) as (evs & Hw).
  destruct (m w) as [[a|e] w1]; cbn [snd] in *.
  - exists evs. exact Hw.
  - destruct (Hh e w1) as (evs' & Hw'). exists (evs ++ evs').
    rewrite Hw'. rewrite Hw. cbn. rewrite app_assoc. reflexivity.
Qed.

Lemma logs_only_emit (e : Event) : logs_only (emit e).
Proof. intros w. exists [e]. reflexivity. Qed.

Lemma logs_only_smtp_request (e : Event) (ok : SmtpServer -> bool) :
  logs_only (smtp_request e ok).
Proof. intros w. exists [e]. unfold smtp_request. destruct (ok (smtp w)); reflexivity. Qed.

Lemma logs_only_strftime (d : option timestamp) : logs_only (strftime d).
Proof. destruct d; [apply logs_only_ret|apply logs_only_raise]. Qed.

Lemma logs_only_first_row {K V : Type} (l : list (K * V)) : logs_only (first_row l).
Proof. destruct l; [apply logs_only_raise|apply logs_only_ret]. Qed.

Lemma logs_only_get_now : logs_only get_now.
Proof. apply logs_only_unchanged. reflexivity. Qed.

Lemma logs_only_path_exists (path : string) : logs_only (path_exists path).
Proof. apply logs_only_unchanged. reflexivity. Qed.

Lemma logs_only_read_file (path : string) : logs_only (read_file path).
Proof.
  apply logs_only_unchanged. intros w. unfold read_file.
  destruct (files w !! path); reflexivity.
Qed.

Lemma logs_only_create_email_body (self : Analyzer) :
  logs_only (_create_email_body self).
Proof.
  unfold _create_email_body. destruct (analysis_results self); [|apply logs_only_ret].
  repeat (apply logs_only_bind;
          [first [apply logs_only_strftime | apply logs_only_first_row
                 | apply logs_only_get_now]|intros ?]).
  apply logs_only_ret.
Qed.

Lemma logs_only_default_subject (self : Analyzer) :
  logs_only (default_subject self).
Proof.
  unfold default_subject. destruct (analysis_results self).
  - repeat (apply logs_only_bind; [apply logs_only_strftime|intros ?]).
    apply logs_only_ret.
  - apply logs_only_bind; [apply logs_only_get_now|intros ?]. apply logs_only_ret.
Qed.

Lemma logs_only_send_email (self : Analyzer)
    (docx_file_path sender_email sender_password : string)
    (recipient_emails : list string) (smtp_server : string) (smtp_port : Z)
    (subject : option Subject) :
  logs_only (send_email_with_report self docx_file_path sender_email
               sender_password recipient_emails smtp_server smtp_port subject).
Proof.
  unfold send_email_with_report. apply logs_only_try_except.
  - apply logs_only_bind; [apply logs_only_path_exists|intros found].
    destruct (negb found); [apply logs_only_raise|].
    apply logs_only_bind.
    { destruct subject; [apply logs_only_ret|apply logs_only_default_subject]. }
    intros s. apply logs_only_bind; [apply logs_only_create_email_body|intros body].
    apply logs_only_bind; [apply logs_only_read_file|intros f].
    repeat (apply logs_only_bind; [apply logs_only_smtp_request|intros ?]).
    apply logs_only_ret.
  - intros e. apply logs_only_bind; [apply logs_only_emit|intros ?].
    apply logs_only_ret.
Qed.

(** The notifier seen from its caller: an answer, the files as they were,
    and more events. *)
Lemma send_email_outcome (self : Analyzer)
    (docx_file_path sender_email sender_password : string)
    (recipient_emails : list string) (smtp_server : string) (smtp_port : Z)
    (subject : option Subject) (w : World) :
  exists (sent : bool) (w' : World) (evs : list Event),
    send_email_with_report self docx_file_path sender_email sender_password
      recipient_emails smtp_server smtp_port subject w = (Returned sent, w') /\
    files w' = files w /\ events w' = events w ++ evs.
Proof.
  destruct (logs_only_send_email self docx_file_path sender_email sender_password
              recipient_emails smtp_server smtp_port subject w) as (evs & Hw).
  revert Hw. unfold send_email_with_report, try_except.
  match goal with |- context [match ?m w with _ => _ end] => destruct (m w) as [[b|e] w1] end.
  - cbn [snd]. intros ->. eexists b, _, evs. repeat split.
  - unfold bind, print, emit, ret. cbn [snd]. intros Hw. eexists false, _, evs.
    split; [reflexivity|]. rewrite Hw. split; reflexivity.
Qed.

End LogsOnly.

(** X10.  The notifier never raises and never touches a file: whatever its
    arguments and whatever the mail server does, it returns a boolean, and
    the world it leaves differs from the one it found only by the events it
    logged. *)
Theorem notifier_returns_boolean (self : Analyzer)
    (docx_file_path sender_email sender_password : string)
    (recipient_emails : list string) (smtp_server : string) (smtp_port : Z)
    (subject : option Subject) (w : World) :
  exists (sent : bool) (evs : list Event),
    send_email_with_report self docx_file_path sender_email sender_password
      recipient_emails smtp_server smtp_port subject w
    = (Returned sent,
       mkWorld (files w) (environ w) (stdin w) (now w) (smtp w) (disk w) (events w ++ evs)).
Proof.
  destruct (logs_only_send_email self docx_file_path sender_email sender_password
              recipient_emails smtp_server smtp_port subject w) as (evs & Hw).
  revert Hw. unfold send_email_with_report, try_except.
  match goal with |- context [match ?m w with _ => _ end] => destruct (m w) as [[b|e] w1] end.
  - cbn [snd]. intros ->. exists b, evs. reflexivity.
  - unfold bind, print, emit, ret. cbn [snd]. intros Hw. exists false, evs.
    rewrite <- Hw. reflexivity.
Qed.

(** Results the renderer and the notifier can read: a date range and a
    top row in each table they quote. *)
Definition reportable (results : AnalysisResults) : Prop :=
  is_Some (date_start (basic_stats results)) /\
  is_Some (date_end (basic_stats results)) /\
  category_analysis results <> [] /\
  region_analysis results <> [] /\
  salesperson_analysis results <> [].

Section Delivery.
Context {lib : Pandas}.

Lemma run_full_analysis_reportable (self a : Analyzer) (report : string)
    (w w1 : World) :
  run_full_analysis self w = (Returned (a, report), w1) ->
  exists results,
    analysis_results a = Some results /\ reportable results /\
    w1 = write_file report (DocxFile (mkDocument results (now w))) w.
Proof.
  rewrite run_full_analysis_steps.
  destruct (load_clean_analyze self w) as [[a1|e] w0] eqn:Hlca; [|discriminate].
  assert (w0 = w) as ->.
  { rewrite load_clean_analyze_spec in Hlca.
    destruct (files w !! csv_file_path self) as [[raw| |]|]; try discriminate.
    destruct (clean raw); [|discriminate]. congruence. }
  destruct (generate_word_report a1 w) as [[p|e] w2] eqn:Hgen; [|discriminate].
  intros [= <- <- <-].
  pose proof Hgen as Hinv.
  apply generate_word_report_inv in Hinv as (results & Hres & -> & ->).
  exists results. split; [exact Hres|]. split; [|reflexivity].
  unfold generate_word_report in Hgen. rewrite Hres in Hgen.
  unfold bind, strftime, first_row, ret, raise in Hgen. unfold reportable.
  destruct (date_start (basic_stats results)); [|discriminate].
  destruct (date_end (basic_stats results)); [|discriminate].
  destruct (category_analysis results); [discriminate|].
  destruct (region_analysis results); [discriminate|].
  destruct (salesperson_analysis results); [discriminate|].
  repeat split; try (eexists; reflexivity); discriminate.
Qed.

End Delivery.

(** The message the notifier builds for a report it can read. *)
Definition report_message (results : AnalysisResults) (today : Z)
    (sender : string) (recipients : list string) (subject : option Subject)
    (path : string) (attachment : File) : option Message :=
  match date_start (basic_stats results), date_end (basic_stats results),
        category_analysis results, region_analysis results,
        salesperson_analysis results with
  | Some first, Some last, c :: _, g :: _, s :: _ =>
      Some (mkMessage sender (Str.join ", " recipients)
              (default (DateRangeSubject first last) subject)
              (SummaryBody (basic_stats results)
                 (fst c, revenue (snd c)) (fst g, revenue (snd g))
                 (fst s, revenue (snd s)) today)
              (basename path) attachment)
  | _, _, _, _, _ => None
  end.

Lemma report_message_reportable (results : AnalysisResults) (today : Z)
    (sender : string) (recipients : list string) (subject : option Subject)
    (path : string) (attachment : File) :
  reportable results ->
  is_Some (report_message results today sender recipients subject path attachment).
Proof.
  intros ([first Hf] & [last Hl] & Hc & Hg & Hs). unfold report_message.
  rewrite Hf, Hl.
  destruct (category_analysis results); [congruence|].
  destruct (region_analysis results); [congruence|].
  destruct (salesperson_analysis results); [congruence|].
  eexists. reflexivity.
Qed.

(** The notifier up to the point where it talks to the server. *)
Lemma send_email_prepared (self : Analyzer) (results : AnalysisResults)
    (path sender password : string) (recipients : list string)
    (server : string) (port : Z) (subject : option Subject)
    (w : World) (attachment : File) (msg : Message) :
  analysis_results self = Some results ->
  files w !! path = Some attachment ->
  report_message results (now w) sender recipients subject path attachment = Some msg ->
  send_email_with_report self path sender password recipients server port subject w
  = try_except
      (exec smtp_request (SmtpConnect server port)
              (fun s => accepts_connection s server port) in
       exec smtp_request SmtpStartTls accepts_starttls in
       exec smtp_request (SmtpLogin sender password)
              (fun s => accepts_login s sender password) in
       exec smtp_request (SmtpSendmail sender recipients msg)
              (fun s => accepts_mail s sender recipients) in
       exec smtp_request SmtpQuit accepts_quit in
       ret true)
      (fun e => exec print (EmailSendFailed e) in ret false) w.
Proof.
  intros Hres Hfile Hmsg.
  unfold send_email_with_report, try_except.
  unfold bind at 1. unfold path_exists. rewrite Hfile.
  rewrite bool_decide_eq_true_2 by (eexists; reflexivity). cbn [negb].
  unfold report_message in Hmsg.
  destruct (date_start (basic_stats results)) as [first|] eqn:Hf; [|discriminate].
  destruct (date_end (basic_stats results)) as [last|] eqn:Hl; [|discriminate].
  destruct (category_analysis results) as [|c cs] eqn:Hc; [discriminate|].
  destruct (region_analysis results) as [|g gs] eqn:Hg; [discriminate|].
  destruct (salesperson_analysis results) as [|s ss] eqn:Hs; [discriminate|].
  injection Hmsg as <-.
  assert ((match subject with
           | Some s0 => ret s0
           | None => default_subject self
           end) w = (Returned (default (DateRangeSubject first last) subject), w))
    as Hsubject.
  { destruct subject; [reflexivity|].
    unfold default_subject. rewrite Hres. unfold bind, strftime, ret.
    rewrite Hf, Hl. reflexivity. }
  unfold bind at 1. rewrite Hsubject.
  assert (_create_email_body self w
          = (Returned (SummaryBody (basic_stats results)
                         (fst c, revenue (snd c)) (fst g, revenue (snd g))
                         (fst s, revenue (snd s)) (now w)), w)) as Hbody.
  { unfold _create_email_body. rewrite Hres.
    unfold bind, strftime, first_row, get_now, ret.
    rewrite Hf, Hl, Hc, Hg, Hs. reflexivity. }
  unfold bind at 1. rewrite Hbody.
  unfold bind at 1. unfold read_file. rewrite Hfile.
  reflexivity.
Qed.


(** X12.  A refused login ends the attempt where it stands: the notifier
    returns [False] after three requests, sends nothing, and never closes
    the session it opened (no quit request is made). *)
Theorem refused_login_leaves_session_open {lib : Pandas} (self a : Analyzer)
    (report sender password : string) (recipients : list string)
    (server : string) (port : Z) (subject : option Subject) (w w1 : World) :
  run_full_analysis self w = (Returned (a, report), w1) ->
  accepts_connection (smtp w) server port = true ->
  accepts_starttls (smtp w) = true ->
  accepts_login (smtp w) sender password = false ->
  send_email_with_report a report sender password recipients server port subject w1
  = (Returned false,
     mkWorld (files w1) (environ w1) (stdin w1) (now w1) (smtp w1) (disk w1)
       (events w1 ++ [SmtpConnect server port; SmtpStartTls;
                      SmtpLogin sender password;
                      Stdout (EmailSendFailed SMTPException)])).
Proof.
  intros Hrun Hconn Htls Hlogin.
  apply run_full_analysis_reportable in Hrun as (results & Hres & Hrep & Hw1).
  set (doc := DocxFile (mkDocument results (now w))) in *.
  assert (files w1 !! report = Some doc) as Hfile.
  { rewrite Hw1. cbn [write_file files]. apply lookup_insert_eq. }
  assert (smtp w1 = smtp w) as Hsmtp by (rewrite Hw1; reflexivity).
  destruct (report_message_reportable results (now w1) sender recipients subject
              report doc Hrep) as [msg Hmsg].
  rewrite (send_email_prepared a results report sender password recipients server
             port subject w1 doc msg Hres Hfile Hmsg).
  rewrite <- Hsmtp in Hconn, Htls, Hlogin.
  unfold try_except, bind, smtp_request, print, emit, ret.
  rewrite Hconn. cbn [log smtp]. rewrite Htls. cbn [log smtp].
  rewrite Hlogin. unfold log. cbn [files environ stdin now smtp events].
  rewrite <- !app_assoc. reflexivity.
Qed.

(** Runs to deliver from. *)
Module Runs.

(** [run_full_analysis] in [Example.world]. *)
Definition reported : (Analyzer * string) * World :=
  Eval vm_compute in
    match run_full_analysis (lib := Minimal.pandas)
            (new_analyzer Example.path) Example.world with
    | (Returned r, w) => (r, w)
    | (Raised _, w) => ((new_analyzer Example.path, ""%string), w)
    end.

(** The same machine in front of a server that refuses every login. *)
Definition locked_server : SmtpServer :=
  mkSmtpServer (fun _ _ => true) true (fun _ _ => false) (fun _ _ => true) true.

Definition locked_world : World :=
  mkWorld {[ Example.path := CsvFile Example.sales ]} ∅ [] 1758585600
    locked_server (fun _ => Saved) [].

Definition locked_reported : (Analyzer * string) * World :=
  Eval vm_compute in
    match run_full_analysis (lib := Minimal.pandas)
            (new_analyzer Example.path) locked_world with
    | (Returned r, w) => (r, w)
    | (Raised _, w) => ((new_analyzer Example.path, ""%string), w)
    end.

End Runs.


Lemma refused_login_leaves_session_open_witness :
  send_email_with_report (fst (fst Runs.locked_reported))
    (snd (fst Runs.locked_reported)) "analyst@example.com" "wrong-password"
    ["a@x.com"%string] default_smtp_server default_smtp_port None
    (snd Runs.locked_reported)
  = (Returned false,
     mkWorld (files (snd Runs.locked_reported)) (environ (snd Runs.locked_reported))
       (stdin (snd Runs.locked_reported)) (now (snd Runs.locked_reported))
       (smtp (snd Runs.locked_reported)) (disk (snd Runs.locked_reported))
       (events (snd Runs.locked_reported)
          ++ [SmtpConnect default_smtp_server default_smtp_port; SmtpStartTls;
              SmtpLogin "analyst@example.com" "wrong-password";
              Stdout (EmailSendFailed SMTPException)])).
Proof.
  apply (refused_login_leaves_session_open (lib := Minimal.pandas)
           (new_analyzer Example.path) (fst (fst Runs.locked_reported))
           (snd (fst Runs.locked_reported)) "analyst@example.com"%string
           "wrong-password"%string ["a@x.com"%string]
           default_smtp_server default_smtp_port None Runs.locked_world
           (snd Runs.locked_reported)).
  - vm_compute. reflexivity.
  - reflexivity.
  - reflexivity.
  - reflexivity.
Defined.

(** ** The entry point *)

Section MainBranches.
Context {lib : Pandas}.

(** [main] once the report is generated. *)
Lemma main_after_report (w w1 : World) (analyzer : Analyzer) (report : string) :
  run_full_analysis (new_analyzer "references/cicd_data.csv") w
    = (Returned (analyzer, report), w1) ->
  main w =
    (if truthy (environ w !! "SENDER_EMAIL"%string)
        && truthy (environ w !! "EMAIL_PASSWORD"%string)
        && truthy (environ w !! "RECIPIENT_EMAIL"%string)
     then send_from_environment analyzer report
            (default ""%string (environ w !! "SENDER_EMAIL"%string))
            (default ""%string (environ w !! "EMAIL_PASSWORD"%string))
            (default ""%string (environ w !! "RECIPIENT_EMAIL"%string))
     else send_interactively analyzer report) w1 /\
  environ w1 = environ w /\ stdin w1 = stdin w /\ events w1 = events w /\
  smtp w1 = smtp w /\ is_Some (files w1 !! report).
Proof.
  intros Hrun.
  destruct (run_full_analysis_inv _ _ _ _ _ Hrun) as (d & Hreport & Hw1).
  assert (environ w1 = environ w) as Henv by (rewrite Hw1; reflexivity).
  split.
  - unfold main. unfold bind at 1. rewrite Hrun.
    unfold bind, getenv. rewrite Henv. reflexivity.
  - rewrite Hw1. repeat split; try reflexivity.
    cbn [write_file files]. rewrite lookup_insert_eq. eexists. reflexivity.
Qed.

End MainBranches.

(** X13.  A recipient that fails the syntactic check stops the delivery
    as an invalid sender does: when the three variables are set, the
    sender passes and the recipient list is ASCII text, [main] prints a
    complaint about the first recipient of the list that fails and returns,
    and no request is made to the mail server. *)
Theorem invalid_recipient_aborts_delivery {lib : Pandas} (w w1 : World)
    (analyzer : Analyzer) (report sender password recipients bad : string) :
  run_full_analysis (new_analyzer "references/cicd_data.csv") w
    = (Returned (analyzer, report), w1) ->
  environ w !! "SENDER_EMAIL"%string = Some sender ->
  environ w !! "EMAIL_PASSWORD"%string = Some password ->
  environ w !! "RECIPIENT_EMAIL"%string = Some recipients ->
  sender <> ""%string -> password <> ""%string -> recipients <> ""%string ->
  Regex.valid_email sender = true ->
  Str.isascii recipients = true ->
  bad ∈ parse_recipients recipients ->
  Regex.valid_email bad = false ->
  exists first_bad,
    first_bad ∈ parse_recipients recipients /\
    Regex.valid_email first_bad = false /\
    main w = (Returned tt, log (Stdout (InvalidRecipientFormat first_bad)) w1) /\
    events w1 = events w.
Proof.
  intros Hrun Hs Hp Hr Hs' Hp' Hr' Hvalid _ Hbad Hinvalid.
  destruct (main_after_report w w1 analyzer report Hrun)
    as (Hmain & _ & _ & Hev & _).
  rewrite Hs, Hp, Hr in Hmain. cbn [truthy default from_option id] in Hmain.
  rewrite !(proj2 (String.eqb_neq _ _)) in Hmain by assumption.
  cbn [negb andb] in Hmain.
  unfold send_from_environment in Hmain. rewrite Hvalid in Hmain. cbn [negb] in Hmain.
  destruct (List.find (fun e => negb (Regex.valid_email e)) (parse_recipients recipients))
    as [first_bad|] eqn:Hfind.
  - apply find_some in Hfind as [Hin Hneg].
    exists first_bad. rewrite negb_true_iff in Hneg.
    split; [apply list_elem_of_In, Hin|]. split; [exact Hneg|].
    split; [exact Hmain|exact Hev].
  - exfalso. apply list_elem_of_In in Hbad.
    pose proof (find_none _ _ Hfind bad Hbad) as Hnone. cbn in Hnone.
    rewrite Hinvalid in Hnone. discriminate.
Qed.

(** X14.  With the three variables set, [main] returns normally once the
    report is generated, whether the mail goes out or not: it never raises,
    it leaves every file as the renderer left it, and the last thing it
    prints is one of four status lines. *)
Theorem configured_run_always_returns {lib : Pandas} (w w1 : World)
    (analyzer : Analyzer) (report sender password recipients : string) :
  run_full_analysis (new_analyzer "references/cicd_data.csv") w
    = (Returned (analyzer, report), w1) ->
  environ w !! "SENDER_EMAIL"%string = Some sender ->
  environ w !! "EMAIL_PASSWORD"%string = Some password ->
  environ w !! "RECIPIENT_EMAIL"%string = Some recipients ->
  sender <> ""%string -> password <> ""%string -> recipients <> ""%string ->
  exists w2 evs line,
    main w = (Returned tt, w2) /\
    files w2 = files w1 /\
    events w2 = events w ++ evs ++ [Stdout line] /\
    (line = InvalidSenderFormat sender \/
     (exists address, line = InvalidRecipientFormat address) \/
     line = AutoEmailDone \/ line = ReportButNoEmail).
Proof.
  intros Hrun Hs Hp Hr Hs' Hp' Hr'.
  destruct (main_after_report w w1 analyzer report Hrun)
    as (Hmain & _ & _ & Hev & _).
  rewrite Hs, Hp, Hr in Hmain. cbn [truthy default from_option id] in Hmain.
  rewrite !(proj2 (String.eqb_neq _ _)) in Hmain by assumption.
  cbn [negb andb] in Hmain. rewrite Hmain. clear Hmain.
  unfold send_from_environment.
  destruct (Regex.valid_email sender); cbn [negb].
  - destruct (List.find _ _) as [address|].
    + exists (log (Stdout (InvalidRecipientFormat address)) w1), [],
             (InvalidRecipientFormat address).
      split; [reflexivity|]. split; [reflexivity|].
      split; [cbn; rewrite Hev; reflexivity|]. right. left. eexists. reflexivity.
    + unfold bind at 1. unfold get_now. unfold bind.
      destruct (send_email_outcome analyzer report sender password
                  (parse_recipients recipients) default_smtp_server
                  default_smtp_port (Some (WeeklySubject (now w1))) w1)
        as (sent & w2 & evs & Hsend & Hfiles & Hevents).
      rewrite Hsend. destruct sent.
      * eexists _, evs, AutoEmailDone. split; [reflexivity|].
        split; [exact Hfiles|]. split; [|auto].
        cbn. rewrite Hevents, Hev, app_assoc. reflexivity.
      * eexists _, evs, ReportButNoEmail. split; [reflexivity|].
        split; [exact Hfiles|]. split; [|auto].
        cbn. rewrite Hevents, Hev, app_assoc. reflexivity.
  - exists (log (Stdout (InvalidSenderFormat sender)) w1), [],
           (InvalidSenderFormat sender).
    split; [reflexivity|]. split; [reflexivity|].
    split; [cbn; rewrite Hev; reflexivity|]. left. reflexivity.
Qed.

(** X15.  Without the three variables [main] asks the operator, and it
    asks even when nobody is there to answer: on an empty standard input
    the run ends in EOFError, after the report was written and before any
    request to the mail server. *)
Theorem unattended_run_raises_eof {lib : Pandas} (w w1 : World)
    (analyzer : Analyzer) (report : string) :
  run_full_analysis (new_analyzer "references/cicd_data.csv") w
    = (Returned (analyzer, report), w1) ->
  truthy (environ w !! "SENDER_EMAIL"%string)
    && truthy (environ w !! "EMAIL_PASSWORD"%string)
    && truthy (environ w !! "RECIPIENT_EMAIL"%string) = false ->
  stdin w = [] ->
  main w = (Raised EOFError, w1) /\
  is_Some (files w1 !! report) /\ events w1 = events w.
Proof.
  intros Hrun Henv Hin.
  destruct (main_after_report w w1 analyzer report Hrun)
    as (Hmain & _ & Hstdin & Hev & _ & Hfile).
  rewrite Henv in Hmain. split; [|split; assumption].
  rewrite Hmain. unfold send_interactively, bind, input.
  rewrite Hstdin, Hin. reflexivity.
Qed.

(** X16.  Asked whether to send, an operator whose answer is ASCII text
    other than [y] or [yes] (in any case, white space around it ignored)
    gets the report and nothing else: one line of input is read, the
    report-only line is printed, and no request is made to the mail
    server.  (The two other answers that [main] accepts, [예] and [ㅇ], are
    not ASCII.) *)
Theorem declined_delivery_sends_nothing {lib : Pandas} (w w1 : World)
    (analyzer : Analyzer) (report answer : string) (rest : list string) :
  run_full_analysis (new_analyzer "references/cicd_data.csv") w
    = (Returned (analyzer, report), w1) ->
  truthy (environ w !! "SENDER_EMAIL"%string)
    && truthy (environ w !! "EMAIL_PASSWORD"%string)
    && truthy (environ w !! "RECIPIENT_EMAIL"%string) = false ->
  stdin w = answer :: rest ->
  Str.isascii answer = true ->
  Str.strip (Str.lower answer) ∉ ["y"; "yes"; "예"; "ㅇ"]%string ->
  exists w2,
    main w = (Returned tt, w2) /\
    stdin w2 = rest /\ files w2 = files w1 /\
    events w2 = events w ++ [Stdout ReportOnly].
Proof.
  intros Hrun Henv Hin _ Hno.
  destruct (main_after_report w w1 analyzer report Hrun)
    as (Hmain & _ & Hstdin & Hev & _).
  rewrite Henv in Hmain.
  exists (log (Stdout ReportOnly) (pop_stdin w1)).
  split; [|split; [|split]].
  - rewrite Hmain. unfold send_interactively. unfold bind at 1. unfold input.
    rewrite Hstdin, Hin. rewrite bool_decide_eq_false_2 by exact Hno. reflexivity.
  - cbn. rewrite Hstdin, Hin. reflexivity.
  - reflexivity.
  - cbn. rewrite Hev. reflexivity.
Qed.

Module Configured.

(** A machine set up to send from a good address to a list with one bad
    entry. *)
Definition world : World :=
  mkWorld {[ Example.path := CsvFile Example.sales ]}
    {[ "SENDER_EMAIL"%string := "analyst@example.com"%string;
       "EMAIL_PASSWORD"%string := "app-password"%string;
       "RECIPIENT_EMAIL"%string := "a@x.com, sales-team, b@x.com"%string ]}
    [] 1758672000 Example.server (fun _ => Saved) [].

Definition reported : (Analyzer * string) * World :=
  Eval vm_compute in
    match run_full_analysis (lib := Minimal.pandas)
            (new_analyzer Example.path) world with
    | (Returned r, w) => (r, w)
    | (Raised _, w) => ((new_analyzer Example.path, ""%string), w)
    end.

End Configured.

Lemma invalid_recipient_aborts_delivery_witness :
  exists first_bad,
    first_bad ∈ parse_recipients "a@x.com, sales-team, b@x.com" /\
    Regex.valid_email first_bad = false /\
    main (lib := Minimal.pandas) Configured.world
    = (Returned tt,
       log (Stdout (InvalidRecipientFormat first_bad)) (snd Configured.reported)) /\
    events (snd Configured.reported) = events Configured.world.
Proof.
  apply (invalid_recipient_aborts_delivery (lib := Minimal.pandas)
           Configured.world (snd Configured.reported)
           (fst (fst Configured.reported)) (snd (fst Configured.reported))
           "analyst@example.com"%string "app-password"%string
           "a@x.com, sales-team, b@x.com"%string "sales-team"%string).
  - vm_compute. reflexivity.
  - vm_compute. reflexivity.
  - vm_compute. reflexivity.
  - vm_compute. reflexivity.
  - discriminate.
  - discriminate.
  - discriminate.
  - vm_compute. reflexivity.
  - vm_compute. reflexivity.
  - vm_compute. right. left.
  - vm_compute. reflexivity.
Defined.

Lemma configured_run_always_returns_witness :
  exists w2 evs line,
    main (lib := Minimal.pandas) Configured.world = (Returned tt, w2) /\
    files w2 = files (snd Configured.reported) /\
    events w2 = events Configured.world ++ evs ++ [Stdout line] /\
    (line = InvalidSenderFormat "analyst@example.com" \/
     (exists address, line = InvalidRecipientFormat address) \/
     line = AutoEmailDone \/ line = ReportButNoEmail).
Proof.
  apply (configured_run_always_returns (lib := Minimal.pandas)
           Configured.world (snd Configured.reported)
           (fst (fst Configured.reported)) (snd (fst Configured.reported))
           "analyst@example.com"%string "app-password"%string
           "a@x.com, sales-team, b@x.com"%string).
  - vm_compute. reflexivity.
  - vm_compute. reflexivity.
  - vm_compute. reflexivity.
  - vm_compute. reflexivity.
  - discriminate.
  - discriminate.
  - discriminate.
Defined.

Lemma unattended_run_raises_eof_witness :
  main (lib := Minimal.pandas) Runs.locked_world
    = (Raised EOFError, snd Runs.locked_reported) /\
  is_Some (files (snd Runs.locked_reported) !! snd (fst Runs.locked_reported)) /\
  events (snd Runs.locked_reported) = events Runs.locked_world.
Proof.
  apply (unattended_run_raises_eof (lib := Minimal.pandas)
           Runs.locked_world (snd Runs.locked_reported)
           (fst (fst Runs.locked_reported))).
  - vm_compute. reflexivity.
  - vm_compute. reflexivity.
  - reflexivity.
Defined.

Lemma declined_delivery_sends_nothing_witness :
  exists w2,
    main (lib := Minimal.pandas) Example.world = (Returned tt, w2) /\
    stdin w2 = [] /\ files w2 = files (snd Runs.reported) /\
    events w2 = events Example.world ++ [Stdout ReportOnly].
Proof.
  apply (declined_delivery_sends_nothing (lib := Minimal.pandas)
           Example.world (snd Runs.reported) (fst (fst Runs.reported))
           (snd (fst Runs.reported)) "n"%string []).
  - vm_compute. reflexivity.
  - vm_compute. reflexivity.
  - reflexivity.
  - reflexivity.
  - vm_compute. intros Hin.
    repeat (apply elem_of_cons in Hin as [Hin|Hin]; [discriminate Hin|]).
    inversion Hin.
Defined.

(** ** The sender address in the interactive path *)

Section InteractivePath.
Context {lib : Pandas}.

(** Seven answers read from the operator, in the order [main] asks. *)
Lemma read_answers (w : World) (a1 a2 a3 a4 a5 a6 a7 : string) (rest : list string)
    (k : string -> string -> string -> string -> string -> string -> M unit) :
  stdin w = a1 :: a2 :: a3 :: a4 :: a5 :: a6 :: a7 :: rest ->
  (let* first := input in
   if bool_decide (Str.strip (Str.lower first) ∈ ["y"; "yes"; "예"; "ㅇ"]%string)
   then
     let* x2 := input in let* x3 := input in let* x4 := input in
     let* x5 := input in let* x6 := input in let* x7 := input in
     k x2 x3 x4 x5 x6 x7
   else print ReportOnly) w
  = (if bool_decide (Str.strip (Str.lower a1) ∈ ["y"; "yes"; "예"; "ㅇ"]%string)
     then k a2 a3 a4 a5 a6 a7
            (mkWorld (files w) (environ w) rest (now w) (smtp w) (disk w) (events w))
     else print ReportOnly (pop_stdin w)).
Proof.
  intros Hin. unfold bind at 1. unfold input at 1. rewrite Hin.
  destruct (bool_decide _); [|reflexivity].
  unfold bind, input, pop_stdin. cbn [stdin tail]. rewrite Hin. cbn [tail].
  reflexivity.
Qed.

(** The requests of the notifier, from the first: the connection is asked
    for whatever the server will answer. *)
Lemma smtp_session_starts (sender password : string) (recipients : list string)
    (server : string) (port : Z) (msg : Message) (w : World) :
  exists (sent : bool) (w' : World) (evs : list Event),
    try_except
      (exec smtp_request (SmtpConnect server port)
              (fun s => accepts_connection s server port) in
       exec smtp_request SmtpStartTls accepts_starttls in
       exec smtp_request (SmtpLogin sender password)
              (fun s => accepts_login s sender password) in
       exec smtp_request (SmtpSendmail sender recipients msg)
              (fun s => accepts_mail s sender recipients) in
       exec smtp_request SmtpQuit accepts_quit in
       ret true)
      (fun e => exec print (EmailSendFailed e) in ret false) w
    = (Returned sent, w') /\
    files w' = files w /\
    events w' = events w ++ SmtpConnect server port :: evs /\
    (accepts_connection (smtp w) server port = true ->
     accepts_starttls (smtp w) = true ->
     exists evs', evs = SmtpStartTls :: SmtpLogin sender password :: evs').
Proof.
  unfold try_except, bind, smtp_request, print, emit, ret, log. cbn [smtp].
  destruct (accepts_connection (smtp w) server port).
  2: { eexists false, _, [_]. split; [reflexivity|]. split; [reflexivity|].
       split; [cbn [events]; rewrite <- !app_assoc; reflexivity|discriminate]. }
  cbn [smtp]. destruct (accepts_starttls (smtp w)).
  2: { eexists false, _, [_; _]. split; [reflexivity|]. split; [reflexivity|].
       split; [cbn [events]; rewrite <- !app_assoc; reflexivity|].
       intros _ Ht. discriminate Ht. }
  cbn [smtp]. destruct (accepts_login (smtp w) sender password).
  2: { eexists false, _, [_; _; _]. split; [reflexivity|]. split; [reflexivity|].
       split; [cbn [events]; rewrite <- !app_assoc; reflexivity|].
       intros _ _. eexists. reflexivity. }
  cbn [smtp]. destruct (accepts_mail (smtp w) sender recipients).
  2: { eexists false, _, [_; _; _; _]. split; [reflexivity|]. split; [reflexivity|].
       split; [cbn [events]; rewrite <- !app_assoc; reflexivity|].
       intros _ _. eexists. reflexivity. }
  cbn [smtp]. destruct (accepts_quit (smtp w)).
  - eexists true, _, [_; _; _; _]. split; [reflexivity|]. split; [reflexivity|].
    split; [cbn [events]; rewrite <- !app_assoc; reflexivity|].
    intros _ _. eexists. reflexivity.
  - eexists false, _, [_; _; _; _; _]. split; [reflexivity|]. split; [reflexivity|].
    split; [cbn [events]; rewrite <- !app_assoc; reflexivity|].
    intros _ _. eexists. reflexivity.
Qed.

End InteractivePath.

(** C7.  The sender address is checked on one of the two paths of [main]
    only.  On the interactive path what the operator types as the sender
    goes to the notifier as it is: once the report is generated and the
    operator has agreed to send it, a connection to the mail server is
    requested, and when the server accepts it and STARTTLS the next request
    is a login under the typed address, whether or not that address would
    pass the check the other path makes.  The report stays on disk. *)
Theorem interactive_sender_unchecked {lib : Pandas} (w w1 : World)
    (analyzer : Analyzer)
    (report answer sender password recipients subject host port : string)
    (rest : list string) :
  run_full_analysis (new_analyzer "references/cicd_data.csv") w
    = (Returned (analyzer, report), w1) ->
  truthy (environ w !! "SENDER_EMAIL"%string)
    && truthy (environ w !! "EMAIL_PASSWORD"%string)
    && truthy (environ w !! "RECIPIENT_EMAIL"%string) = false ->
  stdin w = answer :: sender :: password :: recipients :: subject :: host :: port :: rest ->
  Str.strip (Str.lower answer) ∈ ["y"; "yes"; "예"; "ㅇ"]%string ->
  Str.isascii port = true ->
  exists (w2 : World) (server : string) (port_number : Z) (evs : list Event),
    main w = (Returned tt, w2) /\
    files w2 = files w1 /\
    events w2 = events w ++ SmtpConnect server port_number :: evs /\
    (accepts_connection (smtp w) server port_number = true ->
     accepts_starttls (smtp w) = true ->
     exists evs', evs = SmtpStartTls :: SmtpLogin sender password :: evs').
Proof.
  intros Hrun Henv Hin Hyes _.
  destruct (main_after_report w w1 analyzer report Hrun)
    as (Hmain & _ & Hstdin & Hev & Hsmtp & [attachment Hfile]).
  destruct (run_full_analysis_reportable _ _ _ _ _ Hrun)
    as (results & Hres & Hrep & _).
  rewrite Henv in Hmain. rewrite Hmain. clear Hmain.
  unfold send_interactively.
  rewrite (read_answers w1 answer sender password recipients subject host port rest)
    by (rewrite Hstdin; exact Hin).
  rewrite bool_decide_eq_true_2 by exact Hyes.
  set (w' := mkWorld (files w1) (environ w1) rest (now w1) (smtp w1) (disk w1) (events w1)).
  set (server := if String.eqb (Str.strip host) "" then default_smtp_server
                 else Str.strip host).
  set (port_number := if Str.isdigit (Str.strip port) then Str.int (Str.strip port)
                      else 587%Z).
  set (chosen := if String.eqb (Str.strip subject) "" then None
                 else Some (CustomSubject (Str.strip subject))).
  destruct (report_message_reportable results (now w') sender
              (parse_recipients recipients) chosen report attachment Hrep)
    as [msg Hmsg].
  unfold bind at 1.
  rewrite (send_email_prepared analyzer results report sender password
             (parse_recipients recipients) server port_number chosen w'
             attachment msg Hres Hfile Hmsg).
  destruct (smtp_session_starts sender password (parse_recipients recipients)
              server port_number msg w')
    as (sent & w2 & evs & Hsend & Hfiles & Hevents & Hlogin).
  rewrite Hsend.
  exists (log (Stdout (if sent then AllDone else ReportButNoEmail)) w2),
         server, port_number, (evs ++ [Stdout (if sent then AllDone else ReportButNoEmail)]).
  split; [destruct sent; reflexivity|].
  split; [cbn [log files]; rewrite Hfiles; reflexivity|].
  split.
  - cbn [log events]. rewrite Hevents. subst w'. cbn [events]. rewrite Hev.
    rewrite <- app_assoc. reflexivity.
  - intros Hc Ht. subst w'. cbn [smtp] in Hlogin. rewrite Hsmtp in Hlogin.
    destruct (Hlogin Hc Ht) as [evs' ->]. eexists. reflexivity.
Qed.

Module Interactive.

(** An operator who agrees to send and types an address without [@],
    keeping the default server and port. *)
Definition world : World :=
  mkWorld {[ Example.path := CsvFile Example.sales ]} ∅
    ["y"; "analyst.example.com"; "app-password"; "a@x.com"; ""; ""; ""]%string
    1758585600 Example.server (fun _ => Saved) [].

Definition reported : (Analyzer * string) * World :=
  Eval vm_compute in
    match run_full_analysis (lib := Minimal.pandas) (new_analyzer Example.path) world with
    | (Returned r, w) => (r, w)
    | (Raised _, w) => ((new_analyzer Example.path, ""%string), w)
    end.

End Interactive.

Lemma interactive_sender_unchecked_witness :
  Regex.valid_email "analyst.example.com" = false /\
  exists (w2 : World) (server : string) (port_number : Z) (evs : list Event),
    main (lib := Minimal.pandas) Interactive.world = (Returned tt, w2) /\
    files w2 = files (snd Interactive.reported) /\
    events w2 = events Interactive.world ++ SmtpConnect server port_number :: evs /\
    (accepts_connection (smtp Interactive.world) server port_number = true ->
     accepts_starttls (smtp Interactive.world) = true ->
     exists evs', evs = SmtpStartTls
                        :: SmtpLogin "analyst.example.com" "app-password" :: evs').
Proof.
  split; [vm_compute; reflexivity|].
  apply (interactive_sender_unchecked (lib := Minimal.pandas)
           Interactive.world (snd Interactive.reported)
           (fst (fst Interactive.reported)) (snd (fst Interactive.reported))
           "y" "analyst.example.com" "app-password" "a@x.com" "" "" "" [])%string.
  - vm_compute. reflexivity.
  - vm_compute. reflexivity.
  - reflexivity.
  - vm_compute. left.
  - reflexivity.
Defined.

(** The run of that operator, request by request: the address that the
    other path would have refused is the one the server is asked to log
    in, and the one the mail is sent from. *)
Example interactive_run_with_invalid_sender :
  exists (w2 : World) (msg : Message),
    main (lib := Minimal.pandas) Interactive.world = (Returned tt, w2) /\
    events w2 =
      [ SmtpConnect "smtp.gmail.com" 587; SmtpStartTls;
        SmtpLogin "analyst.example.com" "app-password";
        SmtpSendmail "analyst.example.com" ["a@x.com"%string] msg;
        SmtpQuit; Stdout AllDone ].
Proof. eexists _, _. split; vm_compute; reflexivity. Qed.

(** ** Recipients and addresses *)

Definition starts_with_space (s : string) : bool :=
  match s with
  | EmptyString => false
  | String c _ => Str.is_space c
  end.

Fixpoint ends_with_space (s : string) : bool :=
  match s with
  | EmptyString => false
  | String c EmptyString => Str.is_space c
  | String _ s' => ends_with_space s'
  end.

Section Recipients.

Lemma split_pieces_no_separator (sep : ascii) (s piece : string) :
  piece ∈ Str.split sep s -> Regex.has_char sep piece = false.
Proof.
  revert piece. induction s as [|c s IH]; intros piece; cbn [Str.split].
  - intros Hin. apply list_elem_of_singleton in Hin as ->. reflexivity.
  - destruct (Ascii.eqb c sep) eqn:Hc.
    + intros Hin. apply elem_of_cons in Hin as [->|Hin]; [reflexivity|apply IH, Hin].
    + destruct (Str.split sep s) as [|x l] eqn:Hsplit.
      * intros Hin. apply list_elem_of_singleton in Hin as ->.
        cbn [Regex.has_char]. rewrite Ascii.eqb_sym, Hc. reflexivity.
      * intros Hin. apply elem_of_cons in Hin as [->|Hin].
        -- cbn [Regex.has_char]. rewrite Ascii.eqb_sym, Hc. cbn [orb].
           apply IH. left.
        -- apply IH. right. exact Hin.
Qed.

Lemma lstrip_has_char (c : ascii) (s : string) :
  Regex.has_char c s = false -> Regex.has_char c (Str.lstrip s) = false.
Proof.
  induction s as [|x s IH]; [reflexivity|]. cbn [Str.lstrip].
  destruct (Str.is_space x); [|auto].
  cbn [Regex.has_char]. intros Hc. apply orb_false_iff in Hc as [_ Hc]. auto.
Qed.

Lemma rstrip_has_char (c : ascii) (s : string) :
  Regex.has_char c s = false -> Regex.has_char c (Str.rstrip s) = false.
Proof.
  induction s as [|x s IH]; [reflexivity|]. cbn [Str.rstrip Regex.has_char].
  intros Hc. apply orb_false_iff in Hc as [Hx Hs]. specialize (IH Hs).
  destruct (Str.rstrip s).
  - destruct (Str.is_space x); [reflexivity|]. cbn [Regex.has_char].
    rewrite Hx. reflexivity.
  - cbn [Regex.has_char] in *. rewrite Hx. exact IH.
Qed.

Lemma lstrip_starts (s : string) : starts_with_space (Str.lstrip s) = false.
Proof.
  induction s as [|x s IH]; [reflexivity|]. cbn [Str.lstrip].
  destruct (Str.is_space x) eqn:Hx; [exact IH|]. cbn [starts_with_space]. exact Hx.
Qed.

Lemma rstrip_starts (s : string) :
  starts_with_space s = false -> starts_with_space (Str.rstrip s) = false.
Proof.
  destruct s as [|x s]; [reflexivity|]. cbn [starts_with_space Str.rstrip].
  intros Hx. destruct (Str.rstrip s); [rewrite Hx|]; cbn [starts_with_space]; auto.
Qed.

Lemma rstrip_ends (s : string) : ends_with_space (Str.rstrip s) = false.
Proof.
  induction s as [|x s IH]; [reflexivity|]. cbn [Str.rstrip].
  destruct (Str.rstrip s) as [|y rest].
  - destruct (Str.is_space x) eqn:Hx; [reflexivity|]. cbn [ends_with_space]. exact Hx.
  - exact IH.
Qed.

End Recipients.

(** X17.  The recipient list read from a comma-separated string holds no
    blank entry, and none of its entries has a comma in it or white space
    at either end. *)
Theorem recipients_are_trimmed (s e : string) :
  e ∈ parse_recipients s ->
  e <> ""%string /\ Regex.has_char "," e = false /\
  starts_with_space e = false /\ ends_with_space e = false.
Proof.
  unfold parse_recipients. rewrite list_elem_of_In, filter_In, <- list_elem_of_In.
  rewrite list_elem_of_fmap, negb_true_iff.
  intros [(piece & -> & Hpiece) Hne].
  split; [apply String.eqb_neq, Hne|].
  unfold Str.strip. split; [|split].
  - apply rstrip_has_char, lstrip_has_char.
    eapply split_pieces_no_separator, Hpiece.
  - apply rstrip_starts, lstrip_starts.
  - apply rstrip_ends.
Qed.

Lemma recipients_are_trimmed_witness :
  ("b@x.com" <> "" /\ Regex.has_char "," "b@x.com" = false /\
   starts_with_space "b@x.com" = false /\ ends_with_space "b@x.com" = false)%string.
Proof.
  apply (recipients_are_trimmed "a@x.com, , b@x.com" "b@x.com").
  vm_compute. right. left.
Defined.

Section AddressShape.
Import Regex.

Lemma lang_class_inv (p : ascii -> bool) (s : string) :
  lang (Class p) s -> exists c, s = String c EmptyString /\ p c = true.
Proof. intros Hl. inversion Hl; subst. eauto. Qed.

Lemma lang_star_class (p : ascii -> bool) (s : string) :
  lang (Star (Class p)) s -> forall c, has_char c s = true -> p c = true.
Proof.
  intros Hl. remember (Star (Class p)) as r eqn:Hr.
  induction Hl as [| | | | | |r0 s1 s2 H1 _ H2 IH2]; try discriminate.
  injection Hr as Hr. subst r0. intros c. rewrite has_char_append.
  apply lang_class_inv in H1 as (c0 & -> & Hp).
  cbn [has_char]. rewrite orb_false_r. intros Hc.
  apply orb_true_iff in Hc as [Hc|Hc].
  - apply Ascii.eqb_eq in Hc as ->. exact Hp.
  - apply IH2; [reflexivity|exact Hc].
Qed.

Lemma lang_plus_class (p : ascii -> bool) (s : string) :
  lang (Plus (Class p)) s ->
  s <> EmptyString /\ forall c, has_char c s = true -> p c = true.
Proof.
  intros Hl. inversion Hl as [| |? ? s1 s2 H1 H2| | | |]; subst.
  apply lang_class_inv in H1 as (c0 & -> & Hp). split; [discriminate|].
  intros c. change (String.append (String c0 EmptyString) s2) with (String c0 s2).
  cbn [has_char]. intros Hc. apply orb_true_iff in Hc as [Hc|Hc].
  - apply Ascii.eqb_eq in Hc as ->. exact Hp.
  - eapply lang_star_class; eassumption.
Qed.

Lemma string_append_assoc (a b c : string) :
  String.append (String.append a b) c = String.append a (String.append b c).
Proof.
  induction a as [|x a IH]; [reflexivity|].
  change (String x (String.append (String.append a b) c)
          = String x (String.append a (String.append b c))).
  rewrite IH. reflexivity.
Qed.

End AddressShape.

(** X18.  An address that passes the check of [main] has a local part, an
    [@] and a domain: at least one character stands before its first [@],
    and a dot stands somewhere after it.  In particular an address without
    [@] never passes. *)
Theorem accepted_address_shape (s : string) :
  Regex.valid_email s = true ->
  exists local_part domain,
    s = String.append local_part (String "@" domain) /\
    local_part <> ""%string /\
    Regex.has_char "@" local_part = false /\
    Regex.has_char "." domain = true.
Proof.
  intros Hm. apply Regex.fullmatch_lang in Hm.
  inversion Hm as [| |? ? s1 s2 H1 _| | | |]; subst.
  inversion H1 as [| |? ? a b Ha Hb| | | |]; subst.
  inversion Hb as [| |? ? at_sign rest Hat Hrest| | | |]; subst.
  apply lang_class_inv in Hat as (x & -> & Hx). apply Ascii.eqb_eq in Hx as <-.
  inversion Hrest as [| |? ? dom tl _ Htl| | | |]; subst.
  inversion Htl as [| |? ? dot tld Hdot _| | | |]; subst.
  apply lang_class_inv in Hdot as (y & -> & Hy). apply Ascii.eqb_eq in Hy as <-.
  apply lang_plus_class in Ha as [Hne Hlocal].
  exists a, (String.append (String.append dom (String.append (String "." EmptyString) tld)) s2).
  split.
  - rewrite string_append_assoc. reflexivity.
  - split; [exact Hne|]. split.
    + destruct (Regex.has_char "@" a) eqn:Hat; [|reflexivity].
      apply Hlocal in Hat. discriminate Hat.
    + rewrite !Regex.has_char_append.
      change (Regex.has_char "." (String "." EmptyString)) with true.
      cbn [orb]. rewrite !orb_true_r. reflexivity.
Qed.

Lemma accepted_address_shape_witness :
  exists local_part domain,
    "a.b+c@x-y.co.uk"%string = String.append local_part (String "@" domain) /\
    local_part <> ""%string /\
    Regex.has_char "@" local_part = false /\
    Regex.has_char "." domain = true.
Proof. apply accepted_address_shape. vm_compute. reflexivity. Defined.

(** ** The insights *)

Lemma sorted_head_is_top {K : Type} (x : K * Agg) (l : list (K * Agg)) (y : K * Agg) :
  StronglySorted (fun a b => revenue (snd b) <= revenue (snd a)) (x :: l) ->
  y ∈ x :: l -> revenue (snd y) <= revenue (snd x).
Proof.
  intros Hs Hy. inversion Hs as [|? ? _ Hall]; subst.
  apply elem_of_cons in Hy as [->|Hy]; [apply Qle_refl|].
  rewrite Forall_forall in Hall. apply Hall, Hy.
Qed.

(** X19.  The category, region and salesperson the e-mail body names as
    leaders are leaders: each is a row of its table, and no row of that
    table has a higher total revenue. *)
Theorem email_names_the_leaders {lib : Pandas} (t : Table) (path : string)
    (loaded : option RawTable) (frame : option Table) (w w' : World)
    (stats : BasicStats) (top_category top_region top_salesperson : string * Q)
    (generated : Z) :
  _create_email_body
    (mkAnalyzer path loaded frame (Some (snd (analyze t)))) w
  = (Returned (SummaryBody stats top_category top_region top_salesperson generated), w') ->
  ((exists a, (fst top_category, a) ∈ category_analysis (snd (analyze t)) /\
              revenue a = snd top_category) /\
   forall row, row ∈ category_analysis (snd (analyze t)) ->
               revenue (snd row) <= snd top_category) /\
  ((exists a, (fst top_region, a) ∈ region_analysis (snd (analyze t)) /\
              revenue a = snd top_region) /\
   forall row, row ∈ region_analysis (snd (analyze t)) ->
               revenue (snd row) <= snd top_region) /\
  ((exists a, (fst top_salesperson, a) ∈ salesperson_analysis (snd (analyze t)) /\
              revenue a = snd top_salesperson) /\
   forall row, row ∈ salesperson_analysis (snd (analyze t)) ->
               revenue (snd row) <= snd top_salesperson).
Proof.
  unfold _create_email_body. cbn [analysis_results].
  cbn [analyze snd basic_stats category_analysis region_analysis salesperson_analysis].
  pose proof (sort_values_sorted _ (groupby Category aggregate t)) as Hc.
  pose proof (sort_values_sorted _ (groupby Region aggregate t)) as Hg.
  pose proof (sort_values_sorted _ (groupby Salesperson aggregate t)) as Hs.
  unfold bind, strftime, first_row, get_now, ret, raise.
  destruct (date_start _); [|discriminate].
  destruct (date_end _); [|discriminate].
  destruct (sort_values_desc (groupby Category aggregate t)) as [|[c ca] cs]; [discriminate|].
  destruct (sort_values_desc (groupby Region aggregate t)) as [|[g ga] gs]; [discriminate|].
  destruct (sort_values_desc (groupby Salesperson aggregate t)) as [|[s sa] ss]; [discriminate|].
  intros [= _ <- <- <- _ _]. cbn [fst snd].
  split; [|split]; (split; [eexists; split; [left|reflexivity]|]).
  - intros row Hrow. exact (sorted_head_is_top _ _ _ Hc Hrow).
  - intros row Hrow. exact (sorted_head_is_top _ _ _ Hg Hrow).
  - intros row Hrow. exact (sorted_head_is_top _ _ _ Hs Hrow).
Qed.

Lemma email_names_the_leaders_witness :
  ((exists a, ("Home"%string, a)
                ∈ category_analysis (snd (analyze (lib := Minimal.pandas) Example.cleaned_table)) /\
              revenue a = 6000 # 100) /\
   forall row, row ∈ category_analysis (snd (analyze (lib := Minimal.pandas) Example.cleaned_table)) ->
               revenue (snd row) <= 6000 # 100) /\
  ((exists a, ("West"%string, a)
                ∈ region_analysis (snd (analyze (lib := Minimal.pandas) Example.cleaned_table)) /\
              revenue a = 7250 # 100) /\
   forall row, row ∈ region_analysis (snd (analyze (lib := Minimal.pandas) Example.cleaned_table)) ->
               revenue (snd row) <= 7250 # 100) /\
  ((exists a, ("Ann Lee"%string, a)
                ∈ salesperson_analysis (snd (analyze (lib := Minimal.pandas) Example.cleaned_table)) /\
              revenue a = 7000 # 100) /\
   forall row, row ∈ salesperson_analysis (snd (analyze (lib := Minimal.pandas) Example.cleaned_table)) ->
               revenue (snd row) <= 7000 # 100).
Proof.
  apply (email_names_the_leaders (lib := Minimal.pandas) Example.cleaned_table
           Example.path None None Example.world Example.world
           (basic_stats (snd (analyze (lib := Minimal.pandas) Example.cleaned_table)))
           ("Home"%string, 6000 # 100) ("West"%string, 7250 # 100) ("Ann Lee"%string, 7000 # 100)
           (now Example.world)).
  vm_compute. reflexivity.
Defined.

(** ** The smoke test of [test_email.py] *)

(** [test_email_function]: the analysis of the bundled CSV file, run under
    [try: ... except Exception:].  The function answers [True] when the run
    returned and [False] when it raised; what it prints besides is advice
    to the reader and is not recorded. *)
Definition test_email_function {lib : Pandas} : M bool :=
  try_except
    (let* results := run_full_analysis (new_analyzer "references/cicd_data.csv") in
     ret true)
    (fun _ => ret false).

(** X20.  The smoke test never raises and never touches the mail server.
    It answers [True] exactly when the analysis returned, and then the
    world differs by the report document alone.  It answers [False]
    exactly when the analysis raised, and then the world is as it was,
    unless the exception is that of a write that broke off inside
    [doc.save]: the incomplete file then stays at the report path. *)
Theorem smoke_test_answers_for_the_run {lib : Pandas} (w : World) :
  exists b w',
    test_email_function w = (Returned b, w') /\
    events w' = events w /\
    if b
    then exists a d,
           run_full_analysis (new_analyzer "references/cicd_data.csv") w
           = (Returned (a, report_path "references/cicd_data.csv"), w') /\
           w' = write_file (report_path "references/cicd_data.csv") (DocxFile d) w
    else exists e,
           run_full_analysis (new_analyzer "references/cicd_data.csv") w
           = (Raised e, w') /\
           (w' = w \/
            (disk w (report_path "references/cicd_data.csv") = Interrupted e /\
             w' = write_file (report_path "references/cicd_data.csv") OtherFile w)).
Proof.
  unfold test_email_function, try_except, bind, ret.
  destruct (run_full_analysis _ w) as [[[a path]|e] w1] eqn:Hrun.
  - exists true, w1. split; [reflexivity|].
    destruct (run_full_analysis_inv _ _ _ _ _ Hrun) as (d & Hp & Hw).
    cbn [new_analyzer csv_file_path] in Hp. subst path.
    split; [rewrite Hw; reflexivity|].
    exists a, d. split; [reflexivity|exact Hw].
  - exists false, w1. split; [reflexivity|].
    pose proof (run_full_analysis_raised _ _ _ _ Hrun) as Hw.
    cbn [new_analyzer csv_file_path] in Hw.
    split.
    + destruct Hw as [->|[_ ->]]; reflexivity.
    + exists e. split; [reflexivity|exact Hw].
Qed.
